(** * The pro-forma calculation model of [proforma.py]

    The program is a straight-line Python script: it reads fourteen
    widget values, assigns twenty-one derived variables at module level
    (lines 123-169) and renders them.  The development embeds

    - the Python values the script computes with ([val]: [int], [float],
      [None]) and the arithmetic of the operators it uses, in an error
      monad for the exceptions Python raises;
    - the module's global namespace as a finite map from names to values;
    - the script itself, one assignment per source line;
    - the bounds of the int widgets and the positions of the float
      sliders the capital stack depends on (lines 15-118);
    - the twenty metric tiles of lines 185-226, each a label and the text
      of its f-string.

    The float arithmetic is an interface ([PyFloat]) with two instances:
    IEEE 754 binary64 (what CPython runs, [Binary64]) and exact rational
    arithmetic ([Exact]), the reading under which the formulas are
    identities between real-number quantities.

    The indented block at lines 173-178, which Python's parser rejects,
    is left out, as are the layout calls (columns, headers, captions): the
    development is about the calculation at lines 123-169 as it is
    written, the values it is run on and the texts it is shown by. *)

From Stdlib Require Import ZArith QArith Floats String Ascii List Lia.
From stdpp Require Import gmap strings pretty.

Local Open Scope string_scope.
Local Open Scope Z_scope.

(* Decimal float literals stand for the nearest double, as in Python. *)
#[local] Set Warnings "-inexact-float,-clear-no-such-hyp".

(** ** Exceptions *)

Inductive error := ZeroDivisionError | OverflowError | TypeError | NameError.

Inductive exn (A : Type) := Ok (a : A) | Raise (e : error).
Arguments Ok {A} a.
Arguments Raise {A} e.

Global Instance exn_ret : MRet exn := λ A a, Ok a.
Global Instance exn_bind : MBind exn :=
  λ A B f m, match m with Ok a => f a | Raise e => Raise e end.

(** ** Python numbers *)

(** The operations of Python's [float] that the script uses.  [of_int] is
    [float(n)] and [int_truediv] is [n / m] on two ints ([m] non-zero);
    both give [None] where CPython raises [OverflowError].  [feq_int] is
    the exact comparison [x == n] of a float with an int.  [fmt0] is
    [format(x, ',.0f')]. *)
Class PyFloat (F : Type) := {
  of_int : Z → option F;
  int_truediv : Z → Z → option F;
  fadd : F → F → F;
  fsub : F → F → F;
  fmul : F → F → F;
  fdiv : F → F → F;
  feqb : F → F → bool;
  fltb : F → F → bool;
  fleb : F → F → bool;
  feq_int : F → Z → bool;
  f0 : F;       (* 0.0 *)
  f1 : F;       (* 1.0 *)
  f100 : F;     (* 100.0 *)
  f1e_4 : F;    (* 0.0001 *)
  fmt0 : F → string
}.

(** What the proofs need to know about the comparisons with zero. *)
Class PyFloatLaws (F : Type) `{PyFloat F} : Type := {
  f1e_4_nonzero : feqb f1e_4 f0 = false;
  pos_nonzero : ∀ x, fltb f0 x = true → feqb x f0 = false;
  zero_le : ∀ x, feqb x f0 = true → fleb x f0 = true;
  le_not_pos : ∀ x, fleb x f0 = true → fltb f0 x = false;
  feq_int_zero : ∀ x, feq_int x 0 = feqb x f0
}.

Inductive val (F : Type) := VInt (z : Z) | VFloat (x : F) | VNone.
Arguments VInt {F} z.
Arguments VFloat {F} x.
Arguments VNone {F}.

Section Python.
Context {F : Type} `{PyFloat F}.

(** The coercion CPython applies to an operand of a float operation. *)
Definition to_float (v : val F) : exn F :=
  match v with
  | VInt z => match of_int z with Some x => Ok x | None => Raise OverflowError end
  | VFloat x => Ok x
  | VNone => Raise TypeError
  end.

(** [+], [-] and [*]: exact on two ints, float arithmetic otherwise. *)
Definition arith (iop : Z → Z → Z) (fop : F → F → F) (a b : val F) : exn (val F) :=
  match a, b with
  | VNone, _ | _, VNone => Raise TypeError
  | VInt x, VInt y => Ok (VInt (iop x y))
  | _, _ => x ← to_float a; y ← to_float b; Ok (VFloat (fop x y))
  end.

Definition py_add : val F → val F → exn (val F) := arith Z.add fadd.
Definition py_sub : val F → val F → exn (val F) := arith Z.sub fsub.
Definition py_mul : val F → val F → exn (val F) := arith Z.mul fmul.

(** [a / b]: always a float; a zero divisor raises. *)
Definition float_truediv (a b : val F) : exn F :=
  match a, b with
  | VNone, _ | _, VNone => Raise TypeError
  | VInt x, VInt y =>
      if y =? 0 then Raise ZeroDivisionError
      else match int_truediv x y with Some q => Ok q | None => Raise OverflowError end
  | _, _ =>
      x ← to_float a; y ← to_float b;
      if feqb y f0 then Raise ZeroDivisionError else Ok (fdiv x y)
  end.

Definition py_truediv (a b : val F) : exn (val F) :=
  q ← float_truediv a b; Ok (VFloat q).

(** [v > 0] and [v <= 0] against the int literal [0]. *)
Definition py_gt0 (v : val F) : exn bool :=
  match v with
  | VInt z => Ok (0 <? z)
  | VFloat x => Ok (fltb f0 x)
  | VNone => Raise TypeError
  end.

Definition py_le0 (v : val F) : exn bool :=
  match v with
  | VInt z => Ok (z <=? 0)
  | VFloat x => Ok (fleb x f0)
  | VNone => Raise TypeError
  end.

(** [a == b]; it never raises. *)
Definition py_eq (a b : val F) : bool :=
  match a, b with
  | VInt x, VInt y => x =? y
  | VFloat x, VFloat y => feqb x y
  | VFloat x, VInt y | VInt y, VFloat x => feq_int x y
  | VNone, VNone => true
  | _, _ => false
  end.

(** [a or b] on two comparisons: [b] is not evaluated when [a] holds. *)
Definition py_or (a b : exn bool) : exn bool :=
  t ← a; if t : bool then Ok true else b.

(** [format(v, ',.0f')]. *)
Definition py_format_0f (v : val F) : exn string :=
  match v with
  | VNone => Raise TypeError
  | _ => x ← to_float v; Ok (fmt0 x)
  end.

(** ** The namespace, expressions and statements *)

Definition expr : Type := gmap string (val F) → exn (val F).
Definition cond : Type := gmap string (val F) → exn bool.

Definition var (x : string) : expr :=
  λ s, match s !! x with Some v => Ok v | None => Raise NameError end.
Definition int (z : Z) : expr := λ _, Ok (VInt z).
Definition flt (x : F) : expr := λ _, Ok (VFloat x).
Definition binop (op : val F → val F → exn (val F)) (a b : expr) : expr :=
  λ s, x ← a s; y ← b s; op x y.
Definition gt0 (a : expr) : cond := λ s, x ← a s; py_gt0 x.
(** [a if c else b] *)
Definition ifelse (a : expr) (c : cond) (b : expr) : expr :=
  λ s, t ← c s; if t : bool then a s else b s.
Definition call3 (f : val F → val F → val F → exn (val F)) (a b c : expr) : expr :=
  λ s, x ← a s; y ← b s; z ← c s; f x y z.

(** A statement is an assignment [x = e]; a script is a list of them,
    run in order on the namespace. *)
Definition stmt : Type := string * expr.

Fixpoint exec (p : list stmt) (s : gmap string (val F)) : exn (gmap string (val F)) :=
  match p with
  | [] => Ok s
  | (x, e) :: q => v ← e s; exec q (<[x := v]> s)
  end.

Definition targets (p : list stmt) : list string := map fst p.

End Python.

Declare Scope py_scope.
Delimit Scope py_scope with py.
Notation "a +' b" := (binop py_add a b) (at level 50, left associativity) : py_scope.
Notation "a -' b" := (binop py_sub a b) (at level 50, left associativity) : py_scope.
Notation "a *' b" := (binop py_mul a b) (at level 40, left associativity) : py_scope.
Notation "a /' b" := (binop py_truediv a b) (at level 40, left associativity) : py_scope.
Notation "x ::= e" := (x, e%py) (at level 60, no associativity, only parsing) : py_scope.
Local Open Scope py_scope.

Section Script.
Context {F : Type} `{PyFloat F}.

(** [float.__pow__] on two floats.  CPython hands the computation to the
    platform's C library, so the function is a parameter of the model. *)
Variable pow : F → F → exn F.

(** Lines 160-167. *)
Definition calc_irr (equity_out equity_in years : val F) : exn (val F) :=
  stop ← py_or (py_or (py_le0 equity_in) (py_le0 equity_out)) (py_le0 years);
  if stop : bool then Ok VNone
  else
    r ← float_truediv equity_out equity_in;
    e ← float_truediv (VFloat f1) years;
    p ← pow r e;
    Ok (VFloat (fsub p f1)).

(** Lines 123-126. *)
Definition costs : list stmt := [
  "hard_costs" ::= var "buildable_sf" *' var "hard_cost_per_sf";
  "soft_costs" ::= var "hard_costs" *' (var "soft_cost_pct" /' flt f100);
  "contingency" ::=
    (var "hard_costs" +' var "soft_costs") *' (var "contingency_pct" /' flt f100);
  "total_project_cost" ::=
    var "land_cost" +' var "hard_costs" +' var "soft_costs" +' var "contingency"
].

(** Lines 129-130. *)
Definition financing : list stmt := [
  "loan_amount" ::= var "total_project_cost" *' (var "loan_to_cost" /' flt f100);
  "equity_required" ::= var "total_project_cost" -' var "loan_amount"
].

(** Lines 133-137. *)
Definition income : list stmt := [
  "pgi" ::= var "buildable_sf" *' var "rent_per_sf_year";
  "vacancy_loss" ::= var "pgi" *' (var "stabilized_vacancy_pct" /' flt f100);
  "egi" ::= var "pgi" -' var "vacancy_loss";
  "op_ex" ::= var "egi" *' (var "op_ex_pct" /' flt f100);
  "noi" ::= var "egi" -' var "op_ex"
].

(** Lines 140-143. *)
Definition exit_valuation : list stmt := [
  "cap_rate_decimal" ::=
    ifelse (var "exit_cap_rate" /' flt f100) (gt0 (var "exit_cap_rate")) (flt f1e_4);
  "stabilized_value" ::= var "noi" /' var "cap_rate_decimal";
  "sale_costs" ::= var "stabilized_value" *' (var "sale_cost_pct" /' flt f100);
  "net_sale_before_debt" ::= var "stabilized_value" -' var "sale_costs"
].

(** Lines 145-158. *)
Definition returns : list stmt := [
  "developer_profit_unlevered" ::=
    var "net_sale_before_debt" -' var "total_project_cost";
  "dev_margin_on_cost" ::=
    ifelse (var "developer_profit_unlevered" /' var "total_project_cost")
           (gt0 (var "total_project_cost")) (int 0);
  "equity_exit_cash" ::= var "net_sale_before_debt" -' var "loan_amount";
  "equity_profit" ::= var "equity_exit_cash" -' var "equity_required";
  "equity_multiple" ::=
    ifelse (var "equity_exit_cash" /' var "equity_required")
           (gt0 (var "equity_required")) (int 0)
].

(** Line 169. *)
Definition levered_irr : list stmt := [
  "irr" ::= call3 calc_irr (var "equity_exit_cash") (var "equity_required")
                  (var "hold_period_years")
].

(** Lines 123-169, the "Core Calculations". *)
Definition proforma : list stmt :=
  costs ++ financing ++ income ++ exit_valuation ++ returns ++ levered_irr.

(** Lines 123-158: everything before the call of [calc_irr]. *)
Definition before_irr : list stmt :=
  costs ++ financing ++ income ++ exit_valuation ++ returns.

(** Lines 222-226: the "Exit & Profit" row of metric tiles, each a label
    and the text [f"${v:,.0f}"]. *)
Definition metric (label x : string) : gmap string (val F) → exn (string * string) :=
  λ s, v ← var x s; txt ← py_format_0f v; Ok (label, "$" +:+ txt).

Definition exit_profit_tiles : gmap string (val F) → exn (list (string * string)) :=
  λ s,
    e1 ← metric "Net Sale Before Debt" "net_sale_before_debt" s;
    e2 ← metric "Unlevered Developer Profit" "developer_profit_unlevered" s;
    e3 ← metric "Equity Profit" "equity_profit" s;
    Ok [e1; e2; e3].

End Script.

(** ** Thousands separators: the digits of [format(n, ',')] *)

Fixpoint commas_rev (digits : list ascii) (k : nat) : list ascii :=
  match digits with
  | [] => []
  | c :: rest =>
      match k with
      | 3%nat => ","%char :: c :: commas_rev rest 1
      | _ => c :: commas_rev rest (S k)
      end
  end.

Definition commas (n : Z) : string :=
  string_of_list_ascii
    (rev (commas_rev (rev (list_ascii_of_string (pretty (Z.abs n)))) 0)).

(** The integer nearest to [m / d] ([m >= 0], [d > 0]), ties to even: the
    rounding of the ['f'] presentation type. *)
Definition round_half_even (m d : Z) : Z :=
  let q := m / d in
  match 2 * (m mod d) ?= d with
  | Lt => q
  | Gt => q + 1
  | Eq => if Z.even q then q else q + 1
  end.

(** ** Instance: IEEE 754 binary64, CPython's [float] *)

Module Binary64.

(** [float(n)]: the nearest double, ties to even; no result when that
    is beyond the largest double. *)
Definition of_Z (z : Z) : option float :=
  let x := SF2Prim (binary_normalize prec emax z 0 false) in
  if PrimFloat.is_infinity x then None else Some x.

Definition spec_of_int (z : Z) : spec_float :=
  match z with
  | Z0 => S754_zero false
  | Zpos p => S754_finite false p 0
  | Zneg p => S754_finite true p 0
  end.

(** [a / b] on ints: the correctly rounded quotient. *)
Definition div_Z (a b : Z) : option float :=
  let q := SF2Prim (SFdiv prec emax (spec_of_int a) (spec_of_int b)) in
  if PrimFloat.is_infinity q then None else Some q.

(** [x == n], decided on the exact value of [x]. *)
Definition eq_Z (x : float) (n : Z) : bool :=
  match Prim2SF x with
  | S754_zero _ => n =? 0
  | S754_finite s m e =>
      let a := if s then Zneg m else Zpos m in
      if 0 <=? e then n =? Z.shiftl a e else Z.shiftl n (- e) =? a
  | _ => false
  end.

Definition format0 (x : float) : string :=
  match Prim2SF x with
  | S754_nan => "nan"
  | S754_infinity s => if s then "-inf" else "inf"
  | S754_zero s => if s then "-0" else "0"
  | S754_finite s m e =>
      let n := if 0 <=? e then Z.shiftl (Zpos m) e
               else round_half_even (Zpos m) (Z.shiftl 1 (- e)) in
      (if s then "-" else "") +:+ commas n
  end.

#[global] Instance binary64 : PyFloat float := {|
  of_int := of_Z;
  int_truediv := div_Z;
  fadd := PrimFloat.add;
  fsub := PrimFloat.sub;
  fmul := PrimFloat.mul;
  fdiv := PrimFloat.div;
  feqb := PrimFloat.eqb;
  fltb := PrimFloat.ltb;
  fleb := PrimFloat.leb;
  feq_int := eq_Z;
  f0 := 0%float;
  f1 := 1%float;
  f100 := 100%float;
  f1e_4 := 0.0001%float;
  fmt0 := format0
|}.

End Binary64.

(** ** Instance: exact rational arithmetic *)

Module Exact.

Definition format0 (q : Q) : string :=
  (if Qnum q <? 0 then "-" else "")
    +:+ commas (round_half_even (Z.abs (Qnum q)) (Zpos (Qden q))).

#[global] Instance exact : PyFloat Q := {|
  of_int z := Some (inject_Z z);
  int_truediv a b := Some (inject_Z a / inject_Z b)%Q;
  fadd := Qplus;
  fsub := Qminus;
  fmul := Qmult;
  fdiv := Qdiv;
  feqb := Qeq_bool;
  fltb x y := negb (Qle_bool y x);
  fleb := Qle_bool;
  feq_int x n := Qeq_bool x (inject_Z n);
  f0 := 0%Q;
  f1 := 1%Q;
  f100 := 100%Q;
  f1e_4 := (1 # 10000)%Q;
  fmt0 := format0
|}.

End Exact.

(** ** The widgets (lines 15-118) *)

(** The names the sidebar binds, and the derived names the script assigns. *)
Definition input_names : list string := [
  "buildable_sf"; "units"; "land_cost"; "hard_cost_per_sf"; "soft_cost_pct";
  "contingency_pct"; "loan_to_cost"; "interest_rate"; "rent_per_sf_year";
  "stabilized_vacancy_pct"; "op_ex_pct"; "exit_cap_rate"; "sale_cost_pct";
  "hold_period_years"
].

Definition display_only : list string := ["units"; "interest_rate"].

(** The names the calculations read: every widget but the display-only two. *)
Definition used_inputs : list string :=
  filter (λ x, x ∉ display_only) input_names.

Definition derived_names : list string := [
  "hard_costs"; "soft_costs"; "contingency"; "total_project_cost";
  "loan_amount"; "equity_required";
  "pgi"; "vacancy_loss"; "egi"; "op_ex"; "noi";
  "cap_rate_decimal"; "stabilized_value"; "sale_costs"; "net_sale_before_debt";
  "developer_profit_unlevered"; "dev_margin_on_cost"; "equity_exit_cash";
  "equity_profit"; "equity_multiple"; "irr"
].

(** A namespace holding the fourteen widget values.  Sliders and number
    inputs created with int bounds return ints, the others floats. *)
Definition sidebar {F : Type}
    (buildable_sf units land_cost hard_cost_per_sf : Z)
    (soft_cost_pct contingency_pct loan_to_cost interest_rate : F)
    (rent_per_sf_year : Z)
    (stabilized_vacancy_pct op_ex_pct exit_cap_rate sale_cost_pct : F)
    (hold_period_years : Z) : gmap string (val F) :=
  list_to_map [
    ("buildable_sf", VInt buildable_sf);
    ("units", VInt units);
    ("land_cost", VInt land_cost);
    ("hard_cost_per_sf", VInt hard_cost_per_sf);
    ("soft_cost_pct", VFloat soft_cost_pct);
    ("contingency_pct", VFloat contingency_pct);
    ("loan_to_cost", VFloat loan_to_cost);
    ("interest_rate", VFloat interest_rate);
    ("rent_per_sf_year", VInt rent_per_sf_year);
    ("stabilized_vacancy_pct", VFloat stabilized_vacancy_pct);
    ("op_ex_pct", VFloat op_ex_pct);
    ("exit_cap_rate", VFloat exit_cap_rate);
    ("sale_cost_pct", VFloat sale_cost_pct);
    ("hold_period_years", VInt hold_period_years)
  ].

(** The widgets' initial values ([value=...]). *)
Definition defaults64 : gmap string (val float) :=
  sidebar 2000 10 500000 350 15%float 7.5%float 65%float 7%float 45
          5%float 35%float 5%float 1%float 4.

Definition defaultsQ : gmap string (val Q) :=
  sidebar 2000 10 500000 350 15%Q (15 # 2)%Q 65%Q 7%Q 45
          5%Q 35%Q 5%Q 1%Q 4.

(** Stand-ins for the C library's [pow], to run the whole script on
    concrete inputs: exponents 1, 1/2 and 1/4 by square roots.  The
    theorems hold for every [pow], and no value of irr computed with a
    stand-in is ever stated. *)
Definition pow_sample64 (x y : float) : exn float :=
  if PrimFloat.eqb y 1%float then Ok x
  else if PrimFloat.eqb y 0.5%float then Ok (PrimFloat.sqrt x)
  else if PrimFloat.eqb y 0.25%float then Ok (PrimFloat.sqrt (PrimFloat.sqrt x))
  else Raise OverflowError.

Definition pow_sampleQ (x y : Q) : exn Q :=
  if Qeq_bool y 1%Q then Ok x else Raise OverflowError.

(** ** What is stated about scripts *)

Section Scripts.
Context {F : Type} `{PyFloat F}.
Implicit Types (s : gmap string (val F)) (p q : list (@stmt F)) (R W : list string).

(** [x] holds the value of [e] in [s]. *)
Definition holds s (x : string) (e : @expr F) : Prop :=
  ∃ v, s !! x = Some v ∧ e s = Ok v.

Definition agree R s1 s2 : Prop := ∀ x, x ∈ R → s1 !! x = s2 !! x.

(** [e] looks at no name outside [R]. *)
Definition reads {A : Type} R (e : gmap string (val F) → exn A) : Prop :=
  ∀ s1 s2, agree R s1 s2 → e s1 = e s2.

(** Two runs end alike: the same exception, or namespaces equal on [W]. *)
Definition same_outcome W (r1 r2 : exn (gmap string (val F))) : Prop :=
  match r1, r2 with
  | Ok a, Ok b => agree W a b
  | Raise e1, Raise e2 => e1 = e2
  | _, _ => False
  end.

(** No statement reads a name that it or a later statement assigns, and
    no name is assigned twice. *)
Inductive single_assignment : list (@stmt F) → Prop :=
| sa_nil : single_assignment []
| sa_cons x e R q :
    reads R e →
    Forall (λ y, y ∉ x :: targets q) R →
    x ∉ targets q →
    single_assignment q →
    single_assignment ((x, e) :: q).

(** Every statement reads only names of [R] or names assigned before it. *)
Inductive depends_on : list string → list (@stmt F) → Prop :=
| dep_nil R : depends_on R []
| dep_cons R R' x e q :
    reads R' e →
    Forall (λ y, y ∈ R) R' →
    depends_on (x :: R) q →
    depends_on R ((x, e) :: q).

End Scripts.

Notation "s ⊨ x ≐ e" := (holds s x e%py) (at level 70, x at next level, no associativity).

(** ** Concrete runs *)

(** Reading off the result of a run on concrete inputs. *)
Definition is_ok {A : Type} (r : exn A) : bool :=
  match r with Ok _ => true | Raise _ => false end.

Definition result_of {A : Type} (d : A) (r : exn A) : A :=
  match r with Ok a => a | Raise _ => d end.

(** The final namespace of the run on the default widget values. *)
Definition final64 : gmap string (val float) :=
  result_of ∅ (exec (proforma pow_sample64) defaults64).

(** The run of lines 123-143 on the default widget values. *)
Definition before_returns64 : gmap string (val float) :=
  result_of ∅ (exec (costs ++ financing ++ income ++ exit_valuation) defaults64).

(** A run on the exact arithmetic, for concrete checks: the defaults with a
    hold period of one year ([pow_sampleQ] serves the exponent 1 only). *)
Definition one_yearQ : gmap string (val Q) :=
  <["hold_period_years" := VInt 1]> defaultsQ.

Definition finalQ : gmap string (val Q) :=
  result_of ∅ (exec (proforma pow_sampleQ) one_yearQ).

(** A namespace as a previous run leaves it, the widgets unchanged. *)
Definition rerun64 : gmap string (val float) :=
  <["irr" := VNone]> (<["hard_costs" := VInt 1]> defaults64).

(** loan_to_cost = 100 leaves no equity: equity_required is 0.0. *)
Definition all_debt64 : gmap string (val float) :=
  <["loan_to_cost" := VFloat 100%float]> defaults64.

Definition final_all_debt64 : gmap string (val float) :=
  result_of ∅ (exec (proforma pow_sample64) all_debt64).

(** The values of the spec's scenarios A and B. *)
Definition scenario_A (s : gmap string (val float)) : Prop :=
  s !! "hard_costs" = Some (VInt 700000) ∧
  s !! "soft_costs" = Some (VFloat 105000%float) ∧
  s !! "contingency" = Some (VFloat 60375%float) ∧
  s !! "total_project_cost" = Some (VFloat 1365375%float).

Definition scenario_B (s : gmap string (val float)) : Prop :=
  s !! "loan_amount" = Some (VFloat 887493.75%float) ∧
  s !! "equity_required" = Some (VFloat 477881.25%float).

(** ** The bounds of the int widgets and the positions of the float sliders *)

(** [min_value], [max_value], [value] and [step] of a slider or number
    input created with int arguments. *)
Record int_widget := IntWidget { min_value : Z; max_value : Z; value : Z; step : Z }.

Definition buildable_sf_widget : int_widget := IntWidget 1000 30000 2000 100.
Definition units_widget : int_widget := IntWidget 1 100 10 1.
Definition land_cost_widget : int_widget := IntWidget 0 1000000 500000 10000.
Definition hard_cost_per_sf_widget : int_widget := IntWidget 100 800 350 10.
Definition rent_per_sf_year_widget : int_widget := IntWidget 15 100 45 1.
Definition hold_period_years_widget : int_widget := IntWidget 1 10 4 1.

(** The widget returns an int between its bounds. *)
Definition offers (w : int_widget) (z : Z) : Prop := min_value w <= z <= max_value w.

(** The positions of a float slider: [min_value], [min_value + step], ... *)
Fixpoint slider_values (x step : float) (n : nat) : list float :=
  match n with
  | O => []
  | S n' => x :: slider_values (x + step)%float step n'
  end.

(** Lines 45-65: 5.0, 6.0, ..., 30.0; 0.0, 0.5, ..., 15.0; 0.0, 1.0, ..., 85.0. *)
Definition soft_cost_pct_values : list float := slider_values 5%float 1%float 26.
Definition contingency_pct_values : list float := slider_values 0%float 0.5%float 31.
Definition loan_to_cost_values : list float := slider_values 0%float 1%float 86.

(** Lines 98-104: 3.0, 3.25, ..., 10.0. *)
Definition exit_cap_rate_values : list float := slider_values 3%float 0.25%float 29.

(** ** What the run needs of the arithmetic *)

(** [100.0] is not zero, and [float(n)] returns, with a non-zero result
    for a non-zero [n], on the ints a double represents exactly. *)
Class PyFloatInts (F : Type) `{PyFloat F} : Type := {
  f100_nonzero : feqb f100 f0 = false;
  of_int_small : ∀ z, Z.abs z < 2 ^ 53 → is_Some (of_int z);
  of_int_nonzero : ∀ z x, Z.abs z < 2 ^ 53 → of_int z = Some x → feqb x f0 = true → z = 0
}.

(** ** The metric tiles (lines 185-226) *)

(** [format(x, ',.kf')]: [k] decimals, thousands separators. *)
Class PyFormat (F : Type) := { fmt_f : nat → F → string }.

Definition zero_pad (k : nat) (digits : string) : string :=
  string_of_list_ascii (replicate (k - String.length digits) "0"%char) +:+ digits.

(** The text of [n / 10^k] with [k] decimals, [n >= 0]. *)
Definition fixed (k : nat) (n : Z) : string :=
  match k with
  | O => commas n
  | _ => commas (n / 10 ^ Z.of_nat k) +:+ "." +:+ zero_pad k (pretty (n mod 10 ^ Z.of_nat k))
  end.

(** On a double: the exact value, rounded to [k] decimals, ties to even. *)
Definition binary64_format_f (k : nat) (x : float) : string :=
  match Prim2SF x with
  | S754_nan => "nan"
  | S754_infinity s => if s then "-inf" else "inf"
  | S754_zero s => (if s then "-" else "") +:+ fixed k 0
  | S754_finite s m e =>
      let n := if 0 <=? e then Z.shiftl (Zpos m) e * 10 ^ Z.of_nat k
               else round_half_even (Zpos m * 10 ^ Z.of_nat k) (Z.shiftl 1 (- e)) in
      (if s then "-" else "") +:+ fixed k n
  end.

Definition exact_format_f (k : nat) (q : Q) : string :=
  (if Qnum q <? 0 then "-" else "")
    +:+ fixed k (round_half_even (Z.abs (Qnum q) * 10 ^ Z.of_nat k) (Zpos (Qden q))).

#[global] Instance binary64_format : PyFormat float := {| fmt_f := binary64_format_f |}.
#[global] Instance exact_format : PyFormat Q := {| fmt_f := exact_format_f |}.

Section Display.
Context {F : Type} `{PyFloat F} `{PyFormat F}.

Definition py_format_f (k : nat) (v : val F) : exn string :=
  match v with
  | VNone => Raise TypeError
  | _ => x ← to_float v; Ok (fmt_f k x)
  end.

Definition tile : Type := gmap string (val F) → exn (string * string).

(** [metric(label, f"{x*100:,.1f}%")] *)
Definition percent_metric (label x : string) : tile :=
  λ s, v ← var x s; w ← py_mul v (VInt 100); txt ← py_format_f 1 w;
       Ok (label, txt +:+ "%").

(** [metric(label, f"{x:,.2f}x")] *)
Definition multiple_metric (label x : string) : tile :=
  λ s, v ← var x s; txt ← py_format_f 2 v; Ok (label, txt +:+ "x").

(** Lines 196-199: the IRR as a percentage, or "N/A" for [None]. *)
Definition irr_metric : tile :=
  λ s, v ← var "irr" s;
       match v with
       | VNone => Ok ("Levered IRR", "N/A")
       | _ => w ← py_mul v (VInt 100); txt ← py_format_f 1 w;
              Ok ("Levered IRR", txt +:+ "%")
       end.

(** The tiles of a row, rendered from left to right. *)
Fixpoint render (row : list tile) (s : gmap string (val F)) : exn (list (string * string)) :=
  match row with
  | [] => Ok []
  | t :: row' => x ← t s; xs ← render row' s; Ok (x :: xs)
  end.

(** Lines 187-199. *)
Definition deal_snapshot : list tile := [
  metric "Equity Required" "equity_required";
  metric "Total Project Cost" "total_project_cost";
  percent_metric "Dev Margin on Cost" "dev_margin_on_cost";
  multiple_metric "Equity Multiple" "equity_multiple";
  metric "Stabilized NOI (Year 1)" "noi";
  metric "Stabilized Value" "stabilized_value";
  irr_metric
].

(** Lines 204-208. *)
Definition mini_pro_forma : list tile := [
  metric "Potential Gross Income (PGI)" "pgi";
  metric "Vacancy Loss" "vacancy_loss";
  metric "Effective Gross Income (EGI)" "egi";
  metric "Operating Expenses" "op_ex"
].

(** Lines 211-215. *)
Definition cost_breakdown : list tile := [
  metric "Land Cost" "land_cost";
  metric "Hard Costs" "hard_costs";
  metric "Soft Costs" "soft_costs";
  metric "Contingency" "contingency"
].

(** Lines 218-220. *)
Definition capital_stack : list tile := [
  metric "Loan Amount" "loan_amount";
  metric "Equity" "equity_required"
].

(** Lines 185-226: every tile of the page, in the order it is rendered. *)
Definition page (s : gmap string (val F)) : exn (list (string * string)) :=
  a ← render deal_snapshot s;
  b ← render mini_pro_forma s;
  c ← render cost_breakdown s;
  d ← render capital_stack s;
  e ← exit_profit_tiles s;
  Ok (a ++ b ++ c ++ d ++ e)%list.

End Display.

(** ** Further concrete runs *)

(** loan_to_cost = 0.0, the slider's minimum: an all-equity deal. *)
Definition all_equity64 : gmap string (val float) :=
  <["loan_to_cost" := VFloat 0%float]> defaults64.

Definition final_all_equity64 : gmap string (val float) :=
  result_of ∅ (exec (proforma pow_sample64) all_equity64).

(** The defaults with other values of the two display-only widgets. *)
Definition other_display64 : gmap string (val float) :=
  <["units" := VInt 99]> (<["interest_rate" := VFloat 3.25%float]> defaults64).

Definition final_other_display64 : gmap string (val float) :=
  result_of ∅ (exec (proforma pow_sample64) other_display64).

(** ** Positive doubles *)

(** [x] is a positive finite double with [2^(lo-1) <= x < 2^hi]. *)
Definition positive_double (x : float) (lo hi : Z) : Prop :=
  ∃ m e, Prim2SF x = S754_finite false m e ∧ lo <= Zpos (digits2_pos m) + e <= hi.

(** * Properties of scripts *)

Lemma bind_Ok {A B : Type} (m : exn A) (k : A → exn B) (b : B) :
  m ≫= k = Ok b → ∃ a, m = Ok a ∧ k a = Ok b.
Proof. destruct m as [a|e]; simpl; [eauto | discriminate]. Qed.

Section ScriptLemmas.
Context {F : Type} `{PyFloat F}.
Implicit Types (s : gmap string (val F)) (p q : list (@stmt F)) (R W : list string).
Implicit Types (a b : @expr F).

Lemma agree_weaken R R' s1 s2 :
  agree R s1 s2 → Forall (λ y, y ∈ R) R' → agree R' s1 s2.
Proof. intros Ha Hsub x Hx. apply Ha. rewrite Forall_forall in Hsub. auto. Qed.

Lemma agree_app R R' s1 s2 : agree (R ++ R') s1 s2 → agree R s1 s2 ∧ agree R' s1 s2.
Proof. intros Ha; split; intros x Hx; apply Ha; set_solver. Qed.

Lemma reads_var x : reads [x] (var (F:=F) x).
Proof. intros s1 s2 Ha. unfold var. rewrite (Ha x); [done | set_solver]. Qed.

Lemma reads_int z : reads [] (int (F:=F) z).
Proof. done. Qed.

Lemma reads_flt (x : F) : reads [] (flt x).
Proof. done. Qed.

Lemma reads_binop op a b R1 R2 :
  reads R1 a → reads R2 b → reads (R1 ++ R2) (binop op a b).
Proof.
  intros Ha Hb s1 s2 [H1 H2]%agree_app. unfold binop.
  by rewrite (Ha _ _ H1), (Hb _ _ H2).
Qed.

Lemma reads_gt0 a R : reads R a → reads R (gt0 a).
Proof. intros Ha s1 s2 Hs. unfold gt0. by rewrite (Ha _ _ Hs). Qed.

Lemma reads_ifelse a (c : @cond F) b R1 R2 R3 :
  reads R1 a → reads R2 c → reads R3 b → reads (R1 ++ R2 ++ R3) (ifelse a c b).
Proof.
  intros Ha Hc Hb s1 s2 [H1 [H2 H3]%agree_app]%agree_app. unfold ifelse.
  by rewrite (Ha _ _ H1), (Hc _ _ H2), (Hb _ _ H3).
Qed.

Lemma reads_call3 f a b (c : @expr F) R1 R2 R3 :
  reads R1 a → reads R2 b → reads R3 c → reads (R1 ++ R2 ++ R3) (call3 f a b c).
Proof.
  intros Ha Hb Hc s1 s2 [H1 [H2 H3]%agree_app]%agree_app. unfold call3.
  by rewrite (Ha _ _ H1), (Hb _ _ H2), (Hc _ _ H3).
Qed.

Lemma exec_app p q s : exec (p ++ q) s = exec p s ≫= exec q.
Proof.
  revert s. induction p as [|[x e] p IH]; intros s; simpl; [done|].
  destruct (e s) as [v|err]; simpl; [apply IH | done].
Qed.

(** A run changes only the names it assigns. *)
Lemma exec_frame p s s' x :
  exec p s = Ok s' → x ∉ targets p → s' !! x = s !! x.
Proof.
  revert s. induction p as [|[y e] p IH]; intros s; simpl.
  - by intros [= ->].
  - intros (v & _ & Hq)%bind_Ok Hx.
    rewrite (IH _ Hq) by set_solver.
    apply lookup_insert_ne. set_solver.
Qed.

(** In a single-assignment script, every variable still holds the value
    of its defining expression when the run ends. *)
Lemma exec_holds p s s' :
  single_assignment p → exec p s = Ok s' →
  ∀ x e, (x, e) ∈ p → holds s' x e.
Proof.
  intros Hsa. revert s. induction Hsa as [|x e R q Hr Hdisj Hx Hsa IH]; intros s Hrun y e' Hin.
  - by apply elem_of_nil in Hin.
  - simpl in Hrun. apply bind_Ok in Hrun as (v & He & Hq).
    apply elem_of_cons in Hin as [[= -> ->]|Hin]; [|by eapply IH].
    exists v. split.
    + rewrite (exec_frame _ _ _ _ Hq Hx). apply lookup_insert_eq.
    + rewrite <- He. apply Hr. intros z Hz.
      rewrite Forall_forall in Hdisj. specialize (Hdisj z Hz).
      rewrite (exec_frame _ _ _ _ Hq) by set_solver.
      apply lookup_insert_ne. set_solver.
Qed.

(** The outcome of a run is a function of the names the script depends on. *)
Lemma exec_depends R p :
  depends_on R p → ∀ s1 s2, agree R s1 s2 →
  same_outcome (targets p ++ R) (exec p s1) (exec p s2).
Proof.
  induction 1 as [R|R R' x e q Hr Hsub Hq IH]; intros s1 s2 Ha; simpl.
  - done.
  - rewrite <- (Hr s1 s2) by (by eapply agree_weaken).
    destruct (e s1) as [v|err]; simpl; [|done].
    specialize (IH (<[x:=v]> s1) (<[x:=v]> s2)).
    destruct (exec q (<[x:=v]> s1)), (exec q (<[x:=v]> s2)); simpl in *;
      try (apply IH; intros y Hy; apply elem_of_cons in Hy as [->|Hy];
           [by rewrite !lookup_insert_eq|]; rewrite !lookup_insert; case_decide; auto).
    intros y Hy. apply IH; [|set_solver].
    intros z Hz. rewrite !lookup_insert. case_decide; [done|]. apply Ha. set_solver.
Qed.

End ScriptLemmas.

Create HintDb reads.
#[global] Hint Resolve reads_var reads_int reads_flt reads_binop reads_gt0
  reads_ifelse reads_call3 : reads.

(** * The script *)

Section Proforma.
Context {F : Type} `{PyFloat F}.
Variable pow : F → F → exn F.
Implicit Types (s : gmap string (val F)).

Lemma proforma_targets : targets (proforma pow) = derived_names.
Proof. reflexivity. Qed.

Lemma proforma_single_assignment : single_assignment (proforma pow).
Proof.
  unfold proforma, costs, financing, income, exit_valuation, returns, levered_irr.
  simpl.
  repeat (eapply sa_cons; [solve [eauto 20 with reads] | compute_done | compute_done |]).
  apply sa_nil.
Qed.

Lemma proforma_depends : depends_on used_inputs (proforma pow).
Proof.
  unfold proforma, costs, financing, income, exit_valuation, returns, levered_irr.
  simpl.
  repeat (eapply dep_cons; [solve [eauto 20 with reads] | compute_done |]).
  apply dep_nil.
Qed.

End Proforma.

(** * The two arithmetics satisfy the laws *)

Lemma binary64_pos_nonzero (x : float) :
  PrimFloat.ltb 0 x = true → PrimFloat.eqb x 0 = false.
Proof.
  rewrite FloatAxioms.ltb_spec, FloatAxioms.eqb_spec. change (Prim2SF 0) with (S754_zero false).
  destruct (Prim2SF x) as [[]|[]| |[] m e]; cbv; congruence.
Qed.

Lemma binary64_zero_le (x : float) :
  PrimFloat.eqb x 0 = true → PrimFloat.leb x 0 = true.
Proof.
  rewrite FloatAxioms.leb_spec, FloatAxioms.eqb_spec. change (Prim2SF 0) with (S754_zero false).
  destruct (Prim2SF x) as [[]|[]| |[] m e]; cbv; congruence.
Qed.

Lemma binary64_le_not_pos (x : float) :
  PrimFloat.leb x 0 = true → PrimFloat.ltb 0 x = false.
Proof.
  rewrite FloatAxioms.leb_spec, FloatAxioms.ltb_spec. change (Prim2SF 0) with (S754_zero false).
  destruct (Prim2SF x) as [[]|[]| |[] m e]; cbv; congruence.
Qed.

Lemma binary64_eq_Z_zero (x : float) :
  Binary64.eq_Z x 0 = PrimFloat.eqb x 0.
Proof.
  unfold Binary64.eq_Z. rewrite FloatAxioms.eqb_spec. change (Prim2SF 0) with (S754_zero false).
  destruct (Prim2SF x) as [[]|[]| |s m e]; try reflexivity.
  transitivity false; [|by destruct s].
  destruct (0 <=? e) eqn:He.
  - apply Z.eqb_neq. intros Hz. symmetry in Hz.
    apply Z.shiftl_eq_0_iff in Hz; [by destruct s | lia].
  - rewrite Z.shiftl_0_l. by destruct s.
Qed.

#[global] Instance binary64_laws : @PyFloatLaws float Binary64.binary64 :=
  Build_PyFloatLaws float Binary64.binary64 eq_refl
    binary64_pos_nonzero binary64_zero_le binary64_le_not_pos binary64_eq_Z_zero.

Lemma exact_pos_nonzero (x : Q) :
  negb (Qle_bool x 0) = true → Qeq_bool x 0 = false.
Proof.
  intros Hx. apply negb_true_iff in Hx.
  apply not_true_iff_false. intros He%Qeq_bool_iff.
  assert (Qle_bool x 0 = true) by (apply Qle_bool_iff; rewrite He; apply Qle_refl).
  congruence.
Qed.

Lemma exact_zero_le (x : Q) : Qeq_bool x 0 = true → Qle_bool x 0 = true.
Proof.
  intros He%Qeq_bool_iff. apply Qle_bool_iff. rewrite He. apply Qle_refl.
Qed.

Lemma exact_le_not_pos (x : Q) : Qle_bool x 0 = true → negb (Qle_bool x 0) = false.
Proof. by intros ->. Qed.

#[global] Instance exact_laws : @PyFloatLaws Q Exact.exact :=
  Build_PyFloatLaws Q Exact.exact eq_refl
    exact_pos_nonzero exact_zero_le exact_le_not_pos (λ x, eq_refl).

(** * Python arithmetic *)

Section Arithmetic.
Context {F : Type} `{PyFloatLaws F}.
Implicit Types (a b v : val F) (x y : F).

(** An operation with a float operand yields a float. *)
Lemma arith_float_r iop fop a y v :
  arith iop fop a (VFloat y) = Ok v →
  ∃ x, to_float a = Ok x ∧ v = VFloat (fop x y).
Proof.
  destruct a as [z|x|]; simpl; [|intros [= <-]; eauto|done].
  destruct (of_int z); simpl; [intros [= <-]; eauto|done].
Qed.

Lemma py_truediv_Ok a b v :
  py_truediv a b = Ok v → ∃ q, float_truediv a b = Ok q ∧ v = VFloat q.
Proof. unfold py_truediv. intros (q & ? & [= <-])%bind_Ok. eauto. Qed.

Lemma py_le0_not_gt0 v : py_le0 v = Ok true → py_gt0 v = Ok false.
Proof.
  destruct v as [z|x|]; simpl; [| |done]; intros [= Hle]; f_equal.
  - apply Z.ltb_ge. by apply Z.leb_le.
  - by apply le_not_pos.
Qed.

Lemma py_eq0_not_gt0 v : py_eq v (VInt 0) = true → py_gt0 v = Ok false.
Proof.
  destruct v as [z|x|]; simpl; [| |done]; intros Hz; f_equal.
  - apply Z.eqb_eq in Hz as ->. reflexivity.
  - rewrite feq_int_zero in Hz. destruct (fltb f0 x) eqn:Hgt; [|done].
    apply pos_nonzero in Hgt. congruence.
Qed.

Lemma py_eq0_le0 v : py_eq v (VInt 0) = true → py_le0 v = Ok true.
Proof.
  destruct v as [z|x|]; simpl; [| |done]; intros Hz; f_equal.
  - apply Z.eqb_eq in Hz as ->. reflexivity.
  - rewrite feq_int_zero in Hz. by apply zero_le.
Qed.

Lemma py_or_true (a b : exn bool) :
  py_or a b = Ok true ↔ a = Ok true ∨ (a = Ok false ∧ b = Ok true).
Proof. destruct a as [[]|]; simpl; naive_solver. Qed.

Lemma py_or_false (a b : exn bool) :
  py_or a b = Ok false ↔ a = Ok false ∧ b = Ok false.
Proof. destruct a as [[]|]; simpl; naive_solver. Qed.

End Arithmetic.

(** * Reading values off the final namespace *)

Section Values.
Context {F : Type} `{PyFloat F}.
Implicit Types (s : gmap string (val F)) (a b : @expr F) (v : val F).

Lemma var_Ok s x v : var x s = Ok v ↔ s !! x = Some v.
Proof. unfold var. destruct (s !! x); naive_solver. Qed.

Lemma binop_Ok op a b s v :
  binop op a b s = Ok v ↔ ∃ va vb, a s = Ok va ∧ b s = Ok vb ∧ op va vb = Ok v.
Proof.
  unfold binop. split.
  - intros (va & Ha & (vb & Hb & Hop)%bind_Ok)%bind_Ok. eauto.
  - intros (va & vb & -> & -> & Hop). done.
Qed.

End Values.

Ltac in_script :=
  repeat first [apply list_elem_of_here | apply list_elem_of_further].

Ltac final_value Hrun :=
  eapply exec_holds; [apply proforma_single_assignment | exact Hrun | in_script].

Lemma is_ok_result {A : Type} (d : A) (r : exn A) :
  is_ok r = true → r = Ok (result_of d r).
Proof. destruct r; [reflexivity | discriminate]. Qed.

Lemma run_defaults64 : exec (proforma pow_sample64) defaults64 = Ok final64.
Proof. apply is_ok_result. vm_compute. reflexivity. Qed.

(** C2. When the script has run, the four cost variables hold the values
    of their defining formulas: hard_costs = buildable_sf * hard_cost_per_sf,
    soft_costs = hard_costs * (soft_cost_pct / 100), contingency =
    (hard_costs + soft_costs) * (contingency_pct / 100), total_project_cost =
    land_cost + hard_costs + soft_costs + contingency, the widget values
    being the ones the run started from. *)
Theorem cost_stack_exact {F : Type} `{PyFloat F} (pow : F → F → exn F)
    (s s' : gmap string (val F)) :
  exec (proforma pow) s = Ok s' →
  (∀ x, x ∈ input_names → s' !! x = s !! x) ∧
  s' ⊨ "hard_costs" ≐ var "buildable_sf" *' var "hard_cost_per_sf" ∧
  s' ⊨ "soft_costs" ≐ var "hard_costs" *' (var "soft_cost_pct" /' flt f100) ∧
  s' ⊨ "contingency" ≐
    (var "hard_costs" +' var "soft_costs") *' (var "contingency_pct" /' flt f100) ∧
  s' ⊨ "total_project_cost" ≐
    var "land_cost" +' var "hard_costs" +' var "soft_costs" +' var "contingency".
Proof.
  intros Hrun. split; [|repeat split; final_value Hrun].
  intros x Hx. eapply exec_frame; [exact Hrun|].
  rewrite proforma_targets. revert Hx. unfold input_names, derived_names.
  rewrite !elem_of_cons, !elem_of_nil. intros Hx Hd.
  repeat (destruct Hx as [->|Hx]; [repeat (destruct Hd as [[=]|Hd]); done|]); done.
Qed.

Lemma cost_stack_exact_witness :
  (∀ x, x ∈ input_names → final64 !! x = defaults64 !! x) ∧
  final64 ⊨ "hard_costs" ≐ var "buildable_sf" *' var "hard_cost_per_sf" ∧
  final64 ⊨ "soft_costs" ≐ var "hard_costs" *' (var "soft_cost_pct" /' flt f100) ∧
  final64 ⊨ "contingency" ≐
    (var "hard_costs" +' var "soft_costs") *' (var "contingency_pct" /' flt f100) ∧
  final64 ⊨ "total_project_cost" ≐
    var "land_cost" +' var "hard_costs" +' var "soft_costs" +' var "contingency".
Proof. exact (cost_stack_exact pow_sample64 defaults64 final64 run_defaults64). Defined.

(** C6. When the script has run, the five income variables hold the
    values of their defining formulas: pgi = buildable_sf *
    rent_per_sf_year, vacancy_loss = pgi * (stabilized_vacancy_pct / 100),
    egi = pgi - vacancy_loss, op_ex = egi * (op_ex_pct / 100) and
    noi = egi - op_ex. *)
Theorem income_chain_exact {F : Type} `{PyFloat F} (pow : F → F → exn F)
    (s s' : gmap string (val F)) :
  exec (proforma pow) s = Ok s' →
  s' ⊨ "pgi" ≐ var "buildable_sf" *' var "rent_per_sf_year" ∧
  s' ⊨ "vacancy_loss" ≐ var "pgi" *' (var "stabilized_vacancy_pct" /' flt f100) ∧
  s' ⊨ "egi" ≐ var "pgi" -' var "vacancy_loss" ∧
  s' ⊨ "op_ex" ≐ var "egi" *' (var "op_ex_pct" /' flt f100) ∧
  s' ⊨ "noi" ≐ var "egi" -' var "op_ex".
Proof. intros Hrun. repeat split; final_value Hrun. Qed.

Lemma income_chain_exact_witness :
  final64 ⊨ "pgi" ≐ var "buildable_sf" *' var "rent_per_sf_year" ∧
  final64 ⊨ "vacancy_loss" ≐ var "pgi" *' (var "stabilized_vacancy_pct" /' flt f100) ∧
  final64 ⊨ "egi" ≐ var "pgi" -' var "vacancy_loss" ∧
  final64 ⊨ "op_ex" ≐ var "egi" *' (var "op_ex_pct" /' flt f100) ∧
  final64 ⊨ "noi" ≐ var "egi" -' var "op_ex".
Proof. exact (income_chain_exact pow_sample64 defaults64 final64 run_defaults64). Defined.

(** The guard of [calc_irr]: with comparable arguments, a non-positive
    equity_in, equity_out or years gives [None] and nothing is raised. *)
Lemma calc_irr_guard {F : Type} `{PyFloat F} (pow : F → F → exn F)
    (equity_out equity_in years : val F) :
  equity_out ≠ VNone → equity_in ≠ VNone → years ≠ VNone →
  py_le0 equity_in = Ok true ∨ py_le0 equity_out = Ok true ∨ py_le0 years = Ok true →
  calc_irr pow equity_out equity_in years = Ok VNone.
Proof.
  intros Ho Hi Hy. unfold calc_irr.
  destruct equity_in as [zi|xi|], equity_out as [zo|xo|], years as [zy|xy|];
    try done; simpl;
    repeat match goal with
    | |- context [if ?b then _ else _] => destruct b eqn:?; simpl
    end; try done; naive_solver.
Qed.

Lemma calc_irr_Ok {F : Type} `{PyFloat F} (pow : F → F → exn F)
    (equity_out equity_in years irr : val F) :
  calc_irr pow equity_out equity_in years = Ok irr →
  (irr = VNone ↔
     py_le0 equity_in = Ok true ∨ py_le0 equity_out = Ok true ∨
     py_le0 years = Ok true) ∧
  (irr ≠ VNone →
     ∃ r e p, float_truediv equity_out equity_in = Ok r ∧
              float_truediv (VFloat f1) years = Ok e ∧
              pow r e = Ok p ∧ irr = VFloat (fsub p f1)).
Proof.
  unfold calc_irr. intros (stop & Hstop & Hirr)%bind_Ok.
  destruct stop.
  - injection Hirr as <-. split; [|done]. split; [intros _|done].
    apply py_or_true in Hstop as [Hstop|[_ ?]]; [|by auto].
    apply py_or_true in Hstop as [?|[_ ?]]; auto.
  - apply py_or_false in Hstop as [Hstop Hy].
    apply py_or_false in Hstop as [Hi Ho].
    apply bind_Ok in Hirr as (r & Hr & Hirr).
    apply bind_Ok in Hirr as (e & He & Hirr).
    apply bind_Ok in Hirr as (p & Hp & [= <-]).
    split; [split; [done|]|by eauto 10].
    intros [?|[?|?]]; congruence.
Qed.



(** * Guards and divisions *)

Ltac solve_single_assignment :=
  unfold proforma, costs, financing, income, exit_valuation, returns, levered_irr;
  simpl;
  repeat (eapply sa_cons; [solve [eauto 20 with reads] | compute_done | compute_done |]);
  apply sa_nil.

Ltac block_value Hrun :=
  eapply exec_holds; [| exact Hrun |]; [solve_single_assignment | in_script].

Section Guards.
Context {F : Type} `{PyFloatLaws F}.
Implicit Types (s : gmap string (val F)) (a b : @expr F) (v : val F).

(** A variable defined by [+], [-] or [*] with a quotient on the right
    holds a float. *)
Lemma holds_arith_quotient s x iop fop a b c :
  s ⊨ x ≐ binop (arith iop fop) a (b /' c) → ∃ y, s !! x = Some (VFloat y).
Proof.
  intros (v & Hx & (va & vb & _ & Hb & Hop)%binop_Ok).
  apply binop_Ok in Hb as (? & ? & _ & _ & (q & _ & ->)%py_truediv_Ok).
  apply arith_float_r in Hop as (y & _ & ->). eauto.
Qed.

(** The same with a float variable on the right. *)
Lemma holds_arith_float s x iop fop a z y :
  s ⊨ x ≐ binop (arith iop fop) a (var z) → s !! z = Some (VFloat y) →
  ∃ y', s !! x = Some (VFloat y').
Proof.
  intros (v & Hx & (va & vb & _ & Hb%var_Ok & Hop)%binop_Ok) Hz.
  assert (vb = VFloat y) as -> by congruence.
  apply arith_float_r in Hop as (y' & _ & ->). eauto.
Qed.

(** Reading a conditional expression [a if x > 0 else b]. *)
Lemma ifelse_gt0_Ok s a x b v w :
  ifelse a (gt0 (var x)) b s = Ok v → s !! x = Some w →
  ∃ t, py_gt0 w = Ok t ∧ (if t then a s else b s) = Ok v.
Proof.
  unfold ifelse, gt0. intros (t & (w' & Hw%var_Ok & Ht)%bind_Ok & Hv)%bind_Ok Hx.
  assert (w' = w) as -> by congruence. eauto.
Qed.

End Guards.

(** C3. When the script has run: if exit_cap_rate <= 0 then
    cap_rate_decimal is 0.0001 and stabilized_value is noi / 0.0001; if
    exit_cap_rate > 0 then cap_rate_decimal is exit_cap_rate / 100 and
    stabilized_value is noi / cap_rate_decimal.  And once lines 123-137
    have run, lines 140-141 return with the clamped values whenever
    exit_cap_rate <= 0: no division error. *)
Theorem exit_cap_rate_clamp {F : Type} `{PyFloatLaws F} (pow : F → F → exn F)
    (s : gmap string (val F)) :
  (∀ s', exec (proforma pow) s = Ok s' →
     ∃ exit_cap_rate noi cap_rate_decimal stabilized_value,
       s' !! "exit_cap_rate" = Some exit_cap_rate ∧
       s' !! "noi" = Some noi ∧
       s' !! "cap_rate_decimal" = Some cap_rate_decimal ∧
       s' !! "stabilized_value" = Some stabilized_value ∧
       (py_le0 exit_cap_rate = Ok true →
          cap_rate_decimal = VFloat f1e_4 ∧
          py_truediv noi (VFloat f1e_4) = Ok stabilized_value) ∧
       (py_gt0 exit_cap_rate = Ok true →
          py_truediv exit_cap_rate (VFloat f100) = Ok cap_rate_decimal ∧
          py_truediv noi cap_rate_decimal = Ok stabilized_value)) ∧
  (∀ s1 exit_cap_rate,
     exec (costs ++ financing ++ income) s = Ok s1 →
     s1 !! "exit_cap_rate" = Some exit_cap_rate →
     py_le0 exit_cap_rate = Ok true →
     ∃ noi, s1 !! "noi" = Some (VFloat noi) ∧
       exec (take 2 exit_valuation) s1 =
       Ok (<["stabilized_value" := VFloat (fdiv noi f1e_4)]>
             (<["cap_rate_decimal" := VFloat f1e_4]> s1))).
Proof.
  split.
  - intros s' Hrun.
    assert (s' ⊨ "cap_rate_decimal" ≐
              ifelse (var "exit_cap_rate" /' flt f100) (gt0 (var "exit_cap_rate"))
                     (flt f1e_4)) as (crd & Hcrd & Hif) by final_value Hrun.
    assert (s' ⊨ "stabilized_value" ≐ var "noi" /' var "cap_rate_decimal")
      as (sv & Hsv & Hdiv) by final_value Hrun.
    apply binop_Ok in Hdiv as (noi & crd' & Hnoi%var_Ok & Hcrd'%var_Ok & Hdiv).
    assert (crd' = crd) as -> by congruence.
    pose proof Hif as Hif'. unfold ifelse, gt0 in Hif'.
    apply bind_Ok in Hif' as (t & (ecr & Hecr%var_Ok & Ht)%bind_Ok & _).
    exists ecr, noi, crd, sv. repeat (split; [done|]).
    destruct (ifelse_gt0_Ok _ _ _ _ _ _ Hif Hecr) as (t' & Ht' & Hv).
    split.
    + intros Hle%py_le0_not_gt0. assert (t' = false) as -> by congruence.
      injection Hv as <-. done.
    + intros Hgt. assert (t' = true) as -> by congruence.
      apply binop_Ok in Hv as (e1 & e2 & He1%var_Ok & [= <-] & Hq).
      assert (e1 = ecr) as -> by congruence. done.
  - intros s1 ecr Hrun Hecr Hle.
    assert (s1 ⊨ "op_ex" ≐ var "egi" *' (var "op_ex_pct" /' flt f100)) as Hopex
      by block_value Hrun.
    assert (s1 ⊨ "noi" ≐ var "egi" -' var "op_ex") as Hnoi by block_value Hrun.
    apply holds_arith_quotient in Hopex as (x & Hx).
    apply (holds_arith_float _ _ _ _ _ _ _ Hnoi) in Hx as (noi & Hn).
    exists noi. split; [done|].
    unfold exit_valuation. simpl. unfold ifelse, gt0, binop, var, flt.
    rewrite Hecr. simpl. rewrite (py_le0_not_gt0 _ Hle). simpl.
    rewrite lookup_insert_eq, (lookup_insert_ne _ "cap_rate_decimal" "noi") by done.
    rewrite Hn. simpl.
    unfold py_truediv. simpl. rewrite f1e_4_nonzero. done.
Qed.

Lemma exit_cap_rate_clamp_witness :
  (∃ exit_cap_rate noi cap_rate_decimal stabilized_value,
     final64 !! "exit_cap_rate" = Some exit_cap_rate ∧
     final64 !! "noi" = Some noi ∧
     final64 !! "cap_rate_decimal" = Some cap_rate_decimal ∧
     final64 !! "stabilized_value" = Some stabilized_value ∧
     (py_le0 exit_cap_rate = Ok true →
        cap_rate_decimal = VFloat f1e_4 ∧
        py_truediv noi (VFloat f1e_4) = Ok stabilized_value) ∧
     (py_gt0 exit_cap_rate = Ok true →
        py_truediv exit_cap_rate (VFloat f100) = Ok cap_rate_decimal ∧
        py_truediv noi cap_rate_decimal = Ok stabilized_value)).
Proof.
  exact (proj1 (exit_cap_rate_clamp pow_sample64 defaults64) final64 run_defaults64).
Defined.

(** The clamp at work: exit_cap_rate = 0.0, every other widget at its
    default, gives cap_rate_decimal = 0.0001 and stabilized_value =
    55575 / 0.0001. *)
Lemma zero_cap_rate_run :
  ∃ s', exec before_irr (<["exit_cap_rate" := VFloat 0%float]> defaults64) = Ok s' ∧
    s' !! "noi" = Some (VFloat 55575%float) ∧
    s' !! "cap_rate_decimal" = Some (VFloat 0.0001%float) ∧
    s' !! "stabilized_value" = Some (VFloat 555750000%float).
Proof.
  eexists. split; [apply (is_ok_result ∅); vm_compute; reflexivity|].
  repeat split; vm_compute; reflexivity.
Qed.

(** C4.  When the script has run: if total_project_cost > 0
    then dev_margin_on_cost is developer_profit_unlevered /
    total_project_cost, and otherwise it is the int 0, in particular when
    total_project_cost == 0; likewise equity_multiple is equity_exit_cash /
    equity_required if equity_required > 0 and the int 0 otherwise, in
    particular when equity_required == 0.  And once lines 123-143 have
    run, lines 145-158 return: neither division raises. *)
Theorem division_guards {F : Type} `{PyFloatLaws F} (pow : F → F → exn F)
    (s : gmap string (val F)) :
  (∀ s', exec (proforma pow) s = Ok s' →
     ∃ total_project_cost developer_profit_unlevered dev_margin_on_cost
       equity_required equity_exit_cash equity_multiple,
       s' !! "total_project_cost" = Some total_project_cost ∧
       s' !! "developer_profit_unlevered" = Some developer_profit_unlevered ∧
       s' !! "dev_margin_on_cost" = Some dev_margin_on_cost ∧
       s' !! "equity_required" = Some equity_required ∧
       s' !! "equity_exit_cash" = Some equity_exit_cash ∧
       s' !! "equity_multiple" = Some equity_multiple ∧
       (py_gt0 total_project_cost = Ok true →
          py_truediv developer_profit_unlevered total_project_cost
            = Ok dev_margin_on_cost) ∧
       (py_gt0 total_project_cost = Ok false → dev_margin_on_cost = VInt 0) ∧
       (py_eq total_project_cost (VInt 0) = true →
          py_eq dev_margin_on_cost (VInt 0) = true) ∧
       (py_gt0 equity_required = Ok true →
          py_truediv equity_exit_cash equity_required = Ok equity_multiple) ∧
       (py_gt0 equity_required = Ok false → equity_multiple = VInt 0) ∧
       (py_eq equity_required (VInt 0) = true →
          py_eq equity_multiple (VInt 0) = true)) ∧
  (∀ s1, exec (costs ++ financing ++ income ++ exit_valuation) s = Ok s1 →
     ∃ s2, exec returns s1 = Ok s2).
Proof.
  split.
  - intros s' Hrun.
    assert (s' ⊨ "dev_margin_on_cost" ≐
              ifelse (var "developer_profit_unlevered" /' var "total_project_cost")
                     (gt0 (var "total_project_cost")) (int 0))
      as (m & Hm & Hifm) by final_value Hrun.
    assert (s' ⊨ "equity_multiple" ≐
              ifelse (var "equity_exit_cash" /' var "equity_required")
                     (gt0 (var "equity_required")) (int 0))
      as (em & Hem & Hife) by final_value Hrun.
    assert (s' ⊨ "developer_profit_unlevered" ≐
              var "net_sale_before_debt" -' var "total_project_cost")
      as (dp & Hdp & _) by final_value Hrun.
    assert (s' ⊨ "equity_exit_cash" ≐ var "net_sale_before_debt" -' var "loan_amount")
      as (eec & Heec & _) by final_value Hrun.
    assert (∃ tpc, s' !! "total_project_cost" = Some tpc) as (tpc & Htpc).
    { unfold ifelse, gt0 in Hifm.
      apply bind_Ok in Hifm as (? & (? & ?%var_Ok & _)%bind_Ok & _). eauto. }
    assert (∃ eq, s' !! "equity_required" = Some eq) as (eq & Heq).
    { unfold ifelse, gt0 in Hife.
      apply bind_Ok in Hife as (? & (? & ?%var_Ok & _)%bind_Ok & _). eauto. }
    exists tpc, dp, m, eq, eec, em. repeat (split; [done|]).
    destruct (ifelse_gt0_Ok _ _ _ _ _ _ Hifm Htpc) as (t & Ht & Hv).
    destruct (ifelse_gt0_Ok _ _ _ _ _ _ Hife Heq) as (t' & Ht' & Hv').
    assert (∀ (x y : string) (vx vy v : val F) (b : bool),
              s' !! x = Some vx → s' !! y = Some vy →
              (if b then (var x /' var y) s' else int 0 s') = Ok v →
              (b = true → py_truediv vx vy = Ok v) ∧ (b = false → v = VInt 0))
      as Hread.
    { intros x y vx vy v b Hx Hy Hb. split; intros ->.
      - apply binop_Ok in Hb as (a1 & a2 & Ha1%var_Ok & Ha2%var_Ok & Hq). congruence.
      - by injection Hb as <-. }
    destruct (Hread _ _ _ _ _ _ Hdp Htpc Hv) as [Hm1 Hm0].
    destruct (Hread _ _ _ _ _ _ Heec Heq Hv') as [He1 He0].
    repeat split.
    + intros Hgt. apply Hm1. congruence.
    + intros Hgt. apply Hm0. congruence.
    + intros Hz%py_eq0_not_gt0. rewrite Hm0; [done | congruence].
    + intros Hgt. apply He1. congruence.
    + intros Hgt. apply He0. congruence.
    + intros Hz%py_eq0_not_gt0. rewrite He0; [done | congruence].
  - intros s1 Hrun.
    assert (s1 ⊨ "contingency" ≐ (var "hard_costs" +' var "soft_costs")
              *' (var "contingency_pct" /' flt f100)) as Hc by block_value Hrun.
    assert (s1 ⊨ "total_project_cost" ≐ var "land_cost" +' var "hard_costs"
              +' var "soft_costs" +' var "contingency") as Ht by block_value Hrun.
    assert (s1 ⊨ "loan_amount" ≐ var "total_project_cost"
              *' (var "loan_to_cost" /' flt f100)) as Hl by block_value Hrun.
    assert (s1 ⊨ "equity_required" ≐ var "total_project_cost" -' var "loan_amount")
      as He by block_value Hrun.
    assert (s1 ⊨ "sale_costs" ≐ var "stabilized_value"
              *' (var "sale_cost_pct" /' flt f100)) as Hsc by block_value Hrun.
    assert (s1 ⊨ "net_sale_before_debt" ≐ var "stabilized_value" -' var "sale_costs")
      as Hns by block_value Hrun.
    apply holds_arith_quotient in Hc as (c & Hc).
    apply (holds_arith_float _ _ _ _ _ _ _ Ht) in Hc as (t & Htpc).
    apply holds_arith_quotient in Hl as (l & Hloan).
    apply (holds_arith_float _ _ _ _ _ _ _ He) in Hloan as Heq. destruct Heq as (q & Heq).
    apply holds_arith_quotient in Hsc as (sc & Hsc).
    apply (holds_arith_float _ _ _ _ _ _ _ Hns) in Hsc as (n & Hn).
    unfold returns. simpl. unfold ifelse, gt0, binop, var, int.
    rewrite Hn, Htpc. simpl.
    rewrite !(lookup_insert_ne _ "developer_profit_unlevered") by done.
    rewrite !lookup_insert_eq, Htpc. simpl.
    assert (∀ x y : F, ∃ v : val F,
              (if fltb f0 y then py_truediv (VFloat x) (VFloat y) else Ok (VInt 0)) = Ok v)
      as Hguard.
    { intros x y. destruct (fltb f0 y) eqn:Hy; [|eauto].
      unfold py_truediv. simpl. rewrite (pos_nonzero _ Hy). simpl. eauto. }
    destruct (Hguard (fsub n t) t) as (m & ->). simpl.
    rewrite !(lookup_insert_ne _ "dev_margin_on_cost") by done.
    rewrite !(lookup_insert_ne _ "developer_profit_unlevered") by done.
    rewrite Hn, Hloan. simpl.
    rewrite !lookup_insert_eq.
    rewrite !(lookup_insert_ne _ "equity_exit_cash") by done.
    rewrite !(lookup_insert_ne _ "dev_margin_on_cost") by done.
    rewrite !(lookup_insert_ne _ "developer_profit_unlevered") by done.
    rewrite Heq. simpl.
    rewrite !(lookup_insert_ne _ "equity_profit") by done.
    rewrite !lookup_insert_eq.
    rewrite !(lookup_insert_ne _ "equity_exit_cash") by done.
    rewrite !(lookup_insert_ne _ "dev_margin_on_cost") by done.
    rewrite !(lookup_insert_ne _ "developer_profit_unlevered") by done.
    rewrite Heq. simpl.
    destruct (Hguard (fsub n l) q) as (em & ->). simpl. eauto.
Qed.

Lemma run_before_returns64 :
  exec (costs ++ financing ++ income ++ exit_valuation) defaults64 = Ok before_returns64.
Proof. apply is_ok_result. vm_compute. reflexivity. Qed.

Lemma division_guards_witness :
  (∃ total_project_cost developer_profit_unlevered dev_margin_on_cost
     equity_required equity_exit_cash equity_multiple,
     final64 !! "total_project_cost" = Some total_project_cost ∧
     final64 !! "developer_profit_unlevered" = Some developer_profit_unlevered ∧
     final64 !! "dev_margin_on_cost" = Some dev_margin_on_cost ∧
     final64 !! "equity_required" = Some equity_required ∧
     final64 !! "equity_exit_cash" = Some equity_exit_cash ∧
     final64 !! "equity_multiple" = Some equity_multiple ∧
     (py_gt0 total_project_cost = Ok true →
        py_truediv developer_profit_unlevered total_project_cost
          = Ok dev_margin_on_cost) ∧
     (py_gt0 total_project_cost = Ok false → dev_margin_on_cost = VInt 0) ∧
     (py_eq total_project_cost (VInt 0) = true →
        py_eq dev_margin_on_cost (VInt 0) = true) ∧
     (py_gt0 equity_required = Ok true →
        py_truediv equity_exit_cash equity_required = Ok equity_multiple) ∧
     (py_gt0 equity_required = Ok false → equity_multiple = VInt 0) ∧
     (py_eq equity_required (VInt 0) = true →
        py_eq equity_multiple (VInt 0) = true)) ∧
  (∃ s2, exec returns before_returns64 = Ok s2).
Proof.
  split.
  - exact (proj1 (division_guards pow_sample64 defaults64) final64 run_defaults64).
  - exact (proj2 (division_guards pow_sample64 defaults64) before_returns64
             run_before_returns64).
Defined.

(** * Identities of exact arithmetic *)

Lemma run_one_yearQ : exec (proforma pow_sampleQ) one_yearQ = Ok finalQ.
Proof. apply is_ok_result. vm_compute. reflexivity. Qed.

Lemma exact_to_float (v : val Q) (x : Q) :
  to_float v = Ok x → v = VFloat x ∨ ∃ z, v = VInt z ∧ x = inject_Z z.
Proof. destruct v as [z|y|]; simpl; [|intros [= ->]; auto|done]. intros [= <-]. eauto. Qed.

(** [x == v] when [x] is the exact value of [v]. *)
Lemma exact_py_eq (v : val Q) (x y : Q) :
  to_float v = Ok x → Qeq y x → py_eq (VFloat y) v = true.
Proof.
  intros [->|(z & -> & ->)]%exact_to_float Hxy; simpl; by apply Qeq_bool_iff.
Qed.

(** C5, as amended.  When the script has run, loan_amount holds
    total_project_cost * (loan_to_cost / 100) and equity_required holds
    total_project_cost - loan_amount, in either arithmetic; and in exact
    arithmetic equity_required + loan_amount == total_project_cost. *)
Theorem additive_decomposition :
  (∀ (F : Type) (HF : PyFloat F) (pow : F → F → exn F) (s s' : gmap string (val F)),
     exec (proforma pow) s = Ok s' →
     s' ⊨ "loan_amount" ≐ var "total_project_cost" *' (var "loan_to_cost" /' flt f100) ∧
     s' ⊨ "equity_required" ≐ var "total_project_cost" -' var "loan_amount") ∧
  (∀ (pow : Q → Q → exn Q) (s s' : gmap string (val Q)),
     exec (proforma pow) s = Ok s' →
     ∃ sum total_project_cost,
       (var "equity_required" +' var "loan_amount") s' = Ok sum ∧
       s' !! "total_project_cost" = Some total_project_cost ∧
       py_eq sum total_project_cost = true).
Proof.
  split.
  - intros F HF pow s s' Hrun. split; final_value Hrun.
  - intros pow s s' Hrun.
    assert (s' ⊨ "loan_amount" ≐ var "total_project_cost"
              *' (var "loan_to_cost" /' flt f100)) as Hl by final_value Hrun.
    assert (s' ⊨ "equity_required" ≐ var "total_project_cost" -' var "loan_amount")
      as (eq & Heq & Hsub) by final_value Hrun.
    apply holds_arith_quotient in Hl as (l & Hl).
    apply binop_Ok in Hsub as (tpc & vl & Htpc%var_Ok & Hvl%var_Ok & Hsub).
    assert (vl = VFloat l) as -> by congruence.
    apply arith_float_r in Hsub as (t & Ht & ->).
    exists (VFloat (t - l + l)%Q), tpc. repeat split; [|done|].
    + apply binop_Ok. exists (VFloat (t - l)%Q), (VFloat l).
      repeat split; by apply var_Ok.
    + apply (exact_py_eq _ _ _ Ht). ring.
Qed.

Lemma additive_decomposition_witness :
  (final64 ⊨ "loan_amount" ≐ var "total_project_cost" *' (var "loan_to_cost" /' flt f100) ∧
   final64 ⊨ "equity_required" ≐ var "total_project_cost" -' var "loan_amount") ∧
  (∃ sum total_project_cost,
     (var "equity_required" +' var "loan_amount") finalQ = Ok sum ∧
     finalQ !! "total_project_cost" = Some total_project_cost ∧
     py_eq sum total_project_cost = true).
Proof.
  split.
  - exact (proj1 additive_decomposition float _ pow_sample64 defaults64 final64
             run_defaults64).
  - exact (proj2 additive_decomposition pow_sampleQ one_yearQ finalQ run_one_yearQ).
Defined.

(** C5 as stated fails in binary64 on values the sliders offer:
    buildable_sf = 2100, hard_cost_per_sf = 360, soft_cost_pct = 16,
    contingency_pct = 8, loan_to_cost = 24, the other widgets at their
    defaults.  Lines 123-158 give total_project_cost = 1447116.8, and
    equity_required + loan_amount is 1447116.8000000003. *)
Lemma additive_decomposition_counterexample :
  ∃ s',
    exec before_irr
      (sidebar 2100 10 500000 360 16%float 8%float 24%float 7%float 45
               5%float 35%float 5%float 1%float 4) = Ok s' ∧
    s' !! "total_project_cost" = Some (VFloat 1447116.8%float) ∧
    s' !! "loan_amount" = Some (VFloat 347308.03200000001%float) ∧
    s' !! "equity_required" = Some (VFloat 1099808.7680000002%float) ∧
    (var "equity_required" +' var "loan_amount") s'
      = Ok (VFloat 1447116.8000000003%float) ∧
    py_eq (VFloat 1447116.8000000003%float) (VFloat 1447116.8%float) = false.
Proof.
  eexists. split; [apply (is_ok_result ∅); vm_compute; reflexivity|].
  repeat split; vm_compute; reflexivity.
Qed.

(** In binary64 the identity does hold at the default widget values. *)
Lemma additive_decomposition_defaults64 :
  (var "equity_required" +' var "loan_amount") final64 = Ok (VFloat 1365375%float) ∧
  final64 !! "total_project_cost" = Some (VFloat 1365375%float).
Proof. split; vm_compute; reflexivity. Qed.

Lemma round_half_even_scale (m d k : Z) :
  0 < d → 0 < k → round_half_even (m * k) (d * k) = round_half_even m d.
Proof.
  intros Hd Hk. unfold round_half_even.
  rewrite Z.div_mul_cancel_r by lia.
  rewrite Zmult_mod_distr_r.
  replace (2 * (m mod d * k) ?= d * k) with (2 * (m mod d) ?= d); [done|].
  destruct (Z.compare_spec (2 * (m mod d)) d),
    (Z.compare_spec (2 * (m mod d * k)) (d * k)); try done; nia.
Qed.

Lemma round_half_even_ratio (m1 d1 m2 d2 : Z) :
  0 < d1 → 0 < d2 → m1 * d2 = m2 * d1 →
  round_half_even m1 d1 = round_half_even m2 d2.
Proof.
  intros H1 H2 Hr.
  rewrite <- (round_half_even_scale m1 d1 d2), <- (round_half_even_scale m2 d2 d1) by lia.
  rewrite Hr. f_equal. ring.
Qed.

(** Equal rationals are displayed alike. *)
Lemma exact_format0_proper (x y : Q) : Qeq x y → Exact.format0 x = Exact.format0 y.
Proof.
  unfold Qeq, Exact.format0. intros Hxy.
  pose proof (Pos2Z.is_pos (Qden x)). pose proof (Pos2Z.is_pos (Qden y)).
  f_equal.
  - replace (Qnum y <? 0) with (Qnum x <? 0); [done|].
    destruct (Z.ltb_spec (Qnum x) 0), (Z.ltb_spec (Qnum y) 0); try done; nia.
  - f_equal. apply round_half_even_ratio; [done..|].
    rewrite <- (Z.abs_eq (Z.pos (Qden y))), <- (Z.abs_eq (Z.pos (Qden x))) by lia.
    rewrite <- !Z.abs_mul. by rewrite Hxy.
Qed.

Lemma exact_format_eq (v : val Q) (x y : Q) :
  to_float v = Ok x → Qeq y x → py_format_0f (VFloat y) = py_format_0f v.
Proof.
  intros [->|(z & -> & ->)]%exact_to_float Hxy; simpl; f_equal;
    by apply exact_format0_proper.
Qed.

Lemma metric_Ok {F : Type} `{PyFloat F} (label x : string)
    (s : gmap string (val F)) (v : val F) (txt : string) :
  s !! x = Some v → py_format_0f v = Ok txt →
  metric label x s = Ok (label, "$" +:+ txt).
Proof. unfold metric, var. intros -> Hf. simpl. by rewrite Hf. Qed.

(** C10, as amended.  In exact arithmetic, when the script has run,
    equity_profit == developer_profit_unlevered (the loan_amount term
    cancels), and the "Unlevered Developer Profit" and "Equity Profit"
    tiles show the same text. *)
Theorem equity_profit_is_developer_profit (pow : Q → Q → exn Q)
    (s s' : gmap string (val Q)) :
  exec (proforma pow) s = Ok s' →
  ∃ equity_profit developer_profit_unlevered text,
    s' !! "equity_profit" = Some equity_profit ∧
    s' !! "developer_profit_unlevered" = Some developer_profit_unlevered ∧
    py_eq equity_profit developer_profit_unlevered = true ∧
    metric "Unlevered Developer Profit" "developer_profit_unlevered" s'
      = Ok ("Unlevered Developer Profit", text) ∧
    metric "Equity Profit" "equity_profit" s' = Ok ("Equity Profit", text).
Proof.
  intros Hrun.
  assert (s' ⊨ "loan_amount" ≐ var "total_project_cost"
            *' (var "loan_to_cost" /' flt f100)) as Hl by final_value Hrun.
  assert (s' ⊨ "equity_required" ≐ var "total_project_cost" -' var "loan_amount")
    as (eq & Heq & Hsub) by final_value Hrun.
  assert (s' ⊨ "developer_profit_unlevered" ≐
            var "net_sale_before_debt" -' var "total_project_cost")
    as (dp & Hdp & Hdpv) by final_value Hrun.
  assert (s' ⊨ "equity_exit_cash" ≐ var "net_sale_before_debt" -' var "loan_amount")
    as (eec & Heec & Heecv) by final_value Hrun.
  assert (s' ⊨ "equity_profit" ≐ var "equity_exit_cash" -' var "equity_required")
    as (ep & Hep & Hepv) by final_value Hrun.
  apply holds_arith_quotient in Hl as (l & Hl).
  apply binop_Ok in Hsub as (tpc & vl & Htpc%var_Ok & Hvl%var_Ok & Hsub).
  assert (vl = VFloat l) as -> by congruence.
  apply arith_float_r in Hsub as (t & Ht & ->).
  apply binop_Ok in Heecv as (ns & vl & Hns%var_Ok & Hvl'%var_Ok & Heecv).
  assert (vl = VFloat l) as -> by congruence.
  apply arith_float_r in Heecv as (n & Hn & ->).
  apply binop_Ok in Hepv as (v1 & v2 & Hv1%var_Ok & Hv2%var_Ok & Hepv).
  assert (v1 = VFloat (fsub n l)) as -> by congruence.
  assert (v2 = VFloat (fsub t l)) as -> by congruence.
  injection Hepv as <-.
  apply binop_Ok in Hdpv as (v1 & v2 & Hv1'%var_Ok & Hv2'%var_Ok & Hdpv).
  assert (v1 = ns) as -> by congruence. assert (v2 = tpc) as -> by congruence.
  assert (∃ d, to_float dp = Ok d ∧ Qeq (n - l - (t - l)) d) as (d & Hd & Hdq).
  { apply exact_to_float in Hn as [->|(zn & -> & ->)];
      apply exact_to_float in Ht as [->|(zt & -> & ->)];
      injection Hdpv as <-; eexists; (split; [reflexivity|]);
      unfold fsub; simpl; unfold Z.sub; rewrite ?inject_Z_plus, ?inject_Z_opp; ring. }
  pose proof (exact_format_eq _ _ _ Hd Hdq) as Hfmt.
  assert (∃ txt, py_format_0f dp = Ok txt) as (txt & Htxt).
  { destruct dp as [z|x|]; simpl; [eauto..|done]. }
  exists (VFloat (n - l - (t - l))%Q), dp, ("$" +:+ txt).
  repeat split; [done|done|by eapply exact_py_eq|..].
  - by eapply metric_Ok.
  - eapply metric_Ok; [done|]. by rewrite Hfmt.
Qed.

Lemma equity_profit_is_developer_profit_witness :
  ∃ equity_profit developer_profit_unlevered text,
    finalQ !! "equity_profit" = Some equity_profit ∧
    finalQ !! "developer_profit_unlevered" = Some developer_profit_unlevered ∧
    py_eq equity_profit developer_profit_unlevered = true ∧
    metric "Unlevered Developer Profit" "developer_profit_unlevered" finalQ
      = Ok ("Unlevered Developer Profit", text) ∧
    metric "Equity Profit" "equity_profit" finalQ = Ok ("Equity Profit", text).
Proof.
  exact (equity_profit_is_developer_profit pow_sampleQ one_yearQ finalQ run_one_yearQ).
Defined.

(** C10 as stated fails in binary64 on values the sliders offer:
    loan_to_cost = 35 and exit_cap_rate = 6, the other widgets at their
    defaults.  After lines 123-158 the two profits differ in the last bit
    and the tiles show different amounts. *)
Lemma equity_profit_counterexample :
  ∃ s',
    exec before_irr
      (<["loan_to_cost" := VFloat 35%float]>
         (<["exit_cap_rate" := VFloat 6%float]> defaults64)) = Ok s' ∧
    s' !! "developer_profit_unlevered" = Some (VFloat (-448387.5)%float) ∧
    s' !! "equity_profit" = Some (VFloat (-448387.49999999994)%float) ∧
    py_eq (VFloat (-448387.49999999994)%float) (VFloat (-448387.5)%float) = false ∧
    exit_profit_tiles s' = Ok [
      ("Net Sale Before Debt", "$916,988");
      ("Unlevered Developer Profit", "$-448,388");
      ("Equity Profit", "$-448,387")
    ].
Proof.
  eexists. split; [apply (is_ok_result ∅); vm_compute; reflexivity|].
  repeat split; vm_compute; reflexivity.
Qed.

(** In binary64 the two tiles do agree at the default widget values. *)
Lemma equity_profit_defaults64 :
  exit_profit_tiles final64 = Ok [
    ("Net Sale Before Debt", "$1,100,385");
    ("Unlevered Developer Profit", "$-264,990");
    ("Equity Profit", "$-264,990")
  ].
Proof. vm_compute. reflexivity. Qed.

(** * Scenarios A and B *)

Lemma exec_cons_Ok {F : Type} `{PyFloat F} (x : string) (e : @expr F) (q : list stmt)
    (s : gmap string (val F)) (v : val F) :
  e s = Ok v → exec ((x, e) :: q) s = exec q (<[x:=v]> s).
Proof. simpl. by intros ->. Qed.

Ltac lookup_tac :=
  repeat first [ rewrite lookup_insert_eq; reflexivity
               | rewrite lookup_insert_ne by done ];
  eassumption.

Ltac eval_expr :=
  lazymatch goal with
  | |- var _ _ = Ok _ => apply var_Ok; lookup_tac
  | |- flt _ _ = Ok _ => reflexivity
  | |- int _ _ = Ok _ => reflexivity
  | |- binop _ _ _ _ = Ok _ =>
      apply binop_Ok; eexists _, _;
      split; [eval_expr | split; [eval_expr | lazy; reflexivity]]
  end.

Ltac exec_step := erewrite exec_cons_Ok by eval_expr.

(** C7. With buildable_sf=2000, hard_cost_per_sf=350, soft_cost_pct=15,
    contingency_pct=7.5 and land_cost=500000, lines 123-126 return and
    give hard_costs=700000, soft_costs=105000, contingency=60375,
    total_project_cost=1365375; with loan_to_cost=65 besides, lines
    129-130 return and give loan_amount=887493.75 and
    equity_required=477881.25; and every completed run of the script ends
    with these values. *)
Theorem scenario_A_B (pow : float → float → exn float) (s : gmap string (val float)) :
  s !! "buildable_sf" = Some (VInt 2000) →
  s !! "hard_cost_per_sf" = Some (VInt 350) →
  s !! "soft_cost_pct" = Some (VFloat 15%float) →
  s !! "contingency_pct" = Some (VFloat 7.5%float) →
  s !! "land_cost" = Some (VInt 500000) →
  (∃ s1, exec costs s = Ok s1 ∧ scenario_A s1) ∧
  (s !! "loan_to_cost" = Some (VFloat 65%float) →
     ∃ s2, exec (costs ++ financing) s = Ok s2 ∧ scenario_A s2 ∧ scenario_B s2) ∧
  (∀ s', exec (proforma pow) s = Ok s' →
     scenario_A s' ∧ (s !! "loan_to_cost" = Some (VFloat 65%float) → scenario_B s')).
Proof.
  intros Hbsf Hhc Hsp Hcp Hland.
  assert (∃ s1, exec costs s = Ok s1 ∧ scenario_A s1) as Hcosts.
  { eexists. split.
    - unfold costs. do 4 exec_step. reflexivity.
    - repeat split; lookup_tac. }
  assert (s !! "loan_to_cost" = Some (VFloat 65%float) →
          ∃ s2, exec (costs ++ financing) s = Ok s2 ∧ scenario_A s2 ∧ scenario_B s2)
    as Hfin.
  { intros Hltc. eexists. split.
    - rewrite exec_app. unfold costs. do 4 exec_step. cbn [exec mbind exn_bind].
      unfold financing. do 2 exec_step. reflexivity.
    - split; repeat split; lookup_tac. }
  split; [done|]. split; [done|].
  intros s' Hrun. split.
  - destruct Hcosts as (s1 & Hs1 & HA).
    unfold proforma in Hrun. rewrite exec_app in Hrun.
    apply bind_Ok in Hrun as (a & Ha & Hrun). assert (a = s1) as -> by congruence.
    destruct HA as (? & ? & ? & ?).
    repeat split; (erewrite exec_frame; [eassumption | exact Hrun | compute_done]).
  - intros Hltc. destruct (Hfin Hltc) as (s2 & Hs2 & _ & HB).
    unfold proforma in Hrun. rewrite app_assoc, exec_app in Hrun.
    apply bind_Ok in Hrun as (a & Ha & Hrun). assert (a = s2) as -> by congruence.
    destruct HB as (? & ?).
    repeat split; (erewrite exec_frame; [eassumption | exact Hrun | compute_done]).
Qed.

Lemma scenario_A_B_witness :
  (∃ s1, exec costs defaults64 = Ok s1 ∧ scenario_A s1) ∧
  (defaults64 !! "loan_to_cost" = Some (VFloat 65%float) →
     ∃ s2, exec (costs ++ financing) defaults64 = Ok s2 ∧ scenario_A s2 ∧ scenario_B s2) ∧
  (∀ s', exec (proforma pow_sample64) defaults64 = Ok s' →
     scenario_A s' ∧
     (defaults64 !! "loan_to_cost" = Some (VFloat 65%float) → scenario_B s')).
Proof.
  apply (scenario_A_B pow_sample64 defaults64); vm_compute; reflexivity.
Defined.

(** * What the outputs depend on *)

Section Dependence.
Context {F : Type} `{PyFloat F}.
Variable pow : F → F → exn F.
Implicit Types (s : gmap string (val F)).

Lemma same_outcome_weaken (W W' : list string) (r1 r2 : exn (gmap string (val F))) :
  (∀ x, x ∈ W' → x ∈ W) → same_outcome W r1 r2 → same_outcome W' r1 r2.
Proof. intros Hsub. destruct r1, r2; simpl; try done. intros Ha x Hx. auto. Qed.

(** Two runs from namespaces that agree on the twelve names the
    calculations read end alike on every derived name. *)
Lemma proforma_outcome s1 s2 :
  agree used_inputs s1 s2 →
  same_outcome derived_names (exec (proforma pow) s1) (exec (proforma pow) s2).
Proof.
  intros Ha. eapply same_outcome_weaken;
    [|exact (exec_depends _ _ (proforma_depends pow) s1 s2 Ha)].
  intros x Hx. rewrite proforma_targets. apply elem_of_app. by left.
Qed.

Lemma proforma_frame s s' x :
  exec (proforma pow) s = Ok s' → x ∉ derived_names → s' !! x = s !! x.
Proof. intros Hrun Hx. eapply exec_frame; [exact Hrun|]. by rewrite proforma_targets. Qed.

End Dependence.

(** C8. Two namespaces that differ at most in units and interest_rate give
    the same outcome: the same exception, or the same value for every
    derived variable from hard_costs to irr. *)
Theorem display_only_inputs_unused {F : Type} `{PyFloat F} (pow : F → F → exn F)
    (s1 s2 : gmap string (val F)) :
  (∀ x, x ∉ display_only → s1 !! x = s2 !! x) →
  same_outcome derived_names (exec (proforma pow) s1) (exec (proforma pow) s2).
Proof.
  intros Hsame. apply proforma_outcome. intros x Hx. apply Hsame.
  unfold used_inputs in Hx. by apply list_elem_of_filter in Hx as [Hx _].
Qed.

Lemma display_only_inputs_unused_witness :
  same_outcome derived_names
    (exec (proforma pow_sample64) defaults64)
    (exec (proforma pow_sample64)
       (<["units" := VInt 99]> (<["interest_rate" := VFloat 3.25%float]> defaults64))).
Proof.
  apply (display_only_inputs_unused pow_sample64).
  intros x Hx. unfold display_only in Hx.
  rewrite !lookup_insert_ne; [reflexivity|intros <-..]; apply Hx; compute_done.
Defined.

(** C9. The outcome of a run is a function of the fourteen widget values
    alone: from two namespaces that agree on them, whatever else they
    hold, the runs raise the same exception or give every derived variable
    the same value.  A run changes no name but the derived ones, and
    running the script again on the namespace it left changes nothing. *)
Theorem deterministic_and_idempotent {F : Type} `{PyFloat F} (pow : F → F → exn F)
    (s1 s2 : gmap string (val F)) :
  agree input_names s1 s2 →
  same_outcome derived_names (exec (proforma pow) s1) (exec (proforma pow) s2) ∧
  (∀ s1', exec (proforma pow) s1 = Ok s1' →
     (∀ x, x ∉ derived_names → s1' !! x = s1 !! x) ∧
     exec (proforma pow) s1' = Ok s1').
Proof.
  intros Hin.
  assert (∀ a b : gmap string (val F),
            agree input_names a b → agree used_inputs a b) as Hused.
  { intros a b Ha x Hx. apply Ha. unfold used_inputs in Hx.
    by apply list_elem_of_filter in Hx as [_ Hx]. }
  split; [by apply proforma_outcome, Hused|].
  intros s1' Hrun. split; [intros x Hx; by eapply proforma_frame|].
  assert (agree used_inputs s1 s1') as Ha.
  { intros x Hx. symmetry. eapply proforma_frame; [exact Hrun|].
    revert Hx. generalize x. apply Forall_forall. compute_done. }
  pose proof (proforma_outcome pow s1 s1' Ha) as Hout. rewrite Hrun in Hout.
  destruct (exec (proforma pow) s1') as [s''|] eqn:Hrun'; simpl in Hout; [|done].
  f_equal. apply map_eq. intros x.
  destruct (decide (x ∈ derived_names)) as [Hx|Hx].
  - symmetry. by apply Hout.
  - by eapply proforma_frame.
Qed.

Lemma deterministic_and_idempotent_witness :
  same_outcome derived_names
    (exec (proforma pow_sample64) defaults64) (exec (proforma pow_sample64) rerun64) ∧
  (∀ s1', exec (proforma pow_sample64) defaults64 = Ok s1' →
     (∀ x, x ∉ derived_names → s1' !! x = defaults64 !! x) ∧
     exec (proforma pow_sample64) s1' = Ok s1').
Proof.
  apply (deterministic_and_idempotent pow_sample64 defaults64 rerun64).
  intros x Hx. unfold rerun64.
  rewrite !lookup_insert_ne; [reflexivity|intros <-..]; revert Hx; compute_done.
Defined.

(** * Further facts about the run *)

(** When the script has run with equity_required == 0, equity_multiple is
    the int 0 and irr is None. *)
Theorem zero_equity_not_applicable {F : Type} `{PyFloatLaws F} (pow : F → F → exn F)
    (s s' : gmap string (val F)) :
  exec (proforma pow) s = Ok s' →
  ∃ equity_required equity_multiple irr,
    s' !! "equity_required" = Some equity_required ∧
    s' !! "equity_multiple" = Some equity_multiple ∧
    s' !! "irr" = Some irr ∧
    (py_eq equity_required (VInt 0) = true → equity_multiple = VInt 0 ∧ irr = VNone).
Proof.
  intros Hrun.
  assert (s' ⊨ "equity_multiple" ≐
            ifelse (var "equity_exit_cash" /' var "equity_required")
                   (gt0 (var "equity_required")) (int 0))
    as (em & Hem & Hife) by final_value Hrun.
  assert (s' ⊨ "irr" ≐ call3 (calc_irr pow) (var "equity_exit_cash")
            (var "equity_required") (var "hold_period_years")) as (irr & Hirr & Hcall)
    by final_value Hrun.
  unfold call3 in Hcall.
  apply bind_Ok in Hcall as (out & _ & Hcall).
  apply bind_Ok in Hcall as (eq & Heq%var_Ok & Hcall).
  apply bind_Ok in Hcall as (years & _ & Hcall).
  exists eq, em, irr. repeat (split; [done|]). intros Hz. split.
  - destruct (ifelse_gt0_Ok _ _ _ _ _ _ Hife Heq) as (t & Ht & Hv).
    rewrite (py_eq0_not_gt0 _ Hz) in Ht. injection Ht as <-. by injection Hv as <-.
  - apply (calc_irr_Ok pow) in Hcall as [Hnone _]. apply Hnone. left.
    by apply py_eq0_le0.
Qed.

Lemma run_all_debt64 : exec (proforma pow_sample64) all_debt64 = Ok final_all_debt64.
Proof. apply is_ok_result. vm_compute. reflexivity. Qed.

Lemma zero_equity_not_applicable_witness :
  ∃ equity_required equity_multiple irr,
    final_all_debt64 !! "equity_required" = Some equity_required ∧
    final_all_debt64 !! "equity_multiple" = Some equity_multiple ∧
    final_all_debt64 !! "irr" = Some irr ∧
    (py_eq equity_required (VInt 0) = true → equity_multiple = VInt 0 ∧ irr = VNone).
Proof.
  exact (zero_equity_not_applicable pow_sample64 all_debt64 final_all_debt64
           run_all_debt64).
Defined.

Lemma all_debt_equity_is_zero :
  final_all_debt64 !! "equity_required" = Some (VFloat 0%float) ∧
  final_all_debt64 !! "equity_multiple" = Some (VInt 0) ∧
  final_all_debt64 !! "irr" = Some VNone.
Proof. repeat split; vm_compute; reflexivity. Qed.

Lemma calc_irr_guard_witness :
  calc_irr pow_sample64 (VFloat 212891.25%float) (VFloat 0%float) (VInt 4) = Ok VNone.
Proof.
  apply (calc_irr_guard pow_sample64); [done..|]. left. vm_compute. reflexivity.
Defined.

(** The default run, lines 133-141: the income chain and the exit value.
    op_ex is 29924.999999999996, the double nearest 85500 * 0.35 as
    computed, and noi is 55575.0. *)
Lemma default_income_and_exit :
  final64 !! "pgi" = Some (VInt 90000) ∧
  final64 !! "vacancy_loss" = Some (VFloat 4500%float) ∧
  final64 !! "egi" = Some (VFloat 85500%float) ∧
  final64 !! "op_ex" = Some (VFloat 29924.999999999996%float) ∧
  final64 !! "noi" = Some (VFloat 55575%float) ∧
  final64 !! "cap_rate_decimal" = Some (VFloat 0.05%float) ∧
  final64 !! "stabilized_value" = Some (VFloat 1111500%float).
Proof. repeat split; vm_compute; reflexivity. Qed.

(** * Ints as doubles *)

Lemma digits2_pos_iter_xO (k p : positive) :
  digits2_pos (Pos.iter xO p k) = (digits2_pos p + k)%positive.
Proof.
  revert p. induction k using Pos.peano_ind; intros p.
  - simpl. lia.
  - rewrite Pos.iter_succ. simpl. rewrite IHk. lia.
Qed.

Lemma iter_xO_pow (k p : positive) : Zpos (Pos.iter xO p k) = Zpos p * 2 ^ Zpos k.
Proof.
  induction k using Pos.peano_ind.
  - simpl. lia.
  - rewrite Pos.iter_succ, Pos2Z.inj_succ, Z.pow_succ_r by lia.
    rewrite Pos2Z.inj_xO, IHk. lia.
Qed.

Lemma digits2_pos_bounds (p : positive) :
  2 ^ (Zpos (digits2_pos p) - 1) <= Zpos p < 2 ^ Zpos (digits2_pos p).
Proof.
  induction p as [p IH|p IH|]; simpl digits2_pos; [| |simpl; lia];
    rewrite Pos2Z.inj_succ;
    replace (Z.succ (Z.pos (digits2_pos p)) - 1) with (Z.succ (Z.pos (digits2_pos p) - 1)) by lia;
    rewrite !Z.pow_succ_r by lia; lia.
Qed.

Lemma digits2_pos_small (p : positive) : Zpos p < 2 ^ 53 → Zpos (digits2_pos p) <= 53.
Proof.
  intros Hp. pose proof (digits2_pos_bounds p) as [Hlo _].
  destruct (Z.le_gt_cases (Zpos (digits2_pos p)) 53) as [|Hgt]; [done|].
  assert (2 ^ 53 <= 2 ^ (Z.pos (digits2_pos p) - 1)) by (apply Z.pow_le_mono_r; lia).
  lia.
Qed.

(** A mantissa of exactly 53 bits is left alone by the rounding. *)
Lemma binary_round_aux_exact (s : bool) (m : positive) (e : Z) :
  Zpos (digits2_pos m) = 53 → -1074 <= e <= 971 →
  binary_round_aux prec emax s (Zpos m) e loc_Exact = S754_finite s m e.
Proof.
  intros Hd He. unfold binary_round_aux, shr_fexp, fexp, emin, Zdigits2.
  rewrite Hd. simpl shr_record_of_loc.
  replace (Z.max (53 + e - prec) (3 - emax - prec) - e) with 0
    by (unfold prec, emax; lia).
  simpl. rewrite Hd.
  replace (Z.max (53 + e - prec) (3 - emax - prec) - e) with 0
    by (unfold prec, emax; lia).
  simpl. unfold prec, emax.
  destruct (Z.leb_spec e (1024 - 53)); [done | lia].
Qed.

(** An int below 2^53 is a double: its bits, shifted to 53 digits. *)
Lemma binary_round_small (s : bool) (p : positive) :
  Zpos p < 2 ^ 53 →
  ∃ m e, binary_round prec emax s p 0 = S754_finite s m e ∧
         Zpos (digits2_pos m) = 53 ∧ -52 <= e <= 0 ∧ Zpos m = Zpos p * 2 ^ (- e).
Proof.
  intros Hd%digits2_pos_small. unfold binary_round, shl_align.
  assert (fexp prec emax (Z.pos (digits2_pos p) + 0) = Z.pos (digits2_pos p) - 53) as ->
    by (unfold fexp, emin, prec, emax; lia).
  rewrite Z.sub_0_r.
  destruct (Z.pos (digits2_pos p) - 53) as [|k|k] eqn:Hk; [|lia|].
  - exists p, 0. split; [apply binary_round_aux_exact; lia|]. simpl. lia.
  - exists (Pos.iter xO p k), (Z.neg k).
    split; [apply binary_round_aux_exact; [rewrite digits2_pos_iter_xO|]; lia|].
    rewrite digits2_pos_iter_xO, iter_xO_pow. simpl Z.opp. repeat split; lia.
Qed.

Lemma is_infinity_finite (x : float) (s : bool) (m : positive) (e : Z) :
  Prim2SF x = S754_finite s m e → PrimFloat.is_infinity x = false.
Proof.
  intros Hx. unfold PrimFloat.is_infinity.
  rewrite FloatAxioms.eqb_spec, FloatAxioms.abs_spec, Hx. reflexivity.
Qed.

(** [float(z)] is exact, and returns, for [|z| < 2^53]. *)
Lemma of_Z_small (z : Z) :
  Z.abs z < 2 ^ 53 →
  ∃ x, Binary64.of_Z z = Some x ∧
       match z with
       | Z0 => Prim2SF x = S754_zero false
       | _ => ∃ m e, Prim2SF x = S754_finite (z <? 0) m e ∧
                     -52 <= e <= 0 ∧ Zpos m = Z.abs z * 2 ^ (- e)
       end.
Proof.
  intros Hz. unfold Binary64.of_Z.
  destruct z as [|p|p]; [by eexists|..]; simpl binary_normalize;
    match goal with
    | |- context [binary_round _ _ ?s p 0] =>
        destruct (binary_round_small s p) as (m & e & -> & Hd & He & Hm); [lia|]
    end;
    match goal with
    | |- context [SF2Prim ?sf] => assert (Prim2SF (SF2Prim sf) = sf) as Hsf
    end;
    try (apply FloatAxioms.Prim2SF_SF2Prim;
         unfold valid_binary, bounded, canonical_mantissa, fexp, emin;
         rewrite Hd; unfold prec, emax; apply andb_true_intro;
         split; [apply Z.eqb_eq | apply Z.leb_le]; lia);
    rewrite (is_infinity_finite _ _ _ _ Hsf); eexists; (split; [done|]);
    exists m, e; rewrite Hsf; done.
Qed.

Lemma binary64_of_int_nonzero (z : Z) (x : float) :
  Z.abs z < 2 ^ 53 → Binary64.of_Z z = Some x → PrimFloat.eqb x 0 = true → z = 0.
Proof.
  intros Hz Hx H0. destruct (of_Z_small z Hz) as (x' & Hx' & Hsf).
  assert (x' = x) as -> by congruence.
  destruct z as [|p|p]; [done|..]; destruct Hsf as (m & e & Hsf & _);
    rewrite FloatAxioms.eqb_spec, Hsf in H0; discriminate.
Qed.

#[global] Instance binary64_ints : @PyFloatInts float Binary64.binary64.
Proof.
  split.
  - reflexivity.
  - intros z Hz. destruct (of_Z_small z Hz) as (x & Hx & _). by exists x.
  - apply binary64_of_int_nonzero.
Defined.

#[global] Instance exact_ints : @PyFloatInts Q Exact.exact.
Proof.
  split.
  - reflexivity.
  - intros z _. by eexists.
  - intros z x _ [= <-] Hq%Qeq_bool_iff.
    unfold Qeq in Hq. simpl in Hq. lia.
Defined.

(** The ['.0f'] text of an int below 2^53 is the int itself. *)
Lemma binary64_format_int (z : Z) :
  Z.abs z < 2 ^ 53 →
  py_format_0f (F:=float) (VInt z) = Ok ((if z <? 0 then "-" else "") +:+ commas z).
Proof.
  intros Hz. unfold py_format_0f, to_float. simpl.
  destruct (of_Z_small z Hz) as (x & -> & Hsf). simpl. f_equal.
  unfold Binary64.format0.
  destruct z as [|p|p]; [by rewrite Hsf|..];
    destruct Hsf as (m & e & -> & He & Hm); simpl Z.ltb; cbv iota;
    (assert ((if 0 <=? e then Z.shiftl (Z.pos m) e
              else round_half_even (Z.pos m) (Z.shiftl 1 (- e))) = Z.pos p) as ->;
     [|reflexivity]);
    simpl Z.abs in Hm;
    (destruct (Z.leb_spec 0 e);
     [assert (e = 0) as -> by lia; rewrite Z.shiftl_0_r; simpl in Hm; lia|]);
    rewrite Z.shiftl_1_l; unfold round_half_even; rewrite Hm;
    rewrite Z.mod_mul, Z.div_mul by lia;
    assert (0 < 2 ^ (- e)) by (apply Z.pow_pos_nonneg; lia);
    destruct (Z.compare_spec (2 * 0) (2 ^ (- e))); lia.
Qed.
(** * The run on the widgets' values *)

Section Operands.
Context {F : Type} `{PyFloatLaws F} `{!PyFloatInts F}.
Implicit Types (s : gmap string (val F)) (x y : F) (z : Z).

Lemma truediv_100 x : py_truediv (VFloat x) (VFloat f100) = Ok (VFloat (fdiv x f100)).
Proof. unfold py_truediv. simpl. by rewrite f100_nonzero. Qed.

Lemma arith_int_float iop fop z x y :
  of_int z = Some x → arith iop fop (VInt z) (VFloat y) = Ok (VFloat (fop x y)).
Proof. simpl. by intros ->. Qed.

Lemma truediv_float x y :
  feqb y f0 = false → py_truediv (VFloat x) (VFloat y) = Ok (VFloat (fdiv x y)).
Proof. unfold py_truediv. simpl. by intros ->. Qed.

Lemma truediv_float_zero x y :
  feqb y f0 = true → py_truediv (VFloat x) (VFloat y) = Raise ZeroDivisionError.
Proof. unfold py_truediv. simpl. by intros ->. Qed.

(** [a / t if t > 0 else 0] on two float variables never raises. *)
Lemma guarded_quotient s a t (x y : F) :
  s !! a = Some (VFloat x) → s !! t = Some (VFloat y) →
  ifelse (var a /' var t) (gt0 (var t)) (int 0) s
    = Ok (if fltb f0 y then VFloat (fdiv x y) else VInt 0).
Proof.
  intros Ha Ht. unfold ifelse, gt0, binop, var, int. rewrite Ht. simpl.
  destruct (fltb f0 y) eqn:Hy; [|done].
  rewrite Ha. simpl. apply truediv_float. by apply pos_nonzero.
Qed.


Lemma exec_cons_Raise (x : string) (e : @expr F) (q : list stmt) s err :
  e s = Raise err → exec ((x, e) :: q) s = Raise err.
Proof. simpl. by intros ->. Qed.

End Operands.

Ltac lookup_value :=
  repeat first [ rewrite lookup_insert_eq; reflexivity
               | rewrite lookup_insert_ne by done ];
  reflexivity.

Ltac apply_operator :=
  first [ apply truediv_100
        | eapply arith_int_float; eassumption
        | eapply truediv_float; eassumption
        | reflexivity ].

Ltac eval_statement :=
  lazymatch goal with
  | |- var _ _ = Ok _ => apply var_Ok; lookup_value
  | |- flt _ _ = Ok _ => reflexivity
  | |- int _ _ = Ok _ => reflexivity
  | |- binop _ _ _ _ = Ok _ =>
      apply binop_Ok; eexists _, _;
      split; [eval_statement | split; [eval_statement | apply_operator]]
  | |- ifelse _ (gt0 (var _)) (int 0) _ = Ok _ =>
      eapply guarded_quotient; lookup_value
  end.

Ltac run_statement :=
  lazymatch goal with
  | |- @exec ?F _ _ = _ => erewrite (exec_cons_Ok (F:=F)) by eval_statement
  end.

Section Run.
Context {F : Type} `{PyFloatLaws F} `{!PyFloatInts F}.
Implicit Types (s : gmap string (val F)) (x y : F) (z : Z).

Variables (b u l h r n : Z) (sp cp ltc ir v o cap sc : F).
Variables (H' A P : F).
Hypothesis (HH : of_int (b * h) = Some H') (HA : of_int (l + b * h) = Some A)
  (HP : of_int (b * r) = Some P).

Lemma run_before_irr :
  let s0 := sidebar b u l h sp cp ltc ir r v o cap sc n in
  let soft := fmul H' (fdiv sp f100) in
  let cont := fmul (fadd H' soft) (fdiv cp f100) in
  let tpc := fadd (fadd A soft) cont in
  let loan := fmul tpc (fdiv ltc f100) in
  let eq := fsub tpc loan in
  let vac := fmul P (fdiv v f100) in
  let egi := fsub P vac in
  let opex := fmul egi (fdiv o f100) in
  let noi := fsub egi opex in
  let crd := if fltb f0 cap then fdiv cap f100 else f1e_4 in
  let sv := fdiv noi crd in
  let scs := fmul sv (fdiv sc f100) in
  let ns := fsub sv scs in
  let dp := fsub ns tpc in
  let eec := fsub ns loan in
  exec before_irr s0 =
    if feqb crd f0 then Raise ZeroDivisionError
    else Ok (<["equity_multiple" := if fltb f0 eq then VFloat (fdiv eec eq) else VInt 0]>
      (<["equity_profit" := VFloat (fsub eec eq)]>
      (<["equity_exit_cash" := VFloat eec]>
      (<["dev_margin_on_cost" := if fltb f0 tpc then VFloat (fdiv dp tpc) else VInt 0]>
      (<["developer_profit_unlevered" := VFloat dp]>
      (<["net_sale_before_debt" := VFloat ns]>
      (<["sale_costs" := VFloat scs]>
      (<["stabilized_value" := VFloat sv]>
      (<["cap_rate_decimal" := VFloat crd]>
      (<["noi" := VFloat noi]>
      (<["op_ex" := VFloat opex]>
      (<["egi" := VFloat egi]>
      (<["vacancy_loss" := VFloat vac]>
      (<["pgi" := VInt (b * r)]>
      (<["equity_required" := VFloat eq]>
      (<["loan_amount" := VFloat loan]>
      (<["total_project_cost" := VFloat tpc]>
      (<["contingency" := VFloat cont]>
      (<["soft_costs" := VFloat soft]>
      (<["hard_costs" := VInt (b * h)]>
      (s0))))))))))))))))))))).
Proof.
  intros. unfold before_irr, costs, financing, income, exit_valuation, returns.
  cbn [app]. subst s0. unfold sidebar. cbn [list_to_map foldr uncurry fst snd].
  do 11 run_statement.
  erewrite (exec_cons_Ok (F:=F)).
  2:{ unfold ifelse, gt0, binop, var, flt. rewrite !lookup_insert_ne by done.
      rewrite lookup_insert_eq. simpl.
      instantiate (1 := VFloat crd). subst crd.
      destruct (fltb f0 cap); [apply truediv_100 | reflexivity]. }
  destruct (feqb crd f0) eqn:Hcrd.
  - apply exec_cons_Raise. unfold binop.
    replace (var "noi" _) with (Ok (VFloat noi)) by (symmetry; eval_statement).
    replace (var "cap_rate_decimal" _) with (Ok (VFloat crd)) by (symmetry; eval_statement).
    simpl. by apply truediv_float_zero.
  - do 8 run_statement. reflexivity.
Qed.


(** The conversions [float(n)] of lines 124, 126 and 134 are the only
    other operations of lines 123-158 that can fail. *)
Lemma run_before_irr_overflow (b' u' l' h' r' n' : Z) (sp' cp' ltc' ir' v' o' cap' sc' : F) :
  of_int (b' * h') = None ∨ of_int (l' + b' * h') = None ∨ of_int (b' * r') = None →
  exec before_irr (sidebar b' u' l' h' sp' cp' ltc' ir' r' v' o' cap' sc' n')
    = Raise OverflowError.
Proof.
  intros Hnone. unfold before_irr, costs, financing, income, exit_valuation, returns.
  cbn [app]. unfold sidebar. cbn [list_to_map foldr uncurry fst snd].
  run_statement.
  destruct (of_int (b' * h')) as [X|] eqn:HX.
  2:{ apply exec_cons_Raise. unfold binop, var, flt.
      rewrite lookup_insert_eq. rewrite !lookup_insert_ne by done. rewrite lookup_insert_eq.
      simpl. rewrite truediv_100. simpl. by rewrite HX. }
  (do 2 run_statement).
  destruct (of_int (l' + b' * h')) as [Y|] eqn:HY.
  2:{ apply exec_cons_Raise. unfold binop.
      (erewrite (proj2 (var_Ok _ "land_cost" _)) by lookup_value).
      (erewrite (proj2 (var_Ok _ "hard_costs" _)) by lookup_value).
      (erewrite (proj2 (var_Ok _ "soft_costs" _)) by lookup_value).
      simpl. by rewrite HY. }
  (do 3 run_statement).
  destruct (of_int (b' * r')) as [Z'|] eqn:HZ; [by destruct Hnone as [|[|]]|].
  run_statement. apply exec_cons_Raise. unfold binop.
  (erewrite (proj2 (var_Ok _ "pgi" _)) by lookup_value).
  (erewrite (proj2 (var_Ok _ "stabilized_vacancy_pct" _)) by lookup_value).
  simpl. rewrite truediv_100. simpl. by rewrite HZ.
Qed.

End Run.


Section Irr.
Context {F : Type} `{PyFloatLaws F} `{!PyFloatInts F}.
Variable pow : F → F → exn F.

Lemma not_le_nonzero (x : F) : fleb x f0 = false → feqb x f0 = false.
Proof.
  intros Hle. destruct (feqb x f0) eqn:He; [|done].
  apply zero_le in He. congruence.
Qed.

(** [calc_irr] on two floats and an int that converts: [None] by the
    guard, or else what [pow] gives; the two divisions never raise. *)
Lemma calc_irr_closed (a e N : F) (n : Z) :
  of_int n = Some N → Z.abs n < 2 ^ 53 →
  calc_irr pow (VFloat a) (VFloat e) (VInt n) =
    if fleb e f0 || fleb a f0 || (n <=? 0) then Ok VNone
    else p ← pow (fdiv a e) (fdiv f1 N); Ok (VFloat (fsub p f1)).
Proof.
  intros HN Hn. unfold calc_irr, py_or. simpl.
  destruct (fleb e f0) eqn:He; simpl; [done|].
  destruct (fleb a f0) eqn:Ha; simpl; [done|].
  destruct (n <=? 0) eqn:Hn0; simpl; [done|].
  rewrite (not_le_nonzero _ He). simpl. rewrite HN. simpl.
  destruct (feqb N f0) eqn:HN0; [|done].
  apply (of_int_nonzero _ _ Hn HN) in HN0. lia.
Qed.

End Irr.

Section Outcome.
Context {F : Type} `{PyFloatLaws F} `{!PyFloatInts F}.
Variable pow : F → F → exn F.
Implicit Types (s : gmap string (val F)).

Lemma proforma_before_irr : proforma pow = (before_irr ++ levered_irr pow)%list.
Proof. reflexivity. Qed.

(** Line 169 after lines 123-158: the script returns, unless [pow] raises. *)
Lemma irr_after_before_irr s s1 (a e : F) (n : Z) :
  exec before_irr s = Ok s1 →
  s1 !! "equity_exit_cash" = Some (VFloat a) →
  s1 !! "equity_required" = Some (VFloat e) →
  s1 !! "hold_period_years" = Some (VInt n) →
  Z.abs n < 2 ^ 53 →
  (∃ irr, exec (proforma pow) s = Ok (<["irr" := irr]> s1)) ∨
  (∃ x y err, pow x y = Raise err ∧ exec (proforma pow) s = Raise err).
Proof.
  intros Hrun Ha He Hn Hsmall.
  rewrite proforma_before_irr, exec_app, Hrun. simpl.
  unfold call3, var. rewrite Ha, He, Hn. simpl.
  destruct (of_int_small n Hsmall) as (N & HN).
  rewrite (calc_irr_closed pow a e N n HN Hsmall).
  destruct (fleb e f0 || fleb a f0 || (n <=? 0)); simpl; [by eauto|].
  destruct (pow (fdiv a e) (fdiv f1 N)) as [p|err] eqn:Hp; simpl; [by eauto|].
  right. by exists (fdiv a e), (fdiv f1 N), err.
Qed.

End Outcome.

(** * Which errors the script can raise *)

(** The two divisions of [calc_irr] never raise: on two floats and an int
    below 2^53 the call returns [None] when the guard of line 164 holds,
    and otherwise returns or raises as [pow] does. *)
Theorem calc_irr_divisions_guarded {F : Type} `{PyFloatLaws F} `{!PyFloatInts F}
    (pow : F → F → exn F) (equity_out equity_in : F) (years : Z) :
  Z.abs years < 2 ^ 53 →
  ∃ y, of_int years = Some y ∧
    calc_irr pow (VFloat equity_out) (VFloat equity_in) (VInt years) =
      if fleb equity_in f0 || fleb equity_out f0 || (years <=? 0) then Ok VNone
      else p ← pow (fdiv equity_out equity_in) (fdiv f1 y); Ok (VFloat (fsub p f1)).
Proof.
  intros Hy. destruct (of_int_small years Hy) as (y & Hyf).
  exists y. split; [done|]. by apply calc_irr_closed.
Qed.

Lemma calc_irr_divisions_guarded_witness :
  ∃ y, Binary64.of_Z 4 = Some y ∧
    calc_irr pow_sample64 (VFloat 212891.25%float) (VFloat 477881.25%float) (VInt 4) =
      if PrimFloat.leb 477881.25 0 || PrimFloat.leb 212891.25 0 || (4 <=? 0) then Ok VNone
      else p ← pow_sample64 (212891.25 / 477881.25)%float (1 / y)%float;
           Ok (VFloat (p - 1)%float).
Proof.
  exact (calc_irr_divisions_guarded (F:=float) pow_sample64 212891.25%float
           477881.25%float 4 eq_refl).
Defined.

(** Lines 123-158 on the values of the widgets, ints from the int widgets
    and floats from the others, whatever these values are.  The run raises
    OverflowError exactly when one of the three ints it converts to float
    is too large: hard_costs (line 124), land_cost + hard_costs (line 126)
    or pgi (line 134).  Otherwise it raises ZeroDivisionError, at line 141,
    exactly when exit_cap_rate is positive and exit_cap_rate / 100.0 is
    zero; and otherwise it returns. *)
Theorem before_irr_errors {F : Type} `{PyFloatLaws F} `{!PyFloatInts F}
    (buildable_sf units land_cost hard_cost_per_sf : Z)
    (soft_cost_pct contingency_pct loan_to_cost interest_rate : F)
    (rent_per_sf_year : Z)
    (stabilized_vacancy_pct op_ex_pct exit_cap_rate sale_cost_pct : F)
    (hold_period_years : Z) :
  let s := sidebar buildable_sf units land_cost hard_cost_per_sf
             soft_cost_pct contingency_pct loan_to_cost interest_rate
             rent_per_sf_year stabilized_vacancy_pct op_ex_pct exit_cap_rate
             sale_cost_pct hold_period_years in
  match of_int (buildable_sf * hard_cost_per_sf),
        of_int (land_cost + buildable_sf * hard_cost_per_sf),
        of_int (buildable_sf * rent_per_sf_year) with
  | Some _, Some _, Some _ =>
      if fltb f0 exit_cap_rate && feqb (fdiv exit_cap_rate f100) f0
      then exec before_irr s = Raise ZeroDivisionError
      else ∃ s1, exec before_irr s = Ok s1
  | _, _, _ => exec before_irr s = Raise OverflowError
  end.
Proof.
  intros s.
  destruct (of_int (buildable_sf * hard_cost_per_sf)) as [x|] eqn:Hx;
    [|apply run_before_irr_overflow; auto].
  destruct (of_int (land_cost + buildable_sf * hard_cost_per_sf)) as [y|] eqn:Hy;
    [|apply run_before_irr_overflow; auto].
  destruct (of_int (buildable_sf * rent_per_sf_year)) as [z|] eqn:Hz;
    [|apply run_before_irr_overflow; auto].
  pose proof (run_before_irr buildable_sf units land_cost hard_cost_per_sf
                rent_per_sf_year hold_period_years soft_cost_pct contingency_pct
                loan_to_cost interest_rate stabilized_vacancy_pct op_ex_pct
                exit_cap_rate sale_cost_pct x y z Hx Hy Hz) as Hrun.
  cbv zeta in Hrun. fold s in Hrun. rewrite Hrun.
  destruct (fltb f0 exit_cap_rate); cbn [andb].
  - destruct (feqb (fdiv exit_cap_rate f100) f0); [done | by eexists].
  - rewrite f1e_4_nonzero. by eexists.
Qed.

Lemma before_irr_errors_witness :
  exec before_irr
    (sidebar 2000 10 500000 350 15%float 7.5%float 65%float 7%float 45
             5%float 35%float 5e-324%float 1%float 4) = Raise ZeroDivisionError ∧
  ∃ s1, exec before_irr
          (sidebar 2000 10 500000 350 15%float 7.5%float 65%float 7%float 45
                   5%float 35%float 5%float 1%float 4) = Ok s1.
Proof.
  split.
  - exact (before_irr_errors (F:=float) 2000 10 500000 350 15%float 7.5%float 65%float
             7%float 45 5%float 35%float 5e-324%float 1%float 4).
  - exact (before_irr_errors (F:=float) 2000 10 500000 350 15%float 7.5%float 65%float
             7%float 45 5%float 35%float 5%float 1%float 4).
Defined.

(** The positions of the exit cap rate slider are positive, with a
    non-zero hundredth. *)
Lemma exit_cap_rate_values_safe (c : float) :
  c ∈ exit_cap_rate_values →
  fltb f0 c = true ∧ feqb (fdiv c f100) f0 = false.
Proof.
  revert c. apply Forall_forall. unfold exit_cap_rate_values. cbn [slider_values].
  repeat (constructor; [split; vm_compute; reflexivity|]). constructor.
Qed.

(** On every state of the widgets, lines 123-158 return, with
    cap_rate_decimal = exit_cap_rate / 100.0 (the floor 0.0001 of line 140
    is out of the slider's reach), and the script returns unless [pow]
    raises.  The int widgets give any int between their bounds, the exit
    cap rate slider one of its positions and the other float sliders any
    float. *)
Theorem widgets_never_raise (pow : float → float → exn float)
    (buildable_sf units land_cost hard_cost_per_sf : Z)
    (soft_cost_pct contingency_pct loan_to_cost interest_rate : float)
    (rent_per_sf_year : Z)
    (stabilized_vacancy_pct op_ex_pct exit_cap_rate sale_cost_pct : float)
    (hold_period_years : Z) :
  offers buildable_sf_widget buildable_sf →
  offers land_cost_widget land_cost →
  offers hard_cost_per_sf_widget hard_cost_per_sf →
  offers rent_per_sf_year_widget rent_per_sf_year →
  offers hold_period_years_widget hold_period_years →
  exit_cap_rate ∈ exit_cap_rate_values →
  let s := sidebar buildable_sf units land_cost hard_cost_per_sf
             soft_cost_pct contingency_pct loan_to_cost interest_rate
             rent_per_sf_year stabilized_vacancy_pct op_ex_pct exit_cap_rate
             sale_cost_pct hold_period_years in
  ∃ s1, exec before_irr s = Ok s1 ∧
    s1 !! "cap_rate_decimal" = Some (VFloat (exit_cap_rate / 100)%float) ∧
    ((∃ irr, exec (proforma pow) s = Ok (<["irr" := irr]> s1)) ∨
     (∃ x y err, pow x y = Raise err ∧ exec (proforma pow) s = Raise err)).
Proof.
  intros Hb Hl Hh Hr Hn Hcap s. unfold offers in Hb, Hl, Hh, Hr, Hn.
  cbn [min_value max_value buildable_sf_widget land_cost_widget
    hard_cost_per_sf_widget rent_per_sf_year_widget hold_period_years_widget]
    in Hb, Hl, Hh, Hr, Hn.
  destruct (of_int_small (F:=float) (buildable_sf * hard_cost_per_sf)) as (x & Hx); [nia|].
  destruct (of_int_small (F:=float) (land_cost + buildable_sf * hard_cost_per_sf))
    as (y & Hy); [nia|].
  destruct (of_int_small (F:=float) (buildable_sf * rent_per_sf_year)) as (z & Hz); [nia|].
  pose proof (run_before_irr buildable_sf units land_cost hard_cost_per_sf
                rent_per_sf_year hold_period_years soft_cost_pct contingency_pct
                loan_to_cost interest_rate stabilized_vacancy_pct op_ex_pct
                exit_cap_rate sale_cost_pct x y z Hx Hy Hz) as Hrun.
  cbv zeta in Hrun. fold s in Hrun.
  destruct (exit_cap_rate_values_safe _ Hcap) as [Hpos Hnz].
  rewrite Hpos, Hnz in Hrun.
  eexists. split; [exact Hrun|]. split; [lookup_value|].
  eapply (irr_after_before_irr pow s); [exact Hrun | lookup_value .. | lia].
Qed.

Lemma widgets_never_raise_witness :
  ∃ s1,
    exec before_irr
      (sidebar 2000 10 500000 350 15%float 7.5%float 65%float 7%float 45
               5%float 35%float 5%float 1%float 4) = Ok s1 ∧
    s1 !! "cap_rate_decimal" = Some (VFloat (5 / 100)%float) ∧
    ((∃ irr, exec (proforma pow_sample64)
               (sidebar 2000 10 500000 350 15%float 7.5%float 65%float 7%float 45
                        5%float 35%float 5%float 1%float 4) = Ok (<["irr" := irr]> s1)) ∨
     (∃ x y err, pow_sample64 x y = Raise err ∧
        exec (proforma pow_sample64)
          (sidebar 2000 10 500000 350 15%float 7.5%float 65%float 7%float 45
                   5%float 35%float 5%float 1%float 4) = Raise err)).
Proof.
  apply (widgets_never_raise pow_sample64 2000 10 500000 350 15%float 7.5%float
           65%float 7%float 45 5%float 35%float 5%float 1%float 4);
    [unfold offers; simpl; lia .. |].
  unfold exit_cap_rate_values. cbn [slider_values].
  do 8 apply list_elem_of_further.
  match goal with |- ?x ∈ ?y :: _ => replace y with x by (vm_compute; reflexivity) end.
  apply list_elem_of_here.
Defined.

(** * The types of the derived values *)

Section Types.
Context {F : Type} `{PyFloatLaws F}.
Implicit Types (s : gmap string (val F)) (a b : @expr F) (v : val F).

Lemma holds_truediv s x a b : s ⊨ x ≐ a /' b → ∃ y, s !! x = Some (VFloat y).
Proof.
  intros (v & Hx & (va & vb & _ & _ & (q & _ & ->)%py_truediv_Ok)%binop_Ok). eauto.
Qed.

(** A guarded quotient [a / b if c else d] holds a float or the value of [d]. *)
Lemma holds_ifelse_truediv s x a b (c : @cond F) d :
  s ⊨ x ≐ ifelse (a /' b) c d →
  ∃ v, s !! x = Some v ∧ ((∃ y, v = VFloat y) ∨ d s = Ok v).
Proof.
  intros (v & Hx & Hv). exists v. split; [done|].
  unfold ifelse in Hv. apply bind_Ok in Hv as ([] & _ & Hv); [left|by right].
  apply binop_Ok in Hv as (va & vb & _ & _ & (q & _ & ->)%py_truediv_Ok). eauto.
Qed.

End Types.

Lemma final_types {F : Type} `{PyFloatLaws F} (pow : F → F → exn F)
    (s s' : gmap string (val F)) :
  exec (proforma pow) s = Ok s' →
  Forall (λ x, ∃ y, s' !! x = Some (VFloat y))
    ["soft_costs"; "contingency"; "total_project_cost"; "loan_amount";
     "equity_required"; "vacancy_loss"; "egi"; "op_ex"; "noi"; "cap_rate_decimal";
     "stabilized_value"; "sale_costs"; "net_sale_before_debt";
     "developer_profit_unlevered"; "equity_exit_cash"; "equity_profit"] ∧
  Forall (λ x, ∃ v, s' !! x = Some v ∧ ((∃ y, v = VFloat y) ∨ v = VInt 0))
    ["dev_margin_on_cost"; "equity_multiple"] ∧
  ∃ v, s' !! "irr" = Some v ∧ ((∃ y, v = VFloat y) ∨ v = VNone).
Proof.
  intros Hrun.
  assert (∃ y, s' !! "soft_costs" = Some (VFloat y)) as Hsoft.
  { eapply holds_arith_quotient. final_value Hrun. }
  assert (∃ y, s' !! "contingency" = Some (VFloat y)) as Hcont.
  { eapply holds_arith_quotient. final_value Hrun. }
  assert (∃ y, s' !! "total_project_cost" = Some (VFloat y)) as Htpc.
  { destruct Hcont as (y & Hy). eapply holds_arith_float; [final_value Hrun | exact Hy]. }
  assert (∃ y, s' !! "loan_amount" = Some (VFloat y)) as Hloan.
  { eapply holds_arith_quotient. final_value Hrun. }
  assert (∃ y, s' !! "equity_required" = Some (VFloat y)) as Heq.
  { destruct Hloan as (y & Hy). eapply holds_arith_float; [final_value Hrun | exact Hy]. }
  assert (∃ y, s' !! "vacancy_loss" = Some (VFloat y)) as Hvac.
  { eapply holds_arith_quotient. final_value Hrun. }
  assert (∃ y, s' !! "egi" = Some (VFloat y)) as Hegi.
  { destruct Hvac as (y & Hy). eapply holds_arith_float; [final_value Hrun | exact Hy]. }
  assert (∃ y, s' !! "op_ex" = Some (VFloat y)) as Hopex.
  { eapply holds_arith_quotient. final_value Hrun. }
  assert (∃ y, s' !! "noi" = Some (VFloat y)) as Hnoi.
  { destruct Hopex as (y & Hy). eapply holds_arith_float; [final_value Hrun | exact Hy]. }
  assert (∃ y, s' !! "cap_rate_decimal" = Some (VFloat y)) as Hcrd.
  { assert (s' ⊨ "cap_rate_decimal" ≐
              ifelse (var "exit_cap_rate" /' flt f100) (gt0 (var "exit_cap_rate"))
                     (flt f1e_4)) as Hh by final_value Hrun.
    apply holds_ifelse_truediv in Hh as (v & Hv & [(y & ->)|[= <-]]); eauto. }
  assert (∃ y, s' !! "stabilized_value" = Some (VFloat y)) as Hsv.
  { eapply holds_truediv. final_value Hrun. }
  assert (∃ y, s' !! "sale_costs" = Some (VFloat y)) as Hsc.
  { eapply holds_arith_quotient. final_value Hrun. }
  assert (∃ y, s' !! "net_sale_before_debt" = Some (VFloat y)) as Hns.
  { destruct Hsc as (y & Hy). eapply holds_arith_float; [final_value Hrun | exact Hy]. }
  assert (∃ y, s' !! "developer_profit_unlevered" = Some (VFloat y)) as Hdp.
  { destruct Htpc as (y & Hy). eapply holds_arith_float; [final_value Hrun | exact Hy]. }
  assert (∃ y, s' !! "equity_exit_cash" = Some (VFloat y)) as Heec.
  { destruct Hloan as (y & Hy). eapply holds_arith_float; [final_value Hrun | exact Hy]. }
  assert (∃ y, s' !! "equity_profit" = Some (VFloat y)) as Hep.
  { destruct Heq as (y & Hy). eapply holds_arith_float; [final_value Hrun | exact Hy]. }
  split; [repeat (constructor; [assumption|]); constructor|].
  split.
  - assert (s' ⊨ "dev_margin_on_cost" ≐
              ifelse (var "developer_profit_unlevered" /' var "total_project_cost")
                     (gt0 (var "total_project_cost")) (int 0)) as Hm by final_value Hrun.
    assert (s' ⊨ "equity_multiple" ≐
              ifelse (var "equity_exit_cash" /' var "equity_required")
                     (gt0 (var "equity_required")) (int 0)) as Hem by final_value Hrun.
    apply holds_ifelse_truediv in Hm as (m & Hm & Hm').
    apply holds_ifelse_truediv in Hem as (em & Hem & Hem').
    repeat constructor; eexists; (split; [eassumption|]).
    + destruct Hm' as [?|[= <-]]; auto.
    + destruct Hem' as [?|[= <-]]; auto.
  - assert (s' ⊨ "irr" ≐ call3 (calc_irr pow) (var "equity_exit_cash")
              (var "equity_required") (var "hold_period_years")) as (irr & Hirr & Hcall)
      by final_value Hrun.
    exists irr. split; [done|].
    unfold call3 in Hcall.
    apply bind_Ok in Hcall as (out & _ & Hcall).
    apply bind_Ok in Hcall as (inn & _ & Hcall).
    apply bind_Ok in Hcall as (years & _ & Hcall).
    apply (calc_irr_Ok pow) in Hcall as [_ Hfloat].
    destruct irr as [z|y|]; [|by eauto|by right].
    destruct Hfloat as (? & ? & ? & _ & _ & _ & [=]). done.
Qed.


Lemma arith_number {F : Type} `{PyFloat F} iop fop (a b v : val F) :
  arith iop fop a b = Ok v → (∃ z, v = VInt z) ∨ (∃ y, v = VFloat y).
Proof.
  destruct a as [x|x|], b as [y|y|]; simpl; try done.
  - intros [= <-]. eauto.
  - intros (? & _ & [= <-])%bind_Ok. eauto.
  - intros (? & _ & [= <-])%bind_Ok. eauto.
  - intros [= <-]. eauto.
Qed.

(** Whatever the namespace the script starts from, when it has run no
    derived variable but irr holds None: the two products hard_costs and
    pgi hold an int or a float, every other derived variable holds a
    float, except that dev_margin_on_cost and equity_multiple may hold the
    int 0 and irr may hold None. *)
Theorem derived_values_are_floats {F : Type} `{PyFloatLaws F} (pow : F → F → exn F)
    (s s' : gmap string (val F)) :
  exec (proforma pow) s = Ok s' →
  Forall (λ x, ∃ v, s' !! x = Some v ∧ ((∃ z, v = VInt z) ∨ (∃ y, v = VFloat y)))
    ["hard_costs"; "pgi"] ∧
  Forall (λ x, ∃ y, s' !! x = Some (VFloat y))
    ["soft_costs"; "contingency"; "total_project_cost"; "loan_amount";
     "equity_required"; "vacancy_loss"; "egi"; "op_ex"; "noi"; "cap_rate_decimal";
     "stabilized_value"; "sale_costs"; "net_sale_before_debt";
     "developer_profit_unlevered"; "equity_exit_cash"; "equity_profit"] ∧
  Forall (λ x, ∃ v, s' !! x = Some v ∧ ((∃ y, v = VFloat y) ∨ v = VInt 0))
    ["dev_margin_on_cost"; "equity_multiple"] ∧
  ∃ v, s' !! "irr" = Some v ∧ ((∃ y, v = VFloat y) ∨ v = VNone).
Proof.
  intros Hrun. split; [|by apply (final_types pow s)].
  assert (s' ⊨ "hard_costs" ≐ var "buildable_sf" *' var "hard_cost_per_sf")
    as (hc & Hhc & (? & ? & _ & _ & Hhc')%binop_Ok) by final_value Hrun.
  assert (s' ⊨ "pgi" ≐ var "buildable_sf" *' var "rent_per_sf_year")
    as (pgi & Hpgi & (? & ? & _ & _ & Hpgi')%binop_Ok) by final_value Hrun.
  apply arith_number in Hhc', Hpgi'.
  repeat constructor; eauto.
Qed.

Lemma derived_values_are_floats_witness :
  Forall (λ x, ∃ v, final64 !! x = Some v ∧ ((∃ z, v = VInt z) ∨ (∃ y, v = VFloat y)))
    ["hard_costs"; "pgi"] ∧
  Forall (λ x, ∃ y, final64 !! x = Some (VFloat y))
    ["soft_costs"; "contingency"; "total_project_cost"; "loan_amount";
     "equity_required"; "vacancy_loss"; "egi"; "op_ex"; "noi"; "cap_rate_decimal";
     "stabilized_value"; "sale_costs"; "net_sale_before_debt";
     "developer_profit_unlevered"; "equity_exit_cash"; "equity_profit"] ∧
  Forall (λ x, ∃ v, final64 !! x = Some v ∧ ((∃ y, v = VFloat y) ∨ v = VInt 0))
    ["dev_margin_on_cost"; "equity_multiple"] ∧
  ∃ v, final64 !! "irr" = Some v ∧ ((∃ y, v = VFloat y) ∨ v = VNone).
Proof. exact (derived_values_are_floats pow_sample64 defaults64 final64 run_defaults64). Defined.

(** * The page *)

Lemma not_applicable_text (t : string) : t +:+ "%" ≠ "N/A".
Proof.
  destruct t as [|c1 [|c2 [|c3 [|c4 t]]]]; simpl; discriminate.
Qed.

Section Page.
Context {F : Type} `{PyFloatLaws F} `{!PyFloatInts F} `{!PyFormat F}.
Implicit Types (s : gmap string (val F)) (v : val F).

Lemma py_format_0f_Ok v y : to_float v = Ok y → py_format_0f v = Ok (fmt0 y).
Proof. destruct v; simpl; [|by intros [= ->]|done]. by intros ->. Qed.

Lemma py_format_f_Ok k v y : to_float v = Ok y → py_format_f k v = Ok (fmt_f k y).
Proof. destruct v; simpl; [|by intros [= ->]|done]. by intros ->. Qed.

Lemma metric_Ok_shown (label x : string) s v y :
  s !! x = Some v → to_float v = Ok y →
  metric label x s = Ok (label, "$" +:+ fmt0 y).
Proof.
  intros Hx Hy. unfold metric, var. rewrite Hx. simpl.
  by rewrite (py_format_0f_Ok _ _ Hy).
Qed.

Lemma to_float_small (z : Z) : Z.abs z < 2 ^ 53 → ∃ y, to_float (VInt z) = Ok y.
Proof. intros (y & Hy)%of_int_small. exists y. simpl. by rewrite Hy. Qed.

(** A float or the int 0, times 100, has a text with one decimal. *)
Lemma percent_Ok v :
  (∃ y, v = VFloat y) ∨ v = VInt 0 →
  ∃ w y, py_mul v (VInt 100) = Ok w ∧ to_float w = Ok y.
Proof.
  intros [(x & ->)| ->].
  - destruct (of_int_small 100) as (c & Hc); [done|].
    exists (VFloat (fmul x c)), (fmul x c). split; [|done]. simpl. by rewrite Hc.
  - destruct (to_float_small 0) as (y & Hy); [done|]. by exists (VInt 0), y.
Qed.

Lemma percent_metric_Ok (label x : string) s v :
  s !! x = Some v → (∃ y, v = VFloat y) ∨ v = VInt 0 →
  ∃ txt, percent_metric label x s = Ok (label, txt +:+ "%").
Proof.
  intros Hx (w & y & Hw & Hy)%percent_Ok. unfold percent_metric, var.
  rewrite Hx. simpl. rewrite Hw. simpl. rewrite (py_format_f_Ok 1 _ _ Hy). simpl. eauto.
Qed.

Lemma multiple_metric_Ok (label x : string) s v :
  s !! x = Some v → (∃ y, v = VFloat y) ∨ v = VInt 0 →
  ∃ txt, multiple_metric label x s = Ok (label, txt +:+ "x").
Proof.
  intros Hx Hv. unfold multiple_metric, var. rewrite Hx. simpl.
  assert (∃ y, to_float v = Ok y) as (y & Hy).
  { destruct Hv as [(y & ->)| ->]; [by exists y | by apply to_float_small]. }
  rewrite (py_format_f_Ok 2 _ _ Hy). simpl. eauto.
Qed.

(** Lines 196-199: the tile reads "N/A" exactly for [None]. *)
Lemma irr_metric_Ok s v :
  s !! "irr" = Some v → (∃ y, v = VFloat y) ∨ v = VNone →
  ∃ txt, irr_metric s = Ok ("Levered IRR", txt) ∧ (txt = "N/A" ↔ v = VNone).
Proof.
  intros Hx Hv. unfold irr_metric, var. rewrite Hx. simpl.
  destruct Hv as [(x & ->)| ->]; [|by exists "N/A"].
  destruct (percent_Ok (VFloat x)) as (w & y & Hw & Hy); [by eauto|].
  rewrite Hw. simpl. rewrite (py_format_f_Ok 1 _ _ Hy). simpl.
  eexists. split; [reflexivity|]. split; [|done].
  by intros ?%not_applicable_text.
Qed.

End Page.

(** The left operand of a product with a quotient, when the product has
    returned, is a number that converts to float. *)
Lemma holds_operand_converts {F : Type} `{PyFloat F} (s : gmap string (val F))
    (x z : string) iop fop (b c : @expr F) :
  s ⊨ x ≐ binop (arith iop fop) (var z) (b /' c) →
  ∃ v y, s !! z = Some v ∧ to_float v = Ok y.
Proof.
  intros (w & _ & (v & vb & Hv%var_Ok & Hb & Hop)%binop_Ok).
  apply binop_Ok in Hb as (? & ? & _ & _ & (q & _ & ->)%py_truediv_Ok).
  exists v. destruct v as [n|y|]; simpl in *; [|by eauto|done].
  destruct (of_int n); [by eauto|done].
Qed.

Ltac render_tile :=
  first [ erewrite metric_Ok_shown by (first [eassumption | reflexivity])
        | match goal with H : _ = Ok _ |- _ => rewrite H end ];
  cbn [mbind exn_bind].

(** When the script has run from an int land cost within the widget's
    bounds, every one of the twenty metric tiles of lines 185-226 renders:
    no value is None where a number is formatted and no int is too large for
    ['f'].  The "Levered IRR" tile reads "N/A" exactly when irr is None. *)
Theorem page_renders {F : Type} `{PyFloatLaws F} `{!PyFloatInts F} `{!PyFormat F}
    (pow : F → F → exn F) (s s' : gmap string (val F)) (land_cost : Z) :
  exec (proforma pow) s = Ok s' →
  s !! "land_cost" = Some (VInt land_cost) →
  offers land_cost_widget land_cost →
  ∃ tiles irr txt,
    page s' = Ok tiles ∧ length tiles = 20%nat ∧
    s' !! "irr" = Some irr ∧
    tiles !! 6%nat = Some ("Levered IRR", txt) ∧
    (txt = "N/A" ↔ irr = VNone).
Proof.
  intros Hrun Hland [Hl0 Hl1]. simpl in Hl0, Hl1.
  destruct (final_types pow s s' Hrun) as (Hfloat & Hguard & (irr & Hirr & Hirr')).
  rewrite Forall_forall in Hfloat. rewrite Forall_forall in Hguard.
  destruct (Hfloat "soft_costs") as (soft & Hsoft); [in_script|].
  destruct (Hfloat "contingency") as (cont & Hcont); [in_script|].
  destruct (Hfloat "total_project_cost") as (tpc & Htpc); [in_script|].
  destruct (Hfloat "loan_amount") as (loan & Hloan); [in_script|].
  destruct (Hfloat "equity_required") as (eq & Heq); [in_script|].
  destruct (Hfloat "vacancy_loss") as (vac & Hvac); [in_script|].
  destruct (Hfloat "egi") as (egi & Hegi); [in_script|].
  destruct (Hfloat "op_ex") as (opex & Hopex); [in_script|].
  destruct (Hfloat "noi") as (noi & Hnoi); [in_script|].
  destruct (Hfloat "stabilized_value") as (sv & Hsv); [in_script|].
  destruct (Hfloat "net_sale_before_debt") as (ns & Hns); [in_script|].
  destruct (Hfloat "developer_profit_unlevered") as (dp & Hdp); [in_script|].
  destruct (Hfloat "equity_profit") as (ep & Hep); [in_script|].
  destruct (Hguard "dev_margin_on_cost") as (m & Hm & Hm'); [in_script|].
  destruct (Hguard "equity_multiple") as (em & Hem & Hem'); [in_script|].
  assert (∃ v y, s' !! "hard_costs" = Some v ∧ to_float v = Ok y)
    as (hard & hard' & Hhard & Hhard').
  { eapply holds_operand_converts. final_value Hrun. }
  assert (∃ v y, s' !! "pgi" = Some v ∧ to_float v = Ok y) as (pgi & pgi' & Hpgi & Hpgi').
  { eapply holds_operand_converts. final_value Hrun. }
  assert (s' !! "land_cost" = Some (VInt land_cost)) as Hland'.
  { rewrite <- Hland. eapply proforma_frame; [exact Hrun | compute_done]. }
  destruct (to_float_small land_cost) as (land' & Hland''); [lia|].
  destruct (percent_metric_Ok "Dev Margin on Cost" _ _ _ Hm Hm') as (t3 & Ht3).
  destruct (multiple_metric_Ok "Equity Multiple" _ _ _ Hem Hem') as (t4 & Ht4).
  destruct (irr_metric_Ok _ _ Hirr Hirr') as (t7 & Ht7 & Hna).
  eexists _, irr, t7. split; [|split; [|split; [exact Hirr|split; [|exact Hna]]]].
  - unfold page, deal_snapshot, mini_pro_forma, cost_breakdown, capital_stack,
      exit_profit_tiles. cbn [render].
    do 20 render_tile. reflexivity.
  - reflexivity.
  - reflexivity.
Qed.

Lemma page_renders_witness :
  ∃ tiles irr txt,
    page final64 = Ok tiles ∧ length tiles = 20%nat ∧
    final64 !! "irr" = Some irr ∧
    tiles !! 6%nat = Some ("Levered IRR", txt) ∧
    (txt = "N/A" ↔ irr = VNone).
Proof.
  apply (page_renders pow_sample64 defaults64 final64 500000 run_defaults64).
  - reflexivity.
  - unfold offers. simpl. lia.
Defined.

(** The three tiles that show an int show it exactly: on ints between the
    widgets' bounds, "Land Cost", "Hard Costs" and "Potential Gross Income
    (PGI)" read the land cost, buildable_sf * hard_cost_per_sf and
    buildable_sf * rent_per_sf_year, digit for digit. *)
Theorem int_tiles_exact (pow : float → float → exn float) (s s' : gmap string (val float))
    (buildable_sf land_cost hard_cost_per_sf rent_per_sf_year : Z) :
  exec (proforma pow) s = Ok s' →
  s !! "buildable_sf" = Some (VInt buildable_sf) →
  s !! "land_cost" = Some (VInt land_cost) →
  s !! "hard_cost_per_sf" = Some (VInt hard_cost_per_sf) →
  s !! "rent_per_sf_year" = Some (VInt rent_per_sf_year) →
  offers buildable_sf_widget buildable_sf →
  offers land_cost_widget land_cost →
  offers hard_cost_per_sf_widget hard_cost_per_sf →
  offers rent_per_sf_year_widget rent_per_sf_year →
  metric "Land Cost" "land_cost" s' = Ok ("Land Cost", "$" +:+ commas land_cost) ∧
  metric "Hard Costs" "hard_costs" s'
    = Ok ("Hard Costs", "$" +:+ commas (buildable_sf * hard_cost_per_sf)) ∧
  metric "Potential Gross Income (PGI)" "pgi" s'
    = Ok ("Potential Gross Income (PGI)",
          "$" +:+ commas (buildable_sf * rent_per_sf_year)).
Proof.
  intros Hrun Hb Hl Hh Hr [Hb0 Hb1] [Hl0 Hl1] [Hh0 Hh1] [Hr0 Hr1].
  simpl in Hb0, Hb1, Hl0, Hl1, Hh0, Hh1, Hr0, Hr1.
  assert (∀ x, x ∈ input_names → s' !! x = s !! x) as Hin.
  { intros x Hx. eapply proforma_frame; [exact Hrun|].
    revert x Hx. apply Forall_forall. compute_done. }
  assert (∀ (x : string) (z : Z), s' !! x = Some (VInt z) → 0 <= z < 2 ^ 53 →
            ∀ label : string, metric label x s' = Ok (label, "$" +:+ commas z)) as Htile.
  { intros x z Hx Hz label. unfold metric, var. rewrite Hx. cbn [mbind exn_bind].
    rewrite binary64_format_int by lia. cbn [mbind exn_bind].
    destruct (Z.ltb_spec z 0); [lia|]. reflexivity. }
  assert (s' !! "buildable_sf" = Some (VInt buildable_sf)) as Hb'
    by (rewrite Hin; [done | compute_done]).
  assert (s' !! "hard_cost_per_sf" = Some (VInt hard_cost_per_sf)) as Hh'
    by (rewrite Hin; [done | compute_done]).
  assert (s' !! "rent_per_sf_year" = Some (VInt rent_per_sf_year)) as Hr'
    by (rewrite Hin; [done | compute_done]).
  assert (s' ⊨ "hard_costs" ≐ var "buildable_sf" *' var "hard_cost_per_sf")
    as (hc & Hhc & Hhc') by final_value Hrun.
  assert (s' ⊨ "pgi" ≐ var "buildable_sf" *' var "rent_per_sf_year")
    as (pgi & Hpgi & Hpgi') by final_value Hrun.
  unfold binop, var in Hhc', Hpgi'.
  rewrite Hb', Hh' in Hhc'. rewrite Hb', Hr' in Hpgi'.
  injection Hhc' as <-. injection Hpgi' as <-.
  repeat split; apply Htile; try done; try nia.
  rewrite Hin; [done | compute_done].
Qed.

Lemma int_tiles_exact_witness :
  metric "Land Cost" "land_cost" final64 = Ok ("Land Cost", "$" +:+ commas 500000) ∧
  metric "Hard Costs" "hard_costs" final64
    = Ok ("Hard Costs", "$" +:+ commas (2000 * 350)) ∧
  metric "Potential Gross Income (PGI)" "pgi" final64
    = Ok ("Potential Gross Income (PGI)", "$" +:+ commas (2000 * 45)).
Proof.
  apply (int_tiles_exact pow_sample64 defaults64 final64 2000 500000 350 45 run_defaults64);
    first [reflexivity | unfold offers; simpl; lia].
Defined.

(** * The all-equity deal: loan_to_cost = 0.0 *)

Lemma binary64_finite_positive (t : float) :
  PrimFloat.ltb 0 t = true → PrimFloat.ltb t infinity = true →
  ∃ m e, Prim2SF t = S754_finite false m e.
Proof.
  rewrite !FloatAxioms.ltb_spec.
  change (Prim2SF 0) with (S754_zero false).
  change (Prim2SF infinity) with (S754_infinity false).
  destruct (Prim2SF t) as [[]|[]| |[] m e]; cbv; try congruence. eauto.
Qed.

Lemma binary64_mul_zero (t : float) :
  PrimFloat.ltb 0 t = true → PrimFloat.ltb t infinity = true → (t * 0)%float = 0%float.
Proof.
  intros H0 Hinf. destruct (binary64_finite_positive t H0 Hinf) as (m & e & Ht).
  apply FloatAxioms.Prim2SF_inj. rewrite FloatAxioms.mul_spec, Ht. reflexivity.
Qed.

Lemma binary64_sub_zero (x : float) : (x - 0)%float = x.
Proof.
  apply FloatAxioms.Prim2SF_inj. rewrite FloatAxioms.sub_spec.
  change (Prim2SF 0) with (S754_zero false).
  by destruct (Prim2SF x) as [[]|[]| |[] m e].
Qed.

(** With the loan-to-cost slider at its minimum 0.0 and a positive, finite
    total_project_cost, a completed run leaves loan_amount = 0.0,
    equity_required = total_project_cost, equity_exit_cash =
    net_sale_before_debt, equity_profit = developer_profit_unlevered and
    equity_multiple = net_sale_before_debt / total_project_cost, each pair
    the same double. *)
Theorem all_equity_deal (pow : float → float → exn float) (s s' : gmap string (val float))
    (total_project_cost : float) :
  exec (proforma pow) s = Ok s' →
  s !! "loan_to_cost" = Some (VFloat 0%float) →
  s' !! "total_project_cost" = Some (VFloat total_project_cost) →
  PrimFloat.ltb 0 total_project_cost = true →
  PrimFloat.ltb total_project_cost infinity = true →
  ∃ net_sale_before_debt developer_profit_unlevered,
    s' !! "net_sale_before_debt" = Some (VFloat net_sale_before_debt) ∧
    s' !! "developer_profit_unlevered" = Some (VFloat developer_profit_unlevered) ∧
    s' !! "loan_amount" = Some (VFloat 0%float) ∧
    s' !! "equity_required" = Some (VFloat total_project_cost) ∧
    s' !! "equity_exit_cash" = Some (VFloat net_sale_before_debt) ∧
    s' !! "equity_profit" = Some (VFloat developer_profit_unlevered) ∧
    s' !! "equity_multiple"
      = Some (VFloat (net_sale_before_debt / total_project_cost)%float).
Proof.
  intros Hrun Hltc Htpc Hpos Hfin.
  assert (s' !! "loan_to_cost" = Some (VFloat 0%float)) as Hltc'.
  { rewrite <- Hltc. eapply proforma_frame; [exact Hrun | compute_done]. }
  assert (s' ⊨ "loan_amount" ≐ var "total_project_cost" *' (var "loan_to_cost" /' flt f100))
    as (loan & Hloan & Hloan') by final_value Hrun.
  unfold binop, var, flt in Hloan'. rewrite Htpc, Hltc' in Hloan'.
  injection Hloan' as <-.
  change (fmul total_project_cost (fdiv 0%float f100))
    with (total_project_cost * (0 / 100))%float in Hloan.
  replace (0 / 100)%float with 0%float in Hloan by (vm_compute; reflexivity).
  rewrite (binary64_mul_zero _ Hpos Hfin) in Hloan.
  assert (s' ⊨ "equity_required" ≐ var "total_project_cost" -' var "loan_amount")
    as (eq & Heq & Heq') by final_value Hrun.
  unfold binop, var in Heq'. rewrite Htpc, Hloan in Heq'. injection Heq' as <-.
  change (fsub total_project_cost 0%float) with (total_project_cost - 0)%float in Heq.
  rewrite binary64_sub_zero in Heq.
  destruct (final_types pow s s' Hrun) as (Hfloat & _ & _).
  rewrite Forall_forall in Hfloat.
  destruct (Hfloat "net_sale_before_debt") as (ns & Hns); [in_script|].
  assert (s' ⊨ "developer_profit_unlevered" ≐
            var "net_sale_before_debt" -' var "total_project_cost")
    as (dp & Hdp & Hdp') by final_value Hrun.
  unfold binop, var in Hdp'. rewrite Hns, Htpc in Hdp'. injection Hdp' as <-.
  assert (s' ⊨ "equity_exit_cash" ≐ var "net_sale_before_debt" -' var "loan_amount")
    as (eec & Heec & Heec') by final_value Hrun.
  unfold binop, var in Heec'. rewrite Hns, Hloan in Heec'. injection Heec' as <-.
  change (fsub ns 0%float) with (ns - 0)%float in Heec.
  rewrite binary64_sub_zero in Heec.
  assert (s' ⊨ "equity_profit" ≐ var "equity_exit_cash" -' var "equity_required")
    as (ep & Hep & Hep') by final_value Hrun.
  unfold binop, var in Hep'. rewrite Heec, Heq in Hep'. injection Hep' as <-.
  assert (s' ⊨ "equity_multiple" ≐
            ifelse (var "equity_exit_cash" /' var "equity_required")
                   (gt0 (var "equity_required")) (int 0))
    as (em & Hem & Hem') by final_value Hrun.
  rewrite (guarded_quotient _ _ _ _ _ Heec Heq) in Hem'.
  change (fltb f0 total_project_cost) with (PrimFloat.ltb 0 total_project_cost) in Hem'.
  rewrite Hpos in Hem'. injection Hem' as <-.
  exists ns, (fsub ns total_project_cost). done.
Qed.

(** * What the page depends on, and what the run needs *)

(** The page is a function of land_cost and the derived variables. *)
Lemma page_reads {F : Type} `{PyFloat F} `{!PyFormat F} (a b : gmap string (val F)) :
  agree ("land_cost" :: derived_names) a b → page a = page b.
Proof.
  intros Hab.
  unfold page, deal_snapshot, mini_pro_forma, cost_breakdown, capital_stack,
    exit_profit_tiles, render, metric, percent_metric, multiple_metric, irr_metric, var.
  rewrite !(Hab "land_cost"), !(Hab "hard_costs"), !(Hab "soft_costs"),
    !(Hab "contingency"), !(Hab "total_project_cost"), !(Hab "loan_amount"),
    !(Hab "equity_required"), !(Hab "pgi"), !(Hab "vacancy_loss"), !(Hab "egi"),
    !(Hab "op_ex"), !(Hab "noi"), !(Hab "stabilized_value"),
    !(Hab "net_sale_before_debt"), !(Hab "developer_profit_unlevered"),
    !(Hab "dev_margin_on_cost"), !(Hab "equity_profit"), !(Hab "equity_multiple"),
    !(Hab "irr") by compute_done.
  reflexivity.
Qed.

(** No tile shows units or interest_rate, or anything computed from them:
    two completed runs from namespaces that differ at most in these two
    render the same page. *)
Theorem page_ignores_display_only {F : Type} `{PyFloat F} `{!PyFormat F}
    (pow : F → F → exn F) (s1 s2 s1' s2' : gmap string (val F)) :
  (∀ x, x ∉ display_only → s1 !! x = s2 !! x) →
  exec (proforma pow) s1 = Ok s1' →
  exec (proforma pow) s2 = Ok s2' →
  page s1' = page s2'.
Proof.
  intros Hsame Hrun1 Hrun2. apply page_reads.
  assert (agree used_inputs s1 s2) as Hused.
  { intros x Hx. apply Hsame. unfold used_inputs in Hx.
    by apply list_elem_of_filter in Hx as [Hx _]. }
  pose proof (proforma_outcome pow s1 s2 Hused) as Hout.
  rewrite Hrun1, Hrun2 in Hout. simpl in Hout.
  intros x [->|Hx]%elem_of_cons; [|by apply Hout].
  rewrite (proforma_frame pow s1 s1' "land_cost" Hrun1) by compute_done.
  rewrite (proforma_frame pow s2 s2' "land_cost" Hrun2) by compute_done.
  apply Hsame. compute_done.
Qed.

Section Required.
Context {F : Type} `{PyFloat F}.
Implicit Types (s : gmap string (val F)) (a b : @expr F) (v : val F).

Lemma arith_not_None iop fop (x y v : val F) :
  arith iop fop x y = Ok v → x ≠ VNone ∧ y ≠ VNone.
Proof. by destruct x, y. Qed.

Lemma py_truediv_not_None (x y v : val F) :
  py_truediv x y = Ok v → x ≠ VNone ∧ y ≠ VNone.
Proof. by destruct x, y. Qed.

(** A name that a returned expression reads in an arithmetic operand is
    bound to a number. *)
Lemma var_operand_l s x op b v :
  (∀ x y w, op x y = Ok w → x ≠ VNone ∧ y ≠ VNone) →
  binop op (var x) b s = Ok v → ∃ w, s !! x = Some w ∧ w ≠ VNone.
Proof.
  intros Hop (w & wb & Hw%var_Ok & _ & Hv)%binop_Ok. exists w. split; [done|].
  by apply Hop in Hv as [? _].
Qed.

Lemma var_operand_r s x op a v :
  (∀ x y w, op x y = Ok w → x ≠ VNone ∧ y ≠ VNone) →
  binop op a (var x) s = Ok v → ∃ w, s !! x = Some w ∧ w ≠ VNone.
Proof.
  intros Hop (wa & w & _ & Hw%var_Ok & Hv)%binop_Ok. exists w. split; [done|].
  by apply Hop in Hv as [_ ?].
Qed.

(** The same for the percentage [x / 100.0] on the right of an operator. *)
Lemma var_percent s x op a c v :
  binop op a (var x /' c) s = Ok v → ∃ w, s !! x = Some w ∧ w ≠ VNone.
Proof.
  intros (wa & wb & _ & Hb & _)%binop_Ok.
  by apply var_operand_l in Hb; [|apply py_truediv_not_None].
Qed.

End Required.

(** The script returns only if the namespace it starts from binds each of
    the eleven widget values its arithmetic reads to a number, not to
    None, and binds hold_period_years. *)
Theorem used_inputs_required {F : Type} `{PyFloat F} (pow : F → F → exn F)
    (s s' : gmap string (val F)) :
  exec (proforma pow) s = Ok s' →
  Forall (λ x, ∃ v, s !! x = Some v ∧ v ≠ VNone)
    ["buildable_sf"; "land_cost"; "hard_cost_per_sf"; "soft_cost_pct";
     "contingency_pct"; "loan_to_cost"; "rent_per_sf_year";
     "stabilized_vacancy_pct"; "op_ex_pct"; "exit_cap_rate"; "sale_cost_pct"] ∧
  ∃ v, s !! "hold_period_years" = Some v.
Proof.
  intros Hrun.
  assert (∀ x, x ∈ input_names → s !! x = s' !! x) as Hin.
  { intros x Hx. symmetry. eapply proforma_frame; [exact Hrun|].
    revert x Hx. apply Forall_forall. compute_done. }
  assert (s' ⊨ "hard_costs" ≐ var "buildable_sf" *' var "hard_cost_per_sf")
    as (? & _ & Hhard) by final_value Hrun.
  assert (s' ⊨ "soft_costs" ≐ var "hard_costs" *' (var "soft_cost_pct" /' flt f100))
    as (? & _ & Hsoft) by final_value Hrun.
  assert (s' ⊨ "contingency" ≐
            (var "hard_costs" +' var "soft_costs") *' (var "contingency_pct" /' flt f100))
    as (? & _ & Hcont) by final_value Hrun.
  assert (s' ⊨ "total_project_cost" ≐
            var "land_cost" +' var "hard_costs" +' var "soft_costs" +' var "contingency")
    as (? & _ & Htpc) by final_value Hrun.
  assert (s' ⊨ "loan_amount" ≐ var "total_project_cost" *' (var "loan_to_cost" /' flt f100))
    as (? & _ & Hloan) by final_value Hrun.
  assert (s' ⊨ "pgi" ≐ var "buildable_sf" *' var "rent_per_sf_year")
    as (? & _ & Hpgi) by final_value Hrun.
  assert (s' ⊨ "vacancy_loss" ≐ var "pgi" *' (var "stabilized_vacancy_pct" /' flt f100))
    as (? & _ & Hvac) by final_value Hrun.
  assert (s' ⊨ "op_ex" ≐ var "egi" *' (var "op_ex_pct" /' flt f100))
    as (? & _ & Hopex) by final_value Hrun.
  assert (s' ⊨ "cap_rate_decimal" ≐
            ifelse (var "exit_cap_rate" /' flt f100) (gt0 (var "exit_cap_rate"))
                   (flt f1e_4)) as (? & _ & Hcrd) by final_value Hrun.
  assert (s' ⊨ "sale_costs" ≐ var "stabilized_value" *' (var "sale_cost_pct" /' flt f100))
    as (? & _ & Hsc) by final_value Hrun.
  assert (s' ⊨ "irr" ≐ call3 (calc_irr pow) (var "equity_exit_cash")
            (var "equity_required") (var "hold_period_years")) as (? & _ & Hirr)
    by final_value Hrun.
  split.
  - repeat (apply Forall_cons_2; [rewrite Hin by compute_done|]); [..|apply Forall_nil_2].
    + eapply var_operand_l; [apply arith_not_None | exact Hhard].
    + apply binop_Ok in Htpc as (? & ? & Htpc & _).
      apply binop_Ok in Htpc as (? & ? & Htpc & _).
      eapply var_operand_l; [apply arith_not_None | exact Htpc].
    + eapply var_operand_r; [apply arith_not_None | exact Hhard].
    + eapply var_percent; exact Hsoft.
    + eapply var_percent; exact Hcont.
    + eapply var_percent; exact Hloan.
    + eapply var_operand_r; [apply arith_not_None | exact Hpgi].
    + eapply var_percent; exact Hvac.
    + eapply var_percent; exact Hopex.
    + unfold ifelse, gt0 in Hcrd.
      apply bind_Ok in Hcrd as (t & (w & Hw%var_Ok & Ht)%bind_Ok & _).
      exists w. split; [done|]. by destruct w.
    + eapply var_percent; exact Hsc.
  - rewrite Hin by compute_done. unfold call3 in Hirr.
    apply bind_Ok in Hirr as (? & _ & Hirr).
    apply bind_Ok in Hirr as (? & _ & Hirr).
    apply bind_Ok in Hirr as (w & Hw%var_Ok & _). eauto.
Qed.

Lemma used_inputs_required_witness :
  Forall (λ x, ∃ v, defaults64 !! x = Some v ∧ v ≠ VNone)
    ["buildable_sf"; "land_cost"; "hard_cost_per_sf"; "soft_cost_pct";
     "contingency_pct"; "loan_to_cost"; "rent_per_sf_year";
     "stabilized_vacancy_pct"; "op_ex_pct"; "exit_cap_rate"; "sale_cost_pct"] ∧
  ∃ v, defaults64 !! "hold_period_years" = Some v.
Proof. exact (used_inputs_required pow_sample64 defaults64 final64 run_defaults64). Defined.

Lemma run_all_equity64 : exec (proforma pow_sample64) all_equity64 = Ok final_all_equity64.
Proof. apply is_ok_result. vm_compute. reflexivity. Qed.

Lemma run_other_display64 :
  exec (proforma pow_sample64) other_display64 = Ok final_other_display64.
Proof. apply is_ok_result. vm_compute. reflexivity. Qed.

Lemma all_equity_deal_witness :
  ∃ net_sale_before_debt developer_profit_unlevered,
    final_all_equity64 !! "net_sale_before_debt" = Some (VFloat net_sale_before_debt) ∧
    final_all_equity64 !! "developer_profit_unlevered"
      = Some (VFloat developer_profit_unlevered) ∧
    final_all_equity64 !! "loan_amount" = Some (VFloat 0%float) ∧
    final_all_equity64 !! "equity_required" = Some (VFloat 1365375%float) ∧
    final_all_equity64 !! "equity_exit_cash" = Some (VFloat net_sale_before_debt) ∧
    final_all_equity64 !! "equity_profit" = Some (VFloat developer_profit_unlevered) ∧
    final_all_equity64 !! "equity_multiple"
      = Some (VFloat (net_sale_before_debt / 1365375)%float).
Proof.
  apply (all_equity_deal pow_sample64 all_equity64 final_all_equity64 1365375%float
           run_all_equity64); vm_compute; reflexivity.
Defined.

Lemma page_ignores_display_only_witness : page final64 = page final_other_display64.
Proof.
  apply (page_ignores_display_only pow_sample64 defaults64 other_display64);
    [|exact run_defaults64 | exact run_other_display64].
  intros x Hx. unfold other_display64, display_only in *.
  rewrite !lookup_insert_ne; [reflexivity|intros <-..]; apply Hx; compute_done.
Defined.

(** * Rounding to a double *)

Lemma digits2_pos_unique (p : positive) (k : Z) :
  2 ^ (k - 1) <= Zpos p < 2 ^ k → Zpos (digits2_pos p) = k.
Proof.
  intros [Hlo Hhi]. pose proof (digits2_pos_bounds p) as [Hlo' Hhi'].
  assert (0 < k).
  { destruct k as [|k|k]; [simpl in Hhi; lia | lia |].
    rewrite Z.pow_neg_r in Hhi; lia. }
  destruct (Z.lt_trichotomy (Zpos (digits2_pos p)) k) as [Hlt|[Heq|Hgt]]; [|done|].
  - assert (2 ^ Zpos (digits2_pos p) <= 2 ^ (k - 1)) by (apply Z.pow_le_mono_r; lia). lia.
  - assert (2 ^ k <= 2 ^ (Zpos (digits2_pos p) - 1)) by (apply Z.pow_le_mono_r; lia). lia.
Qed.

Lemma shr_1_m (r : shr_record) : 0 <= shr_m r → shr_m (shr_1 r) = shr_m r / 2.
Proof.
  destruct r as [m r s]. simpl. intros Hm.
  destruct m as [|[p|p|]|p]; cbn [shr_m]; try lia; try done.
  - apply Z.div_unique with 1; lia.
  - apply Z.div_unique with 0; lia.
Qed.

Lemma shr_1_nonneg (r : shr_record) : 0 <= shr_m r → 0 <= shr_m (shr_1 r).
Proof. intros Hm. rewrite shr_1_m by done. apply Z.div_pos; lia. Qed.

Lemma iter_pos_shr_1 (n : positive) (r : shr_record) :
  0 <= shr_m r →
  0 <= shr_m (SpecFloat.iter_pos shr_1 n r) ∧ shr_m (SpecFloat.iter_pos shr_1 n r) = shr_m r / 2 ^ Zpos n.
Proof.
  revert r. induction n as [n IH|n IH|]; intros r Hr; simpl SpecFloat.iter_pos.
  - destruct (IH (shr_1 r) (shr_1_nonneg r Hr)) as [H1 E1].
    destruct (IH _ H1) as [H2 E2]. split; [done|].
    rewrite E2, E1, shr_1_m by done.
    rewrite !Z.div_div by (try apply Z.pow_pos_nonneg; lia). f_equal.
    replace (Z.pos n~1) with (Z.pos n + Z.pos n + 1) by lia.
    rewrite !Z.pow_add_r by lia. change (2 ^ 1) with 2. lia.
  - destruct (IH r Hr) as [H1 E1]. destruct (IH _ H1) as [H2 E2]. split; [done|].
    rewrite E2, E1. rewrite !Z.div_div by (try apply Z.pow_pos_nonneg; lia). f_equal.
    replace (Z.pos n~0) with (Z.pos n + Z.pos n) by lia.
    rewrite !Z.pow_add_r by lia. lia.
  - split; [by apply shr_1_nonneg|]. by rewrite shr_1_m.
Qed.

(** [shr] divides the mantissa by 2^n and adds n to the exponent. *)
Lemma shr_spec (r : shr_record) (e n : Z) :
  0 <= shr_m r →
  shr_m (fst (shr r e n)) = shr_m r / 2 ^ Z.max 0 n ∧ snd (shr r e n) = e + Z.max 0 n.
Proof.
  intros Hr. unfold shr. destruct n as [|n|n]; simpl fst; simpl snd.
  - simpl. rewrite Z.div_1_r. lia.
  - destruct (iter_pos_shr_1 n r Hr) as [_ ->]. rewrite Z.max_r by lia. done.
  - simpl. rewrite Z.div_1_r. lia.
Qed.

Lemma round_nearest_even_bounds (m : Z) (l : location) :
  m <= round_nearest_even m l <= m + 1.
Proof. destruct l as [|[]]; simpl; try lia. destruct (Z.even m); lia. Qed.

Lemma shr_record_of_loc_m (m : Z) (l : location) : shr_m (shr_record_of_loc m l) = m.
Proof. by destruct l as [|[]]. Qed.

(** What [binary_round_aux] computes on a positive mantissa: a shift to
    at most 53 bits, a rounding that adds at most one, and a second shift. *)
Lemma binary_round_aux_shape (s : bool) (m : positive) (e : Z) (l : location) :
  ∃ m1 : Z,
    Zpos m / 2 ^ Z.max 0 (fexp prec emax (Zpos (digits2_pos m) + e) - e) <= m1
      <= Zpos m / 2 ^ Z.max 0 (fexp prec emax (Zpos (digits2_pos m) + e) - e) + 1 ∧
    binary_round_aux prec emax s (Zpos m) e l =
      let e1 := e + Z.max 0 (fexp prec emax (Zpos (digits2_pos m) + e) - e) in
      let n2 := Z.max 0 (fexp prec emax (Zdigits2 m1 + e1) - e1) in
      match m1 / 2 ^ n2 with
      | Z0 => S754_zero s
      | Zpos m2 =>
          if e1 + n2 <=? emax - prec then S754_finite s m2 (e1 + n2) else S754_infinity s
      | Zneg _ => S754_nan
      end.
Proof.
  unfold binary_round_aux, shr_fexp. cbn [Zdigits2].
  set (k1 := fexp prec emax (Zpos (digits2_pos m) + e) - e).
  pose proof (shr_spec (shr_record_of_loc (Zpos m) l) e k1) as H1.
  rewrite shr_record_of_loc_m in H1. specialize (H1 ltac:(lia)).
  destruct (shr (shr_record_of_loc (Zpos m) l) e k1) as [mrs' e'].
  cbn [fst snd] in H1. destruct H1 as [Hm' ->].
  set (m1 := round_nearest_even (shr_m mrs') (loc_of_shr_record mrs')).
  pose proof (round_nearest_even_bounds (shr_m mrs') (loc_of_shr_record mrs')) as Hb.
  fold m1 in Hb. rewrite Hm' in Hb.
  assert (0 <= Zpos m / 2 ^ Z.max 0 k1) by (apply Z.div_pos; [lia | apply Z.pow_pos_nonneg; lia]).
  exists m1. split; [done|]. cbv zeta.
  set (k2 := fexp prec emax (Zdigits2 m1 + (e + Z.max 0 k1)) - (e + Z.max 0 k1)).
  pose proof (shr_spec (shr_record_of_loc m1 loc_Exact) (e + Z.max 0 k1) k2) as H2.
  rewrite shr_record_of_loc_m in H2. specialize (H2 ltac:(lia)).
  destruct (shr (shr_record_of_loc m1 loc_Exact) (e + Z.max 0 k1) k2) as [mrs'' e''].
  cbn [fst snd] in H2. destruct H2 as [-> ->]. reflexivity.
Qed.

Lemma fexp_normal (x : Z) : -1021 <= x → fexp prec emax x = x - 53.
Proof. unfold fexp, emin, prec, emax. lia. Qed.

Lemma Zdigits2_unique (m k : Z) : 0 < k → 2 ^ (k - 1) <= m < 2 ^ k → Zdigits2 m = k.
Proof.
  intros Hk [Hlo Hhi].
  assert (0 < 2 ^ (k - 1)) by (apply Z.pow_pos_nonneg; lia).
  destruct m as [|p|p]; [lia| |lia]. simpl. by apply digits2_pos_unique.
Qed.

(** Rounding a mantissa of at least 53 bits, in the range of the normal
    doubles: the result has 53 bits, lies in the binade of the argument
    or at the bottom of the next, and exceeds the argument by at most one
    unit in the last place. *)
Lemma binary_round_aux_normal (s : bool) (m : positive) (e : Z) (l : location) :
  53 <= Zpos (digits2_pos m) →
  -1021 <= Zpos (digits2_pos m) + e <= 1000 →
  ∃ m2 e2,
    binary_round_aux prec emax s (Zpos m) e l = S754_finite s m2 e2 ∧
    Zpos (digits2_pos m2) = 53 ∧
    Zpos (digits2_pos m) + e <= 53 + e2 <= Zpos (digits2_pos m) + e + 1 ∧
    Zpos m2 * 2 ^ (e2 - e) <= Zpos m + 2 ^ (Zpos (digits2_pos m) - 53) ∧
    Zpos m - 2 ^ (Zpos (digits2_pos m) - 53) < Zpos m2 * 2 ^ (e2 - e).
Proof.
  intros Hd Hde.
  destruct (binary_round_aux_shape s m e l) as (m1 & Hm1 & ->).
  pose proof (digits2_pos_bounds m) as [Hlo Hhi].
  set (d := Zpos (digits2_pos m)) in *.
  rewrite fexp_normal in * by lia.
  replace (d + e - 53 - e) with (d - 53) in * by lia.
  rewrite Z.max_r in * by lia.
  set (n := d - 53) in *.
  assert (0 < 2 ^ n) as Hn by (apply Z.pow_pos_nonneg; lia).
  assert (2 ^ (d - 1) = 2 ^ 52 * 2 ^ n) as E1
    by (rewrite <- Z.pow_add_r by lia; f_equal; lia).
  assert (2 ^ d = 2 ^ 53 * 2 ^ n) as E2
    by (rewrite <- Z.pow_add_r by lia; f_equal; lia).
  assert (2 ^ 52 <= Zpos m / 2 ^ n < 2 ^ 53) as [Hq0 Hq1].
  { split.
    - apply Z.div_le_lower_bound; lia.
    - apply Z.div_lt_upper_bound; lia. }
  pose proof (Z.mul_div_le (Zpos m) (2 ^ n) Hn) as Hfloor.
  pose proof (Z.mod_pos_bound (Zpos m) (2 ^ n) Hn) as Hmod.
  pose proof (Z.div_mod (Zpos m) (2 ^ n) ltac:(lia)) as Hdm.
  set (q := Zpos m / 2 ^ n) in *.
  cbv zeta.
  destruct (Z.eq_dec m1 (2 ^ 53)) as [->|Hne].
  - (* the rounding carried to the next binade *)
    rewrite (Zdigits2_unique (2 ^ 53) 54) by (first [lia | split; [done | lia]]).
    rewrite fexp_normal by lia.
    replace (54 + (e + n) - 53 - (e + n)) with 1 by lia.
    change (2 ^ 53 / 2 ^ Z.max 0 1) with (Zpos (2 ^ 52)).
    change (Z.max 0 1) with 1.
    destruct (Z.leb_spec (e + n + 1) (emax - prec)) as [_|Hov];
      [|unfold emax, prec in Hov; lia].
    exists (2 ^ 52)%positive, (e + n + 1). split; [done|].
    split; [reflexivity|]. split; [lia|].
    replace (e + n + 1 - e) with (n + 1) by lia.
    rewrite Z.pow_add_r by lia. change (2 ^ 1) with 2.
    change (Zpos (2 ^ 52)) with (2 ^ 52). change (2 ^ 53) with (2 * 2 ^ 52) in *. nia.
  - assert (2 ^ 52 <= m1 < 2 ^ 53) as Hm1' by lia.
    rewrite (Zdigits2_unique m1 53) by (first [lia | exact Hm1']).
    rewrite fexp_normal by lia.
    replace (53 + (e + n) - 53 - (e + n)) with 0 by lia.
    change (Z.max 0 0) with 0. rewrite Z.pow_0_r, Z.div_1_r, Z.add_0_r.
    destruct m1 as [|p|p]; [lia| |lia].
    destruct (Z.leb_spec (e + n) (emax - prec)) as [_|Hov];
      [|unfold emax, prec in Hov; lia].
    exists p, (e + n). split; [done|].
    split; [by apply digits2_pos_unique|]. split; [lia|].
    replace (e + n - e) with n by lia. nia.
Qed.

(** The same for [binary_round], which first shifts a short mantissa to
    53 bits: then the result is exact. *)
Lemma binary_round_normal (s : bool) (m : positive) (e : Z) :
  -1021 <= Zpos (digits2_pos m) + e <= 1000 →
  ∃ m2 e2,
    binary_round prec emax s m e = S754_finite s m2 e2 ∧
    Zpos (digits2_pos m2) = 53 ∧
    Zpos (digits2_pos m) + e <= 53 + e2 <= Zpos (digits2_pos m) + e + 1.
Proof.
  intros Hde. unfold binary_round, shl_align.
  rewrite fexp_normal by lia.
  destruct (Zpos (digits2_pos m) + e - 53 - e) as [|k|k] eqn:Hk.
  - destruct (binary_round_aux_normal s m e loc_Exact) as (m2 & e2 & -> & Hd & Hb & _);
      [lia | lia |]. by exists m2, e2.
  - destruct (binary_round_aux_normal s m e loc_Exact) as (m2 & e2 & -> & Hd & Hb & _);
      [lia | lia |]. by exists m2, e2.
  - destruct (binary_round_aux_normal s (Pos.iter xO m k)
                (Zpos (digits2_pos m) + e - 53) loc_Exact) as (m2 & e2 & -> & Hd & Hb & _).
    + rewrite digits2_pos_iter_xO. lia.
    + rewrite digits2_pos_iter_xO. lia.
    + rewrite digits2_pos_iter_xO in Hb. exists m2, e2. repeat split; [done|lia..].
Qed.

Lemma digits2_pos_mul (p q : positive) :
  Zpos (digits2_pos p) + Zpos (digits2_pos q) - 1 <= Zpos (digits2_pos (p * q))
    <= Zpos (digits2_pos p) + Zpos (digits2_pos q).
Proof.
  pose proof (digits2_pos_bounds p) as [Hp0 Hp1].
  pose proof (digits2_pos_bounds q) as [Hq0 Hq1].
  pose proof (digits2_pos_bounds (p * q)) as [Hr0 Hr1].
  set (dp := Zpos (digits2_pos p)) in *. set (dq := Zpos (digits2_pos q)) in *.
  set (dr := Zpos (digits2_pos (p * q))) in *.
  assert (0 < dp ∧ 0 < dq ∧ 0 < dr) as (? & ? & ?) by (unfold dp, dq, dr; lia).
  rewrite Pos2Z.inj_mul in Hr0, Hr1.
  assert (0 < 2 ^ (dp - 1)) by (apply Z.pow_pos_nonneg; lia).
  assert (0 < 2 ^ (dq - 1)) by (apply Z.pow_pos_nonneg; lia).
  assert (2 ^ (dp - 1 + (dq - 1)) <= Zpos p * Zpos q) as Hlo
    by (rewrite Z.pow_add_r by lia; nia).
  assert (Zpos p * Zpos q < 2 ^ (dp + dq)) as Hhi
    by (rewrite Z.pow_add_r by lia; nia).
  split.
  - destruct (Z.le_gt_cases (dp + dq - 1) dr) as [|Hc]; [done|].
    assert (2 ^ dr <= 2 ^ (dp - 1 + (dq - 1))) by (apply Z.pow_le_mono_r; lia). lia.
  - destruct (Z.le_gt_cases dr (dp + dq)) as [|Hc]; [done|].
    assert (2 ^ (dp + dq) <= 2 ^ (dr - 1)) by (apply Z.pow_le_mono_r; lia). lia.
Qed.

Lemma digits2_pos_add (p q : positive) :
  Z.max (Zpos (digits2_pos p)) (Zpos (digits2_pos q)) <= Zpos (digits2_pos (p + q))
    <= Z.max (Zpos (digits2_pos p)) (Zpos (digits2_pos q)) + 1.
Proof.
  pose proof (digits2_pos_bounds p) as [Hp0 Hp1].
  pose proof (digits2_pos_bounds q) as [Hq0 Hq1].
  pose proof (digits2_pos_bounds (p + q)) as [Hr0 Hr1].
  set (dp := Zpos (digits2_pos p)) in *. set (dq := Zpos (digits2_pos q)) in *.
  set (dr := Zpos (digits2_pos (p + q))) in *.
  assert (0 < dp ∧ 0 < dq ∧ 0 < dr) as (? & ? & ?) by (unfold dp, dq, dr; lia).
  rewrite Pos2Z.inj_add in Hr0, Hr1.
  set (d := Z.max dp dq).
  assert (2 ^ dp <= 2 ^ d) by (apply Z.pow_le_mono_r; lia).
  assert (2 ^ dq <= 2 ^ d) by (apply Z.pow_le_mono_r; lia).
  assert (2 ^ (d - 1) <= Zpos p + Zpos q) as Hlo.
  { unfold d. destruct (Z.max_spec dp dq) as [[_ ->]|[_ ->]]; lia. }
  assert (Zpos p + Zpos q < 2 ^ (d + 1)) as Hhi
    by (rewrite Z.pow_add_r by lia; change (2 ^ 1) with 2; lia).
  split.
  - destruct (Z.le_gt_cases d dr) as [|Hc]; [done|].
    assert (2 ^ dr <= 2 ^ (d - 1)) by (apply Z.pow_le_mono_r; lia). lia.
  - destruct (Z.le_gt_cases dr (d + 1)) as [|Hc]; [done|].
    assert (2 ^ (d + 1) <= 2 ^ (dr - 1)) by (apply Z.pow_le_mono_r; lia). lia.
Qed.

(** * Arithmetic on positive doubles *)

(** A double above the subnormal range has a mantissa of 53 bits. *)
Lemma normal_digits (x : float) (s : bool) (m : positive) (e : Z) :
  Prim2SF x = S754_finite s m e → -1021 <= Zpos (digits2_pos m) + e →
  Zpos (digits2_pos m) = 53.
Proof.
  intros Hx Hb. pose proof (FloatAxioms.Prim2SF_valid x) as Hv. rewrite Hx in Hv.
  unfold valid_binary, bounded, canonical_mantissa in Hv.
  apply andb_prop in Hv as [Hc%Z.eqb_eq _]. rewrite fexp_normal in Hc by lia. lia.
Qed.

Lemma positive_double_weaken (x : float) (lo hi lo' hi' : Z) :
  positive_double x lo hi → lo' <= lo → hi <= hi' → positive_double x lo' hi'.
Proof. intros (m & e & Hx & Hb) Hlo Hhi. exists m, e. split; [done | lia]. Qed.

Lemma positive_double_gt0 (x : float) (lo hi : Z) :
  positive_double x lo hi → PrimFloat.ltb 0 x = true ∧ PrimFloat.leb x 0 = false.
Proof.
  intros (m & e & Hx & _).
  rewrite FloatAxioms.ltb_spec, FloatAxioms.leb_spec, Hx. done.
Qed.

Lemma mul_positive_double (x y : float) (lx hx ly hy : Z) :
  positive_double x lx hx → positive_double y ly hy →
  -1021 <= lx → -1021 <= ly → -1020 <= lx + ly → hx + hy <= 1000 →
  positive_double (x * y) (lx + ly - 1) (hx + hy + 1).
Proof.
  intros (mx & ex & Hx & Hbx) (my & ey & Hy & Hby) Hlx Hly Hl Hh.
  pose proof (normal_digits x _ _ _ Hx ltac:(lia)) as Hdx.
  pose proof (normal_digits y _ _ _ Hy ltac:(lia)) as Hdy.
  pose proof (digits2_pos_mul mx my) as Hd.
  unfold positive_double. rewrite FloatAxioms.mul_spec, Hx, Hy. cbn [SF64mul SFmul xorb].
  destruct (binary_round_aux_normal false (mx * my) (ex + ey) loc_Exact)
    as (m2 & e2 & -> & Hd2 & Hb2 & _); [lia | lia |].
  exists m2, e2. split; [done | lia].
Qed.

Lemma mul_zero_positive_double (x : float) (lo hi : Z) :
  positive_double x lo hi → (x * 0)%float = 0%float.
Proof.
  intros (m & e & Hx & _). apply FloatAxioms.Prim2SF_inj.
  rewrite FloatAxioms.mul_spec, Hx. reflexivity.
Qed.

Lemma add_zero_positive_double (x : float) (lo hi : Z) :
  positive_double x lo hi → (x + 0)%float = x.
Proof.
  intros (m & e & Hx & _). apply FloatAxioms.Prim2SF_inj.
  rewrite FloatAxioms.add_spec, Hx. reflexivity.
Qed.

(** The mantissa of [shl_align], for a target exponent not above [e]. *)
Lemma shl_align_fst (m : positive) (e ez : Z) :
  ez <= e →
  Zpos (fst (shl_align m e ez)) = Zpos m * 2 ^ (e - ez) ∧
  Zpos (digits2_pos (fst (shl_align m e ez))) = Zpos (digits2_pos m) + (e - ez).
Proof.
  intros He. unfold shl_align. destruct (ez - e) as [|k|k] eqn:Hk; cbn [fst].
  - replace (e - ez) with 0 by lia. simpl. lia.
  - lia.
  - rewrite iter_xO_pow, digits2_pos_iter_xO. replace (e - ez) with (Zpos k) by lia. lia.
Qed.

Lemma add_positive_double (x y : float) (lx hx ly hy : Z) :
  positive_double x lx hx → positive_double y ly hy →
  -1021 <= lx → -1021 <= ly → hx <= 998 → hy <= 998 →
  positive_double (x + y) (Z.max lx ly) (Z.max hx hy + 2).
Proof.
  intros (mx & ex & Hx & Hbx) (my & ey & Hy & Hby) Hlx Hly Hhx Hhy.
  unfold positive_double. rewrite FloatAxioms.add_spec, Hx, Hy.
  cbn [SF64add SFadd cond_Zopp].
  destruct (shl_align_fst mx ex (Z.min ex ey)) as [_ Hda]; [lia|].
  destruct (shl_align_fst my ey (Z.min ex ey)) as [_ Hdb]; [lia|].
  set (a := fst (shl_align mx ex (Z.min ex ey))) in *.
  set (b := fst (shl_align my ey (Z.min ex ey))) in *.
  change (Zpos a + Zpos b) with (Zpos (a + b)). cbn [binary_normalize].
  pose proof (digits2_pos_add a b) as Hd.
  destruct (binary_round_normal false (a + b) (Z.min ex ey))
    as (m2 & e2 & -> & Hd2 & Hb2); [lia|].
  exists m2, e2. split; [done | lia].
Qed.

(** The product of two normal doubles, rounded up by at most one unit in
    the last place. *)
Lemma mul_upper_bound (x y : float) (mx my : positive) (ex ey : Z) :
  Prim2SF x = S754_finite false mx ex → Prim2SF y = S754_finite false my ey →
  Zpos (digits2_pos mx) = 53 → Zpos (digits2_pos my) = 53 →
  -1020 <= 106 + ex + ey → 106 + ex + ey <= 1000 →
  ∃ m2 e2,
    Prim2SF (x * y) = S754_finite false m2 e2 ∧
    105 + ex + ey <= 53 + e2 <= 107 + ex + ey ∧
    Zpos m2 * 2 ^ (e2 - (ex + ey)) <= Zpos mx * Zpos my + 2 ^ 53.
Proof.
  intros Hx Hy Hdx Hdy Hlo Hhi.
  pose proof (digits2_pos_mul mx my) as Hd.
  rewrite FloatAxioms.mul_spec, Hx, Hy. cbn [SF64mul SFmul xorb].
  destruct (binary_round_aux_normal false (mx * my) (ex + ey) loc_Exact)
    as (m2 & e2 & -> & Hd2 & Hb2 & Hup & _); [lia | lia |].
  exists m2, e2. split; [done|]. split; [lia|].
  rewrite Pos2Z.inj_mul in Hup.
  assert (2 ^ (Zpos (digits2_pos (mx * my)) - 53) <= 2 ^ 53)
    by (apply Z.pow_le_mono_r; lia).
  lia.
Qed.

(** The difference of two normal doubles, the larger first, is positive. *)
Lemma sub_positive_double (t l : float) (mt ml : positive) (et el : Z) :
  Prim2SF t = S754_finite false mt et → Prim2SF l = S754_finite false ml el →
  Zpos (digits2_pos mt) = 53 → Zpos (digits2_pos ml) = 53 →
  -1020 <= et → -1020 <= el → et <= 900 →
  Zpos ml * 2 ^ (el - Z.min et el) < Zpos mt * 2 ^ (et - Z.min et el) →
  positive_double (t - l) (-1019) (et + 54).
Proof.
  intros Ht Hl Hdt Hdl Het Hel Hhi Hlt.
  unfold positive_double. rewrite FloatAxioms.sub_spec, Ht, Hl.
  cbn [SF64sub SFsub cond_Zopp].
  destruct (shl_align_fst mt et (Z.min et el)) as [Ha Hda]; [lia|].
  destruct (shl_align_fst ml el (Z.min et el)) as [Hb Hdb]; [lia|].
  set (a := fst (shl_align mt et (Z.min et el))) in *.
  set (b := fst (shl_align ml el (Z.min et el))) in *.
  destruct (Zpos a - Zpos b) as [|p|p] eqn:Hp; [lia| |lia].
  cbn [binary_normalize].
  assert (Zpos (digits2_pos p) <= Zpos (digits2_pos a)) as Hdp.
  { pose proof (digits2_pos_bounds p) as [Hp0 _].
    pose proof (digits2_pos_bounds a) as [_ Ha1].
    destruct (Z.le_gt_cases (Zpos (digits2_pos p)) (Zpos (digits2_pos a))) as [|Hc]; [done|].
    assert (2 ^ Zpos (digits2_pos a) <= 2 ^ (Zpos (digits2_pos p) - 1))
      by (apply Z.pow_le_mono_r; lia).
    lia. }
  destruct (binary_round_normal false p (Z.min et el))
    as (m2 & e2 & -> & Hd2 & Hb2); [lia|].
  exists m2, e2. split; [done | lia].
Qed.

(** [t - t * c] is positive for a normal double [t] and a double [c] with
    a 53-bit mantissa and [c <= 0.85]. *)
Lemma retained_share_positive (t c : float) (mc : positive) (ec : Z) (lo hi : Z) :
  positive_double t lo hi → -900 <= lo → hi <= 900 →
  Prim2SF c = S754_finite false mc ec →
  Zpos (digits2_pos mc) = 53 → -100 <= ec <= 0 →
  100 * Zpos mc <= 85 * 2 ^ (- ec) →
  positive_double (t - t * c) (-1019) (hi + 1).
Proof.
  intros (mt & et & Ht & Hbt) Hlo Hhi Hc Hdc Hec Hle.
  pose proof (normal_digits t _ _ _ Ht ltac:(lia)) as Hdt.
  destruct (mul_upper_bound t c mt mc et ec Ht Hc Hdt Hdc)
    as (ml & el & Hl & Hbl & Hup); [lia | lia |].
  pose proof (normal_digits (t * c) _ _ _ Hl ltac:(lia)) as Hdl.
  eapply positive_double_weaken;
    [eapply (sub_positive_double t (t * c) mt ml et el); try done; try lia | lia | lia].
  pose proof (digits2_pos_bounds mt) as [Hmt0 _]. rewrite Hdt in Hmt0.
  pose proof (digits2_pos_bounds mc) as [Hmc0 _]. rewrite Hdc in Hmc0.
  change (2 ^ (53 - 1)) with (2 ^ 52) in *.
  set (X := 2 ^ (- ec)) in *.
  assert (Zpos mt * Zpos mc + 2 ^ 53 < Zpos mt * X) as Hkey.
  { assert (2 ^ 52 * 2 ^ 52 <= Zpos mt * Zpos mc) by nia.
    assert (100 * (Zpos mt * Zpos mc) <= 85 * (Zpos mt * X)) by nia.
    change (2 ^ 52) with 4503599627370496 in *.
    change (2 ^ 53) with 9007199254740992. lia. }
  (* both sides scaled by 2^(ez - (et + ec)) *)
  set (ez := Z.min et el).
  assert (et + ec <= ez) by (unfold ez; lia).
  assert (0 < 2 ^ (ez - (et + ec))) as Hk by (apply Z.pow_pos_nonneg; lia).
  apply (Z.mul_lt_mono_pos_r (2 ^ (ez - (et + ec)))); [done|].
  rewrite <- !Z.mul_assoc, <- !Z.pow_add_r by (unfold ez; lia).
  replace (el - ez + (ez - (et + ec))) with (el - (et + ec)) by lia.
  replace (et - ez + (ez - (et + ec))) with (- ec) by lia.
  fold X. lia.
Qed.

(** * The widgets' values as doubles *)

Lemma of_Z_positive_double (z lo hi : Z) :
  2 ^ (lo - 1) <= z < 2 ^ hi → 0 < lo → hi <= 53 →
  ∃ x, Binary64.of_Z z = Some x ∧ positive_double x lo hi.
Proof.
  intros [Hlo Hhi] Hl Hh.
  assert (0 < 2 ^ (lo - 1)) by (apply Z.pow_pos_nonneg; lia).
  assert (0 <= hi).
  { destruct (Z.lt_ge_cases hi 0) as [Hneg|]; [|done].
    rewrite (Z.pow_neg_r 2 hi Hneg) in Hhi. lia. }
  assert (2 ^ hi <= 2 ^ 53) by (apply Z.pow_le_mono_r; lia).
  destruct (of_Z_small z) as (x & Hx & Hsf); [lia|].
  exists x. split; [done|].
  destruct z as [|p|p]; [lia| |lia].
  destruct Hsf as (m & e & Hsf & He & Hm). exists m, e. split; [done|].
  simpl Z.abs in Hm.
  pose proof (digits2_pos_bounds m) as [Hm0 Hm1]. rewrite Hm in Hm0, Hm1.
  set (d := Zpos (digits2_pos m)) in *.
  assert (0 < 2 ^ (- e)) by (apply Z.pow_pos_nonneg; lia).
  split.
  - destruct (Z.le_gt_cases lo (d + e)) as [|Hc]; [done|].
    assert (2 ^ d <= 2 ^ (lo - 1) * 2 ^ (- e)); [|nia].
    rewrite <- !Z.pow_add_r by lia. apply Z.pow_le_mono_r; lia.
  - destruct (Z.le_gt_cases (d + e) hi) as [|Hc]; [done|].
    assert (2 ^ hi * 2 ^ (- e) <= 2 ^ (d - 1)); [|nia].
    rewrite <- !Z.pow_add_r by lia. apply Z.pow_le_mono_r; lia.
Qed.

Ltac double_of x :=
  let v := eval vm_compute in (Prim2SF x) in
  lazymatch v with
  | S754_finite false ?m ?e =>
      exists m, e; split; [vm_compute; reflexivity|]
  end.

Lemma soft_cost_pct_share (c : float) :
  c ∈ soft_cost_pct_values → positive_double (c / 100) (-4) (-1).
Proof.
  revert c. apply Forall_forall. unfold soft_cost_pct_values. cbn [slider_values].
  repeat (constructor;
          [match goal with |- positive_double ?x _ _ => double_of x end;
           vm_compute; split; discriminate|]).
  constructor.
Qed.

Lemma contingency_pct_share (c : float) :
  c ∈ contingency_pct_values →
  (c / 100)%float = 0%float ∨ positive_double (c / 100) (-7) (-2).
Proof.
  revert c. apply Forall_forall. unfold contingency_pct_values. cbn [slider_values].
  constructor; [left; vm_compute; reflexivity|].
  repeat (constructor;
          [right; match goal with |- positive_double ?x _ _ => double_of x end;
           vm_compute; split; discriminate|]).
  constructor.
Qed.

Lemma loan_to_cost_share (c : float) :
  c ∈ loan_to_cost_values →
  (c / 100)%float = 0%float ∨
  ∃ mc ec, Prim2SF (c / 100) = S754_finite false mc ec ∧
    Zpos (digits2_pos mc) = 53 ∧ -100 <= ec <= 0 ∧ 100 * Zpos mc <= 85 * 2 ^ (- ec).
Proof.
  revert c. apply Forall_forall. unfold loan_to_cost_values. cbn [slider_values].
  constructor; [left; vm_compute; reflexivity|].
  repeat (constructor;
          [right;
           match goal with |- ∃ mc ec, Prim2SF ?x = _ ∧ _ => double_of x end;
           vm_compute; repeat split; discriminate|]).
  constructor.
Qed.

(** * The sentinels are out of the widgets' reach *)

(** total_project_cost on the widgets' values: a positive double. *)
Lemma total_project_cost_positive (H A sp cp : float) :
  positive_double H 17 25 → positive_double A 17 25 →
  sp ∈ soft_cost_pct_values → cp ∈ contingency_pct_values →
  positive_double (A + H * (sp / 100) + (H + H * (sp / 100)) * (cp / 100)) 17 29.
Proof.
  intros HH HA Hsp%soft_cost_pct_share Hcp%contingency_pct_share.
  pose proof (mul_positive_double _ _ _ _ _ _ HH Hsp) as Hsoft.
  repeat (specialize (Hsoft ltac:(lia))). simpl in Hsoft.
  pose proof (add_positive_double _ _ _ _ _ _ HA Hsoft) as HAs.
  repeat (specialize (HAs ltac:(lia))). simpl in HAs.
  pose proof (add_positive_double _ _ _ _ _ _ HH Hsoft) as HHs.
  repeat (specialize (HHs ltac:(lia))). simpl in HHs.
  destruct Hcp as [-> | Hcp].
  - rewrite (mul_zero_positive_double _ _ _ HHs), (add_zero_positive_double _ _ _ HAs).
    eapply positive_double_weaken; [exact HAs | lia | lia].
  - pose proof (mul_positive_double _ _ _ _ _ _ HHs Hcp) as Hcont.
    repeat (specialize (Hcont ltac:(lia))). simpl in Hcont.
    pose proof (add_positive_double _ _ _ _ _ _ HAs Hcont) as Htpc.
    repeat (specialize (Htpc ltac:(lia))). simpl in Htpc. exact Htpc.
Qed.

(** equity_required on the widgets' values: a positive double. *)
Lemma equity_required_positive (t ltc : float) :
  positive_double t 17 29 → ltc ∈ loan_to_cost_values →
  positive_double (t - t * (ltc / 100)) (-1019) 30.
Proof.
  intros Ht [-> | (mc & ec & Hc & Hd & He & Hle)]%loan_to_cost_share.
  - rewrite (mul_zero_positive_double _ _ _ Ht), binary64_sub_zero.
    eapply positive_double_weaken; [exact Ht | lia | lia].
  - eapply positive_double_weaken;
      [eapply (retained_share_positive t _ mc ec 17 29); try done; lia | lia | lia].
Qed.

(** After lines 123-158, with a positive equity_required and a positive
    hold period, irr is None exactly when equity_exit_cash <= 0. *)
Lemma irr_none_iff {F : Type} `{PyFloatLaws F} `{!PyFloatInts F} (pow : F → F → exn F)
    (s s1 s' : gmap string (val F)) (a e : F) (n : Z) :
  exec before_irr s = Ok s1 →
  s1 !! "equity_exit_cash" = Some (VFloat a) →
  s1 !! "equity_required" = Some (VFloat e) →
  s1 !! "hold_period_years" = Some (VInt n) →
  0 < n < 2 ^ 53 → fleb e f0 = false →
  exec (proforma pow) s = Ok s' →
  s' !! "irr" = Some VNone ↔ fleb a f0 = true.
Proof.
  intros Hrun Ha He Hn Hsmall Hpos Hrun'.
  rewrite proforma_before_irr, exec_app, Hrun in Hrun'.
  unfold levered_irr in Hrun'. cbn [mbind exn_bind exec] in Hrun'.
  unfold call3, var in Hrun'. rewrite Ha, He, Hn in Hrun'. cbn [mbind exn_bind] in Hrun'.
  destruct (of_int_small n) as (N & HN); [lia|].
  rewrite (calc_irr_closed pow a e N n HN) in Hrun' by lia.
  rewrite Hpos in Hrun'. cbn [orb] in Hrun'.
  destruct (Z.leb_spec n 0) as [|_]; [lia|]. rewrite orb_false_r in Hrun'.
  destruct (fleb a f0).
  - cbn [mbind exn_bind] in Hrun'. injection Hrun' as <-.
    by rewrite lookup_insert_eq.
  - destruct (pow (fdiv a e) (fdiv f1 N)) as [p|err]; cbn [mbind exn_bind] in Hrun';
      [|done].
    injection Hrun' as <-. rewrite lookup_insert_eq. split; [done | done].
Qed.

Lemma guard_passes (x y : float) :
  PrimFloat.ltb 0 y = true →
  (if fltb f0 y then VFloat (fdiv x y) else VInt 0) = VFloat (F:=float) (x / y)%float.
Proof. intros Hy. change (fltb f0 y) with (PrimFloat.ltb 0 y). by rewrite Hy. Qed.

(** On every position of the widgets, total_project_cost and
    equity_required are positive: dev_margin_on_cost and equity_multiple
    are the quotients, never the int 0 of lines 148 and 157, and irr is
    None exactly when equity_exit_cash <= 0.  The int widgets give any int
    between their bounds; soft_cost_pct, contingency_pct, loan_to_cost and
    exit_cap_rate are positions of their sliders; the other floats are
    arbitrary. *)
Theorem sentinels_unreachable (pow : float → float → exn float)
    (buildable_sf units land_cost hard_cost_per_sf : Z)
    (soft_cost_pct contingency_pct loan_to_cost interest_rate : float)
    (rent_per_sf_year : Z)
    (stabilized_vacancy_pct op_ex_pct exit_cap_rate sale_cost_pct : float)
    (hold_period_years : Z) :
  offers buildable_sf_widget buildable_sf →
  offers land_cost_widget land_cost →
  offers hard_cost_per_sf_widget hard_cost_per_sf →
  offers rent_per_sf_year_widget rent_per_sf_year →
  offers hold_period_years_widget hold_period_years →
  soft_cost_pct ∈ soft_cost_pct_values →
  contingency_pct ∈ contingency_pct_values →
  loan_to_cost ∈ loan_to_cost_values →
  exit_cap_rate ∈ exit_cap_rate_values →
  let s := sidebar buildable_sf units land_cost hard_cost_per_sf
             soft_cost_pct contingency_pct loan_to_cost interest_rate
             rent_per_sf_year stabilized_vacancy_pct op_ex_pct exit_cap_rate
             sale_cost_pct hold_period_years in
  ∃ s1 total_project_cost equity_required developer_profit_unlevered equity_exit_cash,
    exec before_irr s = Ok s1 ∧
    s1 !! "total_project_cost" = Some (VFloat total_project_cost) ∧
    PrimFloat.ltb 0 total_project_cost = true ∧
    s1 !! "equity_required" = Some (VFloat equity_required) ∧
    PrimFloat.ltb 0 equity_required = true ∧
    s1 !! "developer_profit_unlevered" = Some (VFloat developer_profit_unlevered) ∧
    s1 !! "equity_exit_cash" = Some (VFloat equity_exit_cash) ∧
    s1 !! "dev_margin_on_cost"
      = Some (VFloat (developer_profit_unlevered / total_project_cost)%float) ∧
    s1 !! "equity_multiple" = Some (VFloat (equity_exit_cash / equity_required)%float) ∧
    ∀ s', exec (proforma pow) s = Ok s' →
          (s' !! "irr" = Some VNone ↔ PrimFloat.leb equity_exit_cash 0 = true).
Proof.
  intros Hb Hl Hh Hr Hn Hsp Hcp Hltc Hcap s.
  unfold offers in Hb, Hl, Hh, Hr, Hn.
  cbn [min_value max_value buildable_sf_widget land_cost_widget
    hard_cost_per_sf_widget rent_per_sf_year_widget hold_period_years_widget]
    in Hb, Hl, Hh, Hr, Hn.
  destruct (of_Z_positive_double (buildable_sf * hard_cost_per_sf) 17 25)
    as (x & Hx & HH); [change (2 ^ (17 - 1)) with 65536; change (2 ^ 25) with 33554432; nia
                      | lia | lia |].
  destruct (of_Z_positive_double (land_cost + buildable_sf * hard_cost_per_sf) 17 25)
    as (y & Hy & HA); [change (2 ^ (17 - 1)) with 65536; change (2 ^ 25) with 33554432; nia
                      | lia | lia |].
  destruct (of_int_small (F:=float) (buildable_sf * rent_per_sf_year)) as (z & Hz); [nia|].
  pose proof (run_before_irr buildable_sf units land_cost hard_cost_per_sf
                rent_per_sf_year hold_period_years soft_cost_pct contingency_pct
                loan_to_cost interest_rate stabilized_vacancy_pct op_ex_pct
                exit_cap_rate sale_cost_pct x y z Hx Hy Hz) as Hrun.
  cbv zeta in Hrun. fold s in Hrun.
  destruct (exit_cap_rate_values_safe _ Hcap) as [Hpos Hnz].
  rewrite Hpos, Hnz in Hrun.
  pose proof (total_project_cost_positive x y _ _ HH HA Hsp Hcp) as Htpc.
  pose proof (equity_required_positive _ _ Htpc Hltc) as Heq.
  destruct (positive_double_gt0 _ _ _ Htpc) as [Htpc0 _].
  destruct (positive_double_gt0 _ _ _ Heq) as [Heq0 Heq1].
  rewrite !guard_passes in Hrun by assumption.
  match type of Hrun with _ = Ok ?st => set (s1 := st) in Hrun end.
  assert (∃ a, s1 !! "equity_exit_cash" = Some (VFloat a)) as (eec & Heec)
    by (eexists; unfold s1; lookup_value).
  assert (∃ a, s1 !! "developer_profit_unlevered" = Some (VFloat a)) as (dp & Hdp)
    by (eexists; unfold s1; lookup_value).
  set (tpc := (y + x * (soft_cost_pct / 100)
               + (x + x * (soft_cost_pct / 100)) * (contingency_pct / 100))%float) in *.
  set (eq := (tpc - tpc * (loan_to_cost / 100))%float) in *.
  assert (s1 !! "total_project_cost" = Some (VFloat tpc)) as Htpc'
    by (unfold s1; lookup_value).
  assert (s1 !! "equity_required" = Some (VFloat eq)) as Heq'
    by (unfold s1; lookup_value).
  assert (s1 !! "hold_period_years" = Some (VInt hold_period_years)) as Hn'
    by (unfold s1; lookup_value).
  assert (s1 !! "dev_margin_on_cost" = Some (VFloat (dp / tpc)%float)) as Hm.
  { unfold s1 in Hdp |- *. revert Hdp. rewrite !lookup_insert_ne by done.
    rewrite lookup_insert_eq. rewrite !lookup_insert_ne by done.
    rewrite lookup_insert_eq. by intros [= <-]. }
  assert (s1 !! "equity_multiple" = Some (VFloat (eec / eq)%float)) as Hem.
  { unfold s1 in Heec |- *. revert Heec. rewrite !lookup_insert_ne by done.
    rewrite lookup_insert_eq. rewrite lookup_insert_eq. by intros [= <-]. }
  exists s1, tpc, eq, dp, eec. repeat (split; [assumption|]).
  intros s' Hrun'.
  exact (irr_none_iff pow s s1 s' eec eq hold_period_years Hrun Heec Heq' Hn'
           ltac:(lia) Heq1 Hrun').
Qed.

Ltac slider_position :=
  match goal with |- ?x ∈ ?y :: _ => replace y with x by (vm_compute; reflexivity) end;
  apply list_elem_of_here.

Lemma sentinels_unreachable_witness :
  ∃ s1 total_project_cost equity_required developer_profit_unlevered equity_exit_cash,
    exec before_irr
      (sidebar 2000 10 500000 350 15%float 7.5%float 65%float 7%float 45
               5%float 35%float 5%float 1%float 4) = Ok s1 ∧
    s1 !! "total_project_cost" = Some (VFloat total_project_cost) ∧
    PrimFloat.ltb 0 total_project_cost = true ∧
    s1 !! "equity_required" = Some (VFloat equity_required) ∧
    PrimFloat.ltb 0 equity_required = true ∧
    s1 !! "developer_profit_unlevered" = Some (VFloat developer_profit_unlevered) ∧
    s1 !! "equity_exit_cash" = Some (VFloat equity_exit_cash) ∧
    s1 !! "dev_margin_on_cost"
      = Some (VFloat (developer_profit_unlevered / total_project_cost)%float) ∧
    s1 !! "equity_multiple" = Some (VFloat (equity_exit_cash / equity_required)%float) ∧
    ∀ s', exec (proforma pow_sample64)
            (sidebar 2000 10 500000 350 15%float 7.5%float 65%float 7%float 45
                     5%float 35%float 5%float 1%float 4) = Ok s' →
          (s' !! "irr" = Some VNone ↔ PrimFloat.leb equity_exit_cash 0 = true).
Proof.
  apply (sentinels_unreachable pow_sample64 2000 10 500000 350 15%float 7.5%float
           65%float 7%float 45 5%float 35%float 5%float 1%float 4);
    [unfold offers; simpl; lia .. | | | |].
  - unfold soft_cost_pct_values. cbn [slider_values].
    do 10 apply list_elem_of_further. slider_position.
  - unfold contingency_pct_values. cbn [slider_values].
    do 15 apply list_elem_of_further. slider_position.
  - unfold loan_to_cost_values. cbn [slider_values].
    do 65 apply list_elem_of_further. slider_position.
  - unfold exit_cap_rate_values. cbn [slider_values].
    do 8 apply list_elem_of_further. slider_position.
Defined.
